(** * Trigger-Deployment: the kubectl portal handlers, embedded and verified

    The repository is a Flask front end that shells out to [kubectl].  This
    development embeds the request handlers of [version1/app.py] (temporary
    kubeconfig per request) and of [version2/.../app.py] and
    [version4/app.py] (session based "connect", audit log) as functions in a
    small state-and-exception monad over an explicit world: the server's
    environment variables, the temporary files, the kubeconfig that [kubectl]
    uses by default, the table of child processes, the Flask session and the
    audit table.

    Text is modelled by [string]; a character stands for the code point of
    the same number (0..255), which is the range on which the Python string
    methods below are defined here. *)

From Stdlib Require Import ZArith List Ascii String Bool Lia DecimalString.
From stdpp Require Import base option strings gmap.

Local Open Scope Z_scope.

(** ** Python's string methods *)

Module Py.

Definition chr (n : nat) : ascii := ascii_of_nat n.
Definition ord (c : ascii) : nat := nat_of_ascii c.

Definition between (lo hi n : nat) : bool := (lo <=? n)%nat && (n <=? hi)%nat.

(** [str.isspace] for one character: 9..13, 28..32, 0x85, 0xa0. *)
Definition isspace (c : ascii) : bool :=
  between 9 13 (ord c) || between 28 32 (ord c)
  || (ord c =? 133)%nat || (ord c =? 160)%nat.

(** The truth value of a string: empty is false. *)
Definition truthy (s : string) : bool :=
  match s with EmptyString => false | String _ _ => true end.

(** [a or b] on strings. *)
Definition str_or (a b : string) : string := if truthy a then a else b.

Fixpoint lstrip (s : string) : string :=
  match s with
  | EmptyString => EmptyString
  | String c s' => if isspace c then lstrip s' else s
  end.

Fixpoint rstrip (s : string) : string :=
  match s with
  | EmptyString => EmptyString
  | String c s' =>
      match rstrip s' with
      | EmptyString => if isspace c then EmptyString else String c EmptyString
      | r => String c r
      end
  end.

(** [s.strip()] *)
Definition strip (s : string) : string := rstrip (lstrip s).

(** [s.split()]: the maximal runs of non-whitespace characters. *)
Fixpoint split (s : string) : list string :=
  match s with
  | EmptyString => []
  | String c s' =>
      if isspace c then split s'
      else match s' with
           | EmptyString => [String c EmptyString]
           | String c' _ =>
               if isspace c' then String c EmptyString :: split s'
               else match split s' with
                    | w :: ws => String c w :: ws
                    | [] => [String c EmptyString]
                    end
           end
  end.

(** [s.startswith(p)] *)
Definition startswith (s p : string) : bool := String.prefix p s.

Fixpoint contains (c : ascii) (s : string) : bool :=
  match s with
  | EmptyString => false
  | String d s' => if Ascii.eqb c d then true else contains c s'
  end.

Fixpoint join (sep : string) (l : list string) : string :=
  match l with
  | [] => ""
  | [x] => x
  | x :: rest => x +:+ sep +:+ join sep rest
  end.

(** The text of a triple-quoted template: every line ends with a newline. *)
Definition nl : string := String (chr 10) "".
Definition unlines (l : list string) : string :=
  fold_right (fun line acc => line +:+ nl +:+ acc) "" l.

(** *** [repr] and [str] of values *)

Definition quote1 : ascii := chr 39.
Definition quote2 : ascii := chr 34.
Definition backslash : ascii := chr 92.

Definition hexdigit (n : nat) : ascii :=
  nth n (list_ascii_of_string "0123456789abcdef") "0"%char.

Definition hex2 (n : nat) : string :=
  String (hexdigit (n / 16)) (String (hexdigit (n mod 16)) "").

(** [str.isprintable] for one character. *)
Definition isprintable (c : ascii) : bool :=
  between 32 126 (ord c) || (between 161 255 (ord c) && negb (ord c =? 173)%nat).

Definition repr_char (q c : ascii) : string :=
  if Ascii.eqb c q || Ascii.eqb c backslash then String backslash (String c "")
  else if (ord c =? 9)%nat then "\t"
  else if (ord c =? 10)%nat then "\n"
  else if (ord c =? 13)%nat then "\r"
  else if isprintable c then String c ""
  else "\x" +:+ hex2 (ord c).

Fixpoint repr_body (q : ascii) (s : string) : string :=
  match s with
  | EmptyString => ""
  | String c s' => repr_char q c +:+ repr_body q s'
  end.

(** [repr(s)]: single quotes unless the text has a single quote and no
    double quote. *)
Definition repr (s : string) : string :=
  let q := if contains quote1 s && negb (contains quote2 s) then quote2 else quote1 in
  String q (repr_body q s +:+ String q "").

(** [repr] of a list of strings. *)
Definition repr_list (l : list string) : string :=
  "[" +:+ join ", " (map repr l) +:+ "]".

(** [str(n)] for an integer. *)
Definition str_of_int (z : Z) : string := NilZero.string_of_int (Z.to_int z).

(** *** [int(s)] *)

(** The characters [int] skips around the number. *)
Definition int_space (c : ascii) : bool :=
  between 9 13 (ord c) || (ord c =? 32)%nat
  || (ord c =? 133)%nat || (ord c =? 160)%nat.

Definition digit_of (c : ascii) : option Z :=
  if between 48 57 (ord c) then Some (Z.of_nat (ord c) - 48) else None.

Fixpoint skip_int_space (s : string) : string :=
  match s with
  | String c s' => if int_space c then skip_int_space s' else s
  | EmptyString => EmptyString
  end.

(** Digits with single underscores between them: the value read, the number
    of digits, and the rest of the text; [None] for a doubled or trailing
    underscore. *)
Fixpoint scan_digits (s : string) (prev_us : bool) (acc : Z) (n : nat)
  : option (Z * nat * string) :=
  match s with
  | EmptyString => if prev_us then None else Some (acc, n, s)
  | String c s' =>
      if Ascii.eqb c "_"%char then
        if prev_us then None else scan_digits s' true acc n
      else match digit_of c with
           | Some d => scan_digits s' false (10 * acc + d) (S n)
           | None => if prev_us then None else Some (acc, n, s)
           end
  end.

(** What the text after the sign is: a number, not a number, or a number
    with more digits than the interpreter converts. *)
Inductive scanned := Number (v : Z) | NotANumber | TooLong (digits : nat).

(** [limit] is [sys.get_int_max_str_digits()]; 0 stands for no limit. *)
Definition too_long (limit n : nat) : bool :=
  (640 <? n)%nat && (0 <? limit)%nat && (limit <? n)%nat.

Definition int_unsigned (limit : nat) (s : string) : scanned :=
  match s with
  | String c _ =>
      if Ascii.eqb c "_"%char then NotANumber
      else match scan_digits s false 0 0 with
           | Some (v, n, rest) =>
               if too_long limit n then TooLong n
               else match n, skip_int_space rest with
                    | S _, EmptyString => Number v
                    | _, _ => NotANumber
                    end
           | None => NotANumber
           end
  | EmptyString => NotANumber
  end.

(** The messages of the [ValueError] that [int(s)] raises. *)
Definition int_error (s : string) : string :=
  "invalid literal for int() with base 10: " +:+ String.substring 0 200 (repr s).

Definition int_limit_error (limit n : nat) : string :=
  "Exceeds the limit (" +:+ str_of_int (Z.of_nat limit)
    +:+ " digits) for integer string conversion: value has "
    +:+ str_of_int (Z.of_nat n)
    +:+ " digits; use sys.set_int_max_str_digits() to increase the limit".

(** [int(s)]: the integer, or the message of the [ValueError]. *)
Definition int (limit : nat) (s : string) : Z + string :=
  let signed (sign : Z) (r : scanned) :=
    match r with
    | Number v => inl (sign * v)
    | NotANumber => inr (int_error s)
    | TooLong n => inr (int_limit_error limit n)
    end in
  match skip_int_space s with
  | String c s' =>
      if Ascii.eqb c "-"%char then signed (-1) (int_unsigned limit s')
      else if Ascii.eqb c "+"%char then signed 1 (int_unsigned limit s')
      else signed 1 (int_unsigned limit (String c s'))
  | EmptyString => inr (int_error s)
  end.

(** *** [base64.b64encode(s.encode())] *)

(** [s.encode()]: UTF-8 *)
Fixpoint encode (s : string) : list N :=
  match s with
  | EmptyString => []
  | String c s' =>
      let n := N_of_ascii c in
      if (n <? 128)%N then n :: encode s'
      else (192 + n / 64)%N :: (128 + n mod 64)%N :: encode s'
  end.

Definition b64char (n : N) : ascii :=
  nth (N.to_nat n)
    (list_ascii_of_string
       "ABCDEFGHIJKLMNOPQRSTUVWXYZabcdefghijklmnopqrstuvwxyz0123456789+/")
    "A"%char.

Fixpoint b64encode (bs : list N) : string :=
  match bs with
  | a :: b :: c :: rest =>
      String (b64char (a / 4))
        (String (b64char ((a mod 4) * 16 + b / 16))
           (String (b64char ((b mod 16) * 4 + c / 64))
              (String (b64char (c mod 64)) (b64encode rest))))%N
  | [a; b] =>
      String (b64char (a / 4))
        (String (b64char ((a mod 4) * 16 + b / 16))
           (String (b64char ((b mod 16) * 4)) "="))%N
  | [a] =>
      String (b64char (a / 4)) (String (b64char ((a mod 4) * 16)) "==")%N
  | [] => ""
  end.

(** *** Documents: the dicts, lists and scalars handed to [json.dumps] and
    [yaml.safe_dump] *)

#[local] Set Warnings "-register-all".

Inductive value :=
| VStr (s : string)
| VInt (z : Z)
| VBool (b : bool)
| VList (l : list value)
| VDict (d : list (string * value)).

Inductive step := Key (k : string) | Idx (i : nat).

(** [d[k]] *)
Fixpoint dict_get (k : string) (d : list (string * value)) : option value :=
  match d with
  | [] => None
  | (k', v) :: d' => if String.eqb k' k then Some v else dict_get k d'
  end.

(** [d[k] = v]: the key keeps its place when present, else goes last. *)
Fixpoint dict_set (k : string) (v : value) (d : list (string * value))
  : list (string * value) :=
  match d with
  | [] => [(k, v)]
  | (k', v') :: d' =>
      if String.eqb k' k then (k', v) :: d' else (k', v') :: dict_set k v d'
  end.

(** [doc[s1][s2]...] *)
Fixpoint get (p : list step) (doc : value) : option value :=
  match p with
  | [] => Some doc
  | Key k :: p' =>
      match doc with VDict d => dict_get k d ≫= get p' | _ => None end
  | Idx i :: p' =>
      match doc with VList l => l !! i ≫= get p' | _ => None end
  end.

(** [doc[s1][s2]...[k] = v]; the handlers only assign below paths that
    exist, elsewhere the document is left as it is. *)
Fixpoint assign (p : list step) (k : string) (v : value) (doc : value) : value :=
  match p with
  | [] => match doc with VDict d => VDict (dict_set k v d) | _ => doc end
  | Key k' :: p' =>
      match doc with
      | VDict d =>
          VDict (map (fun '(key, x) =>
                        if String.eqb key k' then (key, assign p' k v x) else (key, x)) d)
      | _ => doc
      end
  | Idx i :: p' =>
      match doc with
      | VList l => VList (alter (assign p' k v) i l)
      | _ => doc
      end
  end.

(** *** [json.dumps(doc, indent=2)] *)

Definition hex4 (n : nat) : string := "00" +:+ hex2 n.

Definition json_char (c : ascii) : string :=
  if Ascii.eqb c quote2 || Ascii.eqb c backslash then String backslash (String c "")
  else if (ord c =? 10)%nat then "\n"
  else if (ord c =? 13)%nat then "\r"
  else if (ord c =? 9)%nat then "\t"
  else if (ord c =? 8)%nat then "\b"
  else if (ord c =? 12)%nat then "\f"
  else if between 32 126 (ord c) then String c ""
  else "\u" +:+ hex4 (ord c).

Fixpoint json_body (s : string) : string :=
  match s with
  | EmptyString => ""
  | String c s' => json_char c +:+ json_body s'
  end.

Definition json_string (s : string) : string :=
  String quote2 (json_body s +:+ String quote2 "").

Fixpoint spaces (n : nat) : string :=
  match n with O => "" | S n' => String " " (spaces n') end.

Definition bracket (l r : string) (lvl : nat) (items : list string) : string :=
  match items with
  | [] => l +:+ r
  | _ => l +:+ nl +:+ spaces (2 * S lvl)
           +:+ join ("," +:+ nl +:+ spaces (2 * S lvl)) items
           +:+ nl +:+ spaces (2 * lvl) +:+ r
  end.

Fixpoint dumps_at (lvl : nat) (doc : value) : string :=
  match doc with
  | VStr s => json_string s
  | VInt z => str_of_int z
  | VBool b => if b then "true" else "false"
  | VList l => bracket "[" "]" lvl (map (dumps_at (S lvl)) l)
  | VDict d =>
      bracket "{" "}" lvl
        (map (fun '(k, v) => json_string k +:+ ": " +:+ dumps_at (S lvl) v) d)
  end.

Definition json_dumps (doc : value) : string := dumps_at 0 doc.

End Py.

(** ** The world a request runs in

    The machine is described by what the handlers can observe of it.  The
    n-th child process that is started behaves as [oracle n] says: how
    kubectl answers depends on the cluster, on the kubeconfig it reads and on
    its arguments, none of which the handlers inspect, so every answer is
    possible at every call.  A child that exits with status 0 has had its
    effect on the machine ([child_effect] below) by the time the wait for it
    returns.  Writing the temporary kubeconfig may fail ([write_error]);
    [os.remove] and the database are taken to succeed.  The strings of the
    machine itself (its paths, its environment) hold no NUL, as on any
    machine. *)

(** How a child process behaves once started: it exits after [secs] seconds
    with a status and its two output streams, as the text they decode to; it
    exits having written bytes that are not UTF-8, so that decoding them
    raises [UnicodeDecodeError] with the text [reason]; it never exits; or it
    cannot be started at all ([Popen] raises [OSError] with the given
    text). *)
Inductive behaviour :=
| Exits (secs : nat) (returncode : Z) (out err : string)
| Garbles (secs : nat) (returncode : Z) (reason : string)
| NeverExits
| CannotStart (msg : string).

Inductive status := NotStarted | Running | Exited (returncode : Z) | Killed.

(** One entry per [Popen] call, in call order. *)
Record proc := {
  p_argv : list string;
  p_env : option (gmap string string);   (* [None]: the parent's environment *)
  p_input : option string;               (* what was written to its stdin *)
  p_limit : option nat;                  (* the timeout it was waited for with *)
  p_behaviour : behaviour;
  p_status : status;
}.

(** The kubeconfig that [kubectl] reads and writes when it is not pointed
    elsewhere. *)
Record kubecfg := {
  clusters : gmap string (string * bool);   (* name -> server, skip TLS *)
  users : gmap string string;               (* name -> token *)
  contexts : gmap string (string * string); (* name -> cluster, user *)
  current_context : option string;
}.

Record file := { content : option Py.value; executable : bool }.

Record user := { user_id : Z; username : string }.

(** A row of the [audit_logs] table ([version3/models.py]). *)
Record audit_log := {
  al_user_id : option Z;
  al_action : string;
  al_resource_type : string;
  al_resource_name : string;
  al_namespace : string;
  al_cluster_name : string;
  al_command : string;
  al_status : string;
  al_output : string;
  al_ip_address : string;
  al_user_agent : string;
  al_timestamp : Z;
}.

(** A row of the [cluster_connections] table. *)
Record cluster_connection := {
  cc_user_id : Z;
  cc_cluster_name : string;
  cc_cluster_endpoint : string;
  cc_last_used : Z;
}.

(** The Flask session: the keys the handlers use. *)
Record session_t := {
  cluster_connected : option bool;
  cluster_endpoint : option string;
  cluster_name : option string;
  cluster_token : option string;
  last_output : option string;
}.

Definition empty_session : session_t :=
  {| cluster_connected := None; cluster_endpoint := None; cluster_name := None;
     cluster_token := None; last_output := None |}.

(** What the handlers read from the machine but never change themselves. *)
Record host_t := {
  oracle : nat -> behaviour;        (* the behaviour of the n-th child *)
  signames : Z -> option string;    (* [signal.Signals]: number -> name *)
  install_script : string;          (* INSTALL_SCRIPT *)
  installer : option string * bool; (* after a successful install: what
                                       [shutil.which] finds, and whether
                                       /tmp/kubectl is there *)
  tempdir : string;                 (* [tempfile.gettempdir()], no slash at
                                       its end *)
  int_max_str_digits : nat;         (* [sys.get_int_max_str_digits()] *)
  write_error : option string;      (* writing the kubeconfig raises OSError *)
  utcnow : Z;                       (* [datetime.utcnow()] *)
}.

Record web := {
  session : session_t;
  flashes : list (string * string);            (* message, category *)
  audit_logs : list audit_log;
  cluster_connections : list cluster_connection;
  applog : list string;                        (* [logging.info] lines *)
}.

Record world := {
  host : host_t;
  environ : gmap string string;   (* [os.environ] of the server *)
  files : gmap string file;
  names : list string;            (* the random names [mkstemp] will draw *)
  on_path : option string;        (* [shutil.which("kubectl")] *)
  kubeconfig : kubecfg;
  procs : list proc;
  web_state : web;
}.

Definition set_files (f : gmap string file → gmap string file) (w : world) : world :=
  {| host := host w; environ := environ w; files := f (files w); names := names w;
     on_path := on_path w; kubeconfig := kubeconfig w; procs := procs w;
     web_state := web_state w |}.
Definition set_names (l : list string) (w : world) : world :=
  {| host := host w; environ := environ w; files := files w; names := l;
     on_path := on_path w; kubeconfig := kubeconfig w; procs := procs w;
     web_state := web_state w |}.
Definition set_on_path (o : option string) (w : world) : world :=
  {| host := host w; environ := environ w; files := files w; names := names w;
     on_path := o; kubeconfig := kubeconfig w; procs := procs w;
     web_state := web_state w |}.
Definition set_kubeconfig (f : kubecfg → kubecfg) (w : world) : world :=
  {| host := host w; environ := environ w; files := files w; names := names w;
     on_path := on_path w; kubeconfig := f (kubeconfig w); procs := procs w;
     web_state := web_state w |}.
Definition set_procs (f : list proc → list proc) (w : world) : world :=
  {| host := host w; environ := environ w; files := files w; names := names w;
     on_path := on_path w; kubeconfig := kubeconfig w; procs := f (procs w);
     web_state := web_state w |}.
Definition set_web (f : web → web) (w : world) : world :=
  {| host := host w; environ := environ w; files := files w; names := names w;
     on_path := on_path w; kubeconfig := kubeconfig w; procs := procs w;
     web_state := f (web_state w) |}.

Definition set_session (f : session_t → session_t) (x : web) : web :=
  {| session := f (session x); flashes := flashes x; audit_logs := audit_logs x;
     cluster_connections := cluster_connections x; applog := applog x |}.
Definition add_flash (m c : string) (x : web) : web :=
  {| session := session x; flashes := flashes x ++ [(m, c)];
     audit_logs := audit_logs x; cluster_connections := cluster_connections x;
     applog := applog x |}.
Definition add_audit (a : audit_log) (x : web) : web :=
  {| session := session x; flashes := flashes x; audit_logs := audit_logs x ++ [a];
     cluster_connections := cluster_connections x; applog := applog x |}.
Definition add_connection (c : cluster_connection) (x : web) : web :=
  {| session := session x; flashes := flashes x; audit_logs := audit_logs x;
     cluster_connections := cluster_connections x ++ [c]; applog := applog x |}.
Definition add_applog (l : string) (x : web) : web :=
  {| session := session x; flashes := flashes x; audit_logs := audit_logs x;
     cluster_connections := cluster_connections x; applog := applog x ++ [l] |}.

(** ** Exceptions and the handler monad *)

Inductive exn :=
| ValueError (msg : string)
| RuntimeError (msg : string)
| OSError (msg : string)
| UnicodeDecodeError (msg : string)          (* a [ValueError] in Python *)
| CalledProcessError (returncode : Z) (cmd : list string) (output stderr : string)
| TimeoutExpired (cmd : list string) (timeout : nat).

(** [str(e)] *)
Definition str_exn (h : host_t) (e : exn) : string :=
  match e with
  | ValueError m | RuntimeError m | OSError m | UnicodeDecodeError m => m
  | CalledProcessError rc cmd _ _ =>
      if rc <? 0 then
        match signames h (- rc) with
        | Some name =>
            "Command '" +:+ Py.repr_list cmd +:+ "' died with <Signals." +:+ name
              +:+ ": " +:+ Py.str_of_int (- rc) +:+ ">."
        | None =>
            "Command '" +:+ Py.repr_list cmd +:+ "' died with unknown signal "
              +:+ Py.str_of_int (- rc) +:+ "."
        end
      else "Command '" +:+ Py.repr_list cmd +:+ "' returned non-zero exit status "
             +:+ Py.str_of_int rc +:+ "."
  | TimeoutExpired cmd t =>
      "Command '" +:+ Py.repr_list cmd +:+ "' timed out after "
        +:+ Py.str_of_int (Z.of_nat t) +:+ " seconds"
  end.

(** A call returns a value, raises, or never returns. *)
Inductive outcome (A : Type) :=
| Ret (a : A)
| Raise (e : exn)
| Hang.
Arguments Ret {A} a.
Arguments Raise {A} e.
Arguments Hang {A}.

Definition M (A : Type) : Type := world → outcome A * world.

Definition ret {A} (a : A) : M A := fun w => (Ret a, w).
Definition raise {A} (e : exn) : M A := fun w => (Raise e, w).
Definition bind {A B} (m : M A) (k : A → M B) : M B :=
  fun w =>
    match m w with
    | (Ret a, w') => k a w'
    | (Raise e, w') => (Raise e, w')
    | (Hang, w') => (Hang, w')
    end.
Definition gets {A} (f : world → A) : M A := fun w => (Ret (f w), w).
Definition modify (f : world → world) : M unit := fun w => (Ret tt, f w).

Notation "x <~ m ;; k" := (bind m (fun x => k))
  (at level 100, m at next level, right associativity).
Notation "m ;;; k" := (bind m (fun _ => k))
  (at level 100, right associativity).

(** [try: m  except ...: h e]: [h] returns [None] for the exceptions the
    clause does not name. *)
Definition try_except {A} (m : M A) (h : exn → option (M A)) : M A :=
  fun w =>
    match m w with
    | (Raise e, w') => match h e with Some k => k w' | None => (Raise e, w') end
    | r => r
    end.

(** [try: m  finally: fin].  A body that never returns never reaches it. *)
Definition try_finally {A} (m : M A) (fin : M unit) : M A :=
  fun w =>
    match m w with
    | (Hang, w') => (Hang, w')
    | (r, w') =>
        match fin w' with
        | (Ret _, w'') => (r, w'')
        | (Raise e, w'') => (Raise e, w'')
        | (Hang, w'') => (Hang, w'')
        end
    end.

(** ** Child processes: [subprocess] *)

Definition within (timeout : option nat) (secs : nat) : bool :=
  match timeout with None => true | Some t => (secs <=? t)%nat end.

Definition strip_prefix (p s : string) : option string :=
  if String.prefix p s
  then Some (String.substring (String.length p) (String.length s - String.length p) s)
  else None.

(** What the four [kubectl config] commands of [validate_cluster_connection]
    write into the kubeconfig they run against.  Other commands are taken to
    leave it alone. *)
Definition kubectl_config (argv : list string) : option (kubecfg → kubecfg) :=
  match argv with
  | k :: c :: sub :: name :: args =>
      if String.eqb k "kubectl" && String.eqb c "config" then
        let upd_clusters f x :=
          {| clusters := f (clusters x); users := users x; contexts := contexts x;
             current_context := current_context x |} in
        let upd_users f x :=
          {| clusters := clusters x; users := f (users x); contexts := contexts x;
             current_context := current_context x |} in
        let upd_contexts f x :=
          {| clusters := clusters x; users := users x; contexts := f (contexts x);
             current_context := current_context x |} in
        match args with
        | [] =>
            if String.eqb sub "use-context" then
              Some (fun x => {| clusters := clusters x; users := users x;
                                contexts := contexts x; current_context := Some name |})
            else None
        | [a] =>
            if String.eqb sub "set-credentials" then
              (fun token => upd_users (insert name token)) <$> strip_prefix "--token=" a
            else None
        | [a; b] =>
            if String.eqb sub "set-cluster" then
              if String.eqb b "--insecure-skip-tls-verify=true" then
                (fun server => upd_clusters (insert name (server, true)))
                  <$> strip_prefix "--server=" a
              else None
            else if String.eqb sub "set-context" then
              match strip_prefix "--cluster=" a, strip_prefix "--user=" b with
              | Some cl, Some u => Some (upd_contexts (insert name (cl, u)))
              | _, _ => None
              end
            else None
        | _ => None
        end
      else None
  | _ => None
  end.

(** A child reads and writes the default kubeconfig unless its environment
    names another one through KUBECONFIG. *)
Definition points_elsewhere (p : proc) (w : world) : bool :=
  match p_env p with
  | None => false
  | Some e => negb (bool_decide (e !! "KUBECONFIG" = environ w !! "KUBECONFIG"))
  end.

(** What a child that exited with status 0 has done to the machine. *)
Definition child_effect (p : proc) (w : world) : world :=
  if bool_decide (p_argv p = [install_script (host w)]) then
    let w' := set_on_path (fst (installer (host w))) w in
    if snd (installer (host w))
    then set_files (insert "/tmp/kubectl" {| content := None; executable := true |}) w'
    else w'
  else if points_elsewhere p w then w
  else match kubectl_config (p_argv p) with
       | Some f => set_kubeconfig f w
       | None => w
       end.

(** An argument with a NUL character in it: [Popen] refuses the command line
    with [ValueError("embedded null byte")] before it starts anything. *)
Definition embedded_null (argv : list string) : bool :=
  existsb (Py.contains (Py.chr 0)) argv.

(** [subprocess.Popen(argv, env=env, ...)]: the handle is the index of the
    new entry.  The environment the handlers pass is [os.environ], as it is
    or with KUBECONFIG set to a path that [mkstemp] returned. *)
Definition Popen (argv : list string) (env : option (gmap string string)) : M nat :=
  fun w =>
    if embedded_null argv then (Raise (ValueError "embedded null byte"), w) else
    let i := length (procs w) in
    let b := oracle (host w) i in
    let entry st :=
      {| p_argv := argv; p_env := env; p_input := None; p_limit := None;
         p_behaviour := b; p_status := st |} in
    match b with
    | CannotStart msg => (Raise (OSError msg), set_procs (fun l => l ++ [entry NotStarted]) w)
    | _ => (Ret i, set_procs (fun l => l ++ [entry Running]) w)
    end.

Definition waited (input : option string) (timeout : option nat) (p : proc) : proc :=
  {| p_argv := p_argv p; p_env := p_env p; p_input := input; p_limit := timeout;
     p_behaviour := p_behaviour p; p_status := p_status p |}.

Definition with_status (st : status) (p : proc) : proc :=
  {| p_argv := p_argv p; p_env := p_env p; p_input := p_input p; p_limit := p_limit p;
     p_behaviour := p_behaviour p; p_status := st |}.

(** [process.communicate(input=input, timeout=timeout)].  [text] says that
    the child was started with its two output streams as pipes in text mode
    ([stdout=PIPE, stderr=PIPE, text=True], or [capture_output=True,
    text=True]): its output is then read to the end and decoded once it has
    exited.  Without pipes there is nothing to read and nothing to decode;
    what a caller gets for the streams is [None], here the empty text. *)
Definition communicate (i : nat) (text : bool) (input : option string)
    (timeout : option nat) : M (string * string) :=
  fun w =>
    match procs w !! i with
    | None => (Raise (ValueError "no such process"), w)  (* handles come from Popen *)
    | Some p =>
        let w1 := set_procs (alter (waited input timeout) i) w in
        let exited rc :=
          let w2 := set_procs (alter (with_status (Exited rc)) i) w1 in
          if rc =? 0 then child_effect p w2 else w2 in
        let late := (Raise (TimeoutExpired (p_argv p) (default 0%nat timeout)), w1) in
        match p_behaviour p, timeout with
        | Exits secs rc out err, _ =>
            if within timeout secs then
              (Ret (if text then (out, err) else ("", "")), exited rc)
            else late
        | Garbles secs rc reason, _ =>
            if within timeout secs then
              (if text then Raise (UnicodeDecodeError reason) else Ret ("", ""), exited rc)
            else late
        | _, Some t => (Raise (TimeoutExpired (p_argv p) t), w1)
        | _, None => (Hang, w1)
        end
    end.

(** [process.kill()] *)
Definition kill (i : nat) : M unit :=
  modify (set_procs (alter (fun p => match p_status p with
                                     | Running => with_status Killed p
                                     | _ => p
                                     end) i)).

(** [process.returncode] *)
Definition returncode (i : nat) : M (option Z) :=
  gets (fun w => match p_status <$> procs w !! i with
                 | Some (Exited rc) => Some rc
                 | Some Killed => Some (-9)
                 | _ => None
                 end).

Record CompletedProcess := {
  cp_returncode : option Z;
  cp_stdout : string;
  cp_stderr : string;
}.

(** [x != 0] and [x == 0] for a return code. *)
Definition nonzero (rc : option Z) : bool :=
  match rc with Some 0 => false | _ => true end.
Definition iszero (rc : option Z) : bool := negb (nonzero rc).

(** [subprocess.run(argv, input=input, env=env, check=check, timeout=timeout)]
    with [capture_output=True, text=True] when [capture] is set, and with
    neither otherwise: start the child, wait for it, kill it when the wait
    raises. *)
Definition subprocess_run (argv : list string) (env : option (gmap string string))
    (input : option string) (capture check : bool) (timeout : option nat)
  : M CompletedProcess :=
  process <~ Popen argv env ;;
  r <~ try_except (communicate process capture input timeout)
         (fun e => Some (kill process ;;; raise e)) ;;
  retcode <~ returncode process ;;
  match retcode with
  | Some rc =>
      if check && negb (rc =? 0) then raise (CalledProcessError rc argv (fst r) (snd r))
      else ret {| cp_returncode := retcode; cp_stdout := fst r; cp_stderr := snd r |}
  | None => ret {| cp_returncode := retcode; cp_stdout := fst r; cp_stderr := snd r |}
  end.

(** ** Requests *)

Record request := {
  form : gmap string string;
  remote_addr : string;
  user_agent : string;               (* [request.headers.get('User-Agent', '')] *)
  current_user : option user;        (* [None]: nobody is logged in *)
}.

(** [request.form.get(k, d)] *)
Definition form_get (r : request) (k d : string) : string := default d (form r !! k).

(** ** version1/app.py: a temporary kubeconfig per request *)

Module Version1.

Import Py.

Inductive response :=
| Text (body : string) (code : Z)                         (* [return body, code] *)
| ResultPage (yaml : string) (ok : bool) (stdout stderr kind name : string).
                                                          (* result.html *)

Definition is_executable (path : string) (w : world) : bool :=
  match files w !! path with Some f => executable f | None => false end.

Definition found (path : option string) : bool :=
  match path with Some p => truthy p | None => false end.

Definition not_found : exn :=
  RuntimeError
    "kubectl not found. Please install kubectl or make install_kubectl.sh executable.".

(** [kubectl_path()] *)
Definition kubectl_path : M string :=
  path <~ gets on_path ;;
  if found path then ret (default "" path) else
  h <~ gets host ;;
  script_ok <~ gets (is_executable (install_script h)) ;;
  if script_ok then
    try_except
      (subprocess_run [install_script h] None None false true None ;;; ret tt)
      (fun e => match e with
                | CalledProcessError _ _ _ _ =>
                    Some (raise (RuntimeError ("Failed to install kubectl: " +:+ str_exn h e)))
                | _ => None
                end) ;;;
    path <~ gets on_path ;;
    if found path then ret (default "" path) else
    tmp_ok <~ gets (is_executable "/tmp/kubectl") ;;
    if tmp_ok then ret "/tmp/kubectl" else raise not_found
  else raise not_found.

(** Lines 53-80 of [build_kubeconfig]: the dict and its two conditional
    assignments. *)
Definition cluster_path : list step := [Key "clusters"; Idx 0; Key "cluster"].

Definition kubeconfig_dict (api_server token namespace : string) (skip_tls : bool)
    (ca_pem : option string) : value :=
  let kubeconfig :=
    VDict [
      ("apiVersion", VStr "v1");
      ("kind", VStr "Config");
      ("clusters", VList [
         VDict [("name", VStr "portal-cluster");
                ("cluster", VDict [("server", VStr api_server)])]]);
      ("users", VList [
         VDict [("name", VStr "portal-user");
                ("user", VDict [("token", VStr token)])]]);
      ("contexts", VList [
         VDict [("name", VStr "portal-context");
                ("context", VDict [("cluster", VStr "portal-cluster");
                                   ("user", VStr "portal-user");
                                   ("namespace", VStr namespace)])]]);
      ("current-context", VStr "portal-context")] in
  if skip_tls then
    assign cluster_path "insecure-skip-tls-verify" (VBool true) kubeconfig
  else if found ca_pem then
    assign cluster_path "certificate-authority-data"
      (VStr (b64encode (encode (default "" ca_pem)))) kubeconfig
  else kubeconfig.

(** [tempfile.mkstemp(prefix=pre, suffix=suf)]: the first drawn name that is
    not taken; the file is created empty. *)
Fixpoint mkstemp_pick (candidates : list string) (dir pre suf : string)
    (fs : gmap string file) : option (string * list string) :=
  match candidates with
  | [] => None
  | n :: rest =>
      let path := dir +:+ "/" +:+ pre +:+ n +:+ suf in
      match fs !! path with
      | Some _ => mkstemp_pick rest dir pre suf fs
      | None => Some (path, rest)
      end
  end.

Definition mkstemp (pre suf : string) : M string :=
  fun w =>
    match mkstemp_pick (names w) (tempdir (host w)) pre suf (files w) with
    | Some (path, rest) =>
        (Ret path,
         set_names rest
           (set_files (insert path {| content := None; executable := false |}) w))
    | None =>
        (Raise (OSError "[Errno 17] No usable temporary file name found"),
         set_names [] w)
    end.

(** [with os.fdopen(fd, "w") as f: yaml.safe_dump(doc, f, ...)]: the file
    holds the document afterwards, unless the write raises. *)
Definition safe_dump (path : string) (doc : value) : M unit :=
  fun w =>
    match write_error (host w) with
    | Some msg => (Raise (OSError msg), w)
    | None =>
        (Ret tt,
         set_files (alter (fun f => {| content := Some doc; executable := executable f |})
                      path) w)
    end.

(** [build_kubeconfig(api_server, token, namespace, skip_tls, ca_pem)] *)
Definition build_kubeconfig (api_server token namespace : string) (skip_tls : bool)
    (ca_pem : option string) : M string :=
  let kubeconfig := kubeconfig_dict api_server token namespace skip_tls ca_pem in
  path <~ mkstemp "kubeconf_" ".yaml" ;;
  safe_dump path kubeconfig ;;;
  ret path.

(** [run_kubectl_apply(yaml_text, kubeconfig_path, namespace)] *)
Definition run_kubectl_apply (yaml_text kubeconfig_path namespace : string)
  : M (bool * string * string) :=
  env0 <~ gets environ ;;
  let env := <["KUBECONFIG" := kubeconfig_path]> env0 in
  conn <~ subprocess_run ["kubectl"; "get"; "ns"] (Some env) None true false None ;;
  if nonzero (cp_returncode conn) then
    ret (false, str_or (cp_stdout conn) "",
         str_or (cp_stderr conn) "Connectivity check failed")
  else
    proc <~ subprocess_run ["kubectl"; "apply"; "-n"; namespace; "-f"; "-"]
              (Some env) (Some yaml_text) true false None ;;
    ret (iszero (cp_returncode proc), str_or (cp_stdout proc) "",
         str_or (cp_stderr proc) "").

(** [run_kubectl_delete(kind, name, kubeconfig_path, namespace)] *)
Definition run_kubectl_delete (kind name kubeconfig_path namespace : string)
  : M (bool * string * string) :=
  env0 <~ gets environ ;;
  let env := <["KUBECONFIG" := kubeconfig_path]> env0 in
  proc <~ subprocess_run ["kubectl"; "delete"; kind; name; "-n"; namespace]
            (Some env) None true false None ;;
  ret (iszero (cp_returncode proc), str_or (cp_stdout proc) "",
       str_or (cp_stderr proc) "").

(** The [finally] clause of the four handlers:
    [if kc_path and os.path.exists(kc_path): os.remove(kc_path)]. *)
Definition cleanup (kc_path : option string) : M unit :=
  match kc_path with
  | Some path =>
      there <~ gets (fun w => bool_decide (is_Some (files w !! path))) ;;
      if truthy path && there then modify (set_files (delete path)) else ret tt
  | None => ret tt
  end.

(** The shape shared by the four handlers:
<<
    kc_path = None
    try:
        kc_path = build
        body(kc_path)
    finally:
        cleanup(kc_path)
>>
    [kc_path] is assigned only when [build] returns. *)
Definition with_kubeconfig {A} (build : M string) (body : string → M A) : M A :=
  fun w =>
    match build w with
    | (Ret kc_path, w1) => try_finally (body kc_path) (cleanup (Some kc_path)) w1
    | (Raise e, w1) => try_finally (raise e) (cleanup None) w1
    | (Hang, w1) => (Hang, w1)
    end.

(** The credential fields every form carries. *)
Definition skip_tls_of (r : request) : bool := found (form r !! "skip_tls").
Definition ca_cert_of (r : request) : option string :=
  let c := strip (form_get r "ca_cert" "") in if truthy c then Some c else None.
Definition namespace_of (r : request) : string :=
  str_or (strip (form_get r "namespace" "default")) "default".

(** The manifest text of [deploy] (lines 135-154). *)
Definition deployment_yaml (name image replicas : string) : string :=
  unlines [
    "apiVersion: apps/v1";
    "kind: Deployment";
    "metadata:";
    "  name: " +:+ name;
    "  labels:";
    "    app: " +:+ name;
    "spec:";
    "  replicas: " +:+ replicas;
    "  selector:";
    "    matchLabels:";
    "      app: " +:+ name;
    "  template:";
    "    metadata:";
    "      labels:";
    "        app: " +:+ name;
    "    spec:";
    "      containers:";
    "      - name: " +:+ name;
    "        image: " +:+ image].

(** The manifest text of [service] (lines 186-198). *)
Definition service_yaml (name port target : string) : string :=
  unlines [
    "apiVersion: v1";
    "kind: Service";
    "metadata:";
    "  name: " +:+ name;
    "spec:";
    "  selector:";
    "    app: " +:+ name;
    "  ports:";
    "    - protocol: TCP";
    "      port: " +:+ port;
    "      targetPort: " +:+ target;
    "  type: ClusterIP"].

(** The tail shared by [deploy], [service] and [custom]: look for kubectl,
    then apply under a temporary kubeconfig. *)
Definition apply_and_render (r : request) (api token yaml_text kind name : string)
  : M response :=
  missing <~ try_except (kubectl_path ;;; ret None)
               (fun e => Some (h <~ gets host ;;
                               ret (Some (ResultPage yaml_text false "" (str_exn h e)
                                            kind name)))) ;;
  match missing with
  | Some page => ret page
  | None =>
      with_kubeconfig
        (build_kubeconfig api token (namespace_of r) (skip_tls_of r) (ca_cert_of r))
        (fun kc_path =>
           res <~ run_kubectl_apply yaml_text kc_path (namespace_of r) ;;
           let '(ok, out, err) := res in
           ret (ResultPage yaml_text ok out err kind name))
  end.

(** [POST /deploy] *)
Definition deploy (r : request) : M response :=
  let api := strip (form_get r "api" "") in
  let token := strip (form_get r "token" "") in
  let name := strip (form_get r "name" "") in
  let image := strip (form_get r "image" "") in
  let replicas := strip (form_get r "replicas" "1") in
  if negb (truthy api && truthy token && truthy name && truthy image) then
    ret (Text "api, token, name and image are required" 400)
  else
    apply_and_render r api token (deployment_yaml name image replicas) "Deployment" name.

(** [POST /service] *)
Definition service (r : request) : M response :=
  let api := strip (form_get r "api" "") in
  let token := strip (form_get r "token" "") in
  let name := strip (form_get r "name" "") in
  let port := strip (form_get r "port" "80") in
  let target := strip (form_get r "targetPort" port) in
  if negb (truthy api && truthy token && truthy name) then
    ret (Text "api, token and name are required" 400)
  else
    apply_and_render r api token (service_yaml name port target) "Service" name.

(** [POST /custom] *)
Definition custom (r : request) : M response :=
  let api := strip (form_get r "api" "") in
  let token := strip (form_get r "token" "") in
  let yaml_text := strip (form_get r "yaml" "") in
  if negb (truthy api && truthy token && truthy yaml_text) then
    ret (Text "api, token and yaml are required" 400)
  else
    apply_and_render r api token yaml_text "Custom" "(custom)".

(** [POST /delete] *)
Definition delete (r : request) : M response :=
  let api := strip (form_get r "api" "") in
  let token := strip (form_get r "token" "") in
  let kind := strip (form_get r "kind" "") in
  let name := strip (form_get r "name" "") in
  if negb (truthy api && truthy token && truthy kind && truthy name) then
    ret (Text "api, token, kind and name are required" 400)
  else
    missing <~ try_except (kubectl_path ;;; ret None)
                 (fun e => Some (h <~ gets host ;;
                                 ret (Some (ResultPage "" false "" (str_exn h e) kind name)))) ;;
    match missing with
    | Some page => ret page
    | None =>
        with_kubeconfig
          (build_kubeconfig api token (namespace_of r) (skip_tls_of r) (ca_cert_of r))
          (fun kc_path =>
             res <~ run_kubectl_delete kind name kc_path (namespace_of r) ;;
             let '(ok, out, err) := res in
             ret (ResultPage ("# delete " +:+ kind +:+ "/" +:+ name) ok out err kind name))
    end.

End Version1.

(** ** Flask helpers of version 2 to 4 *)

(** [redirect(url_for(endpoint))] *)
Inductive redirection := url_for (endpoint : string).

Definition flash (message category : string) : M unit :=
  modify (set_web (add_flash message category)).

(** [session.get('cluster_connected')] as a condition *)
Definition session_connected : M bool :=
  gets (fun w => default false (cluster_connected (session (web_state w)))).

(** [session.get('cluster_name', 'unknown')] *)
Definition session_cluster_name : M string :=
  gets (fun w => default "unknown" (cluster_name (session (web_state w)))).

Definition set_last_output (o : string) : M unit :=
  modify (set_web (set_session (fun s =>
    {| cluster_connected := cluster_connected s; cluster_endpoint := cluster_endpoint s;
       cluster_name := cluster_name s; cluster_token := cluster_token s;
       last_output := Some o |}))).

(** The four assignments of [connect_cluster]. *)
Definition set_connected (endpoint name token : string) : M unit :=
  modify (set_web (set_session (fun s =>
    {| cluster_connected := Some true; cluster_endpoint := Some endpoint;
       cluster_name := Some name; cluster_token := Some token;
       last_output := last_output s |}))).

(** The four [session.pop(..., None)] of [disconnect_cluster]. *)
Definition pop_connection : M unit :=
  modify (set_web (set_session (fun s =>
    {| cluster_connected := None; cluster_endpoint := None; cluster_name := None;
       cluster_token := None; last_output := last_output s |}))).

(** [int(s)] as a call that may raise. *)
Definition py_int (s : string) : M Z :=
  limit <~ gets (fun w => int_max_str_digits (host w)) ;;
  match Py.int limit s with
  | inl z => ret z
  | inr msg => raise (ValueError msg)
  end.

(** ** version2/WebEnhancer/WebEnhancer/app.py: connect once, then act *)

Module Version2.

Import Py.

(** [validate_cluster_connection(endpoint, token, cluster_name)] *)
Definition validate_cluster_connection (endpoint token cluster_name : string)
  : M (bool * string) :=
  try_except
    (let context_cmd :=
       ["kubectl"; "config"; "set-cluster"; cluster_name;
        "--server=" +:+ endpoint; "--insecure-skip-tls-verify=true"] in
     subprocess_run context_cmd None None true true None ;;;
     let cred_cmd :=
       ["kubectl"; "config"; "set-credentials"; cluster_name +:+ "-user";
        "--token=" +:+ token] in
     subprocess_run cred_cmd None None true true None ;;;
     let ctx_cmd :=
       ["kubectl"; "config"; "set-context"; cluster_name;
        "--cluster=" +:+ cluster_name; "--user=" +:+ (cluster_name +:+ "-user")] in
     subprocess_run ctx_cmd None None true true None ;;;
     let use_cmd := ["kubectl"; "config"; "use-context"; cluster_name] in
     subprocess_run use_cmd None None true true None ;;;
     let test_cmd := ["kubectl"; "get"; "nodes"] in
     result <~ subprocess_run test_cmd None None true true None ;;
     ret (true, cp_stdout result))
    (fun e => match e with
              | CalledProcessError _ _ _ stderr => Some (ret (false, stderr))
              | _ => None
              end).

(** [execute_kubectl_command(command_args)] *)
Definition execute_kubectl_command (command_args : list string) : M (bool * string) :=
  try_except
    (result <~ subprocess_run command_args None None true true (Some 30%nat) ;;
     ret (true, cp_stdout result))
    (fun e => match e with
              | CalledProcessError _ _ _ stderr => Some (ret (false, stderr))
              | TimeoutExpired _ _ => Some (ret (false, "Command timed out after 30 seconds"))
              | _ => None
              end).

(** [generate_deployment_manifest(name, image, replicas, port, namespace)] *)
Definition generate_deployment_manifest (name image replicas port namespace : string)
  : M value :=
  replicas_n <~ py_int replicas ;;
  port_n <~ py_int port ;;
  ret (VDict [
    ("apiVersion", VStr "apps/v1");
    ("kind", VStr "Deployment");
    ("metadata", VDict [("name", VStr name); ("namespace", VStr namespace)]);
    ("spec", VDict [
       ("replicas", VInt replicas_n);
       ("selector", VDict [("matchLabels", VDict [("app", VStr name)])]);
       ("template", VDict [
          ("metadata", VDict [("labels", VDict [("app", VStr name)])]);
          ("spec", VDict [
             ("containers", VList [
                VDict [("name", VStr name);
                       ("image", VStr image);
                       ("ports", VList [VDict [("containerPort", VInt port_n)]])]])])])])]).

(** [generate_service_manifest(name, port, target_port, service_type, namespace)] *)
Definition generate_service_manifest (name port target_port service_type namespace : string)
  : M value :=
  port_n <~ py_int port ;;
  target_n <~ py_int target_port ;;
  ret (VDict [
    ("apiVersion", VStr "v1");
    ("kind", VStr "Service");
    ("metadata", VDict [("name", VStr name); ("namespace", VStr namespace)]);
    ("spec", VDict [
       ("selector", VDict [("app", VStr name)]);
       ("ports", VList [VDict [("port", VInt port_n); ("targetPort", VInt target_n)]]);
       ("type", VStr service_type)])]).

(** [POST /connect_cluster] *)
Definition connect_cluster (r : request) : M redirection :=
  let endpoint := strip (form_get r "endpoint" "") in
  let cluster_name := strip (form_get r "cluster_name" "") in
  let token := strip (form_get r "token" "") in
  if negb (truthy endpoint && truthy cluster_name && truthy token) then
    flash "All cluster connection fields are required" "error" ;;;
    ret (url_for "index")
  else
    res <~ validate_cluster_connection endpoint token cluster_name ;;
    let '(success, output) := res in
    (if success : bool then
       set_connected endpoint cluster_name token ;;;
       flash ("Successfully connected to cluster: " +:+ cluster_name) "success"
     else
       flash ("Failed to connect to cluster: " +:+ output) "error") ;;;
    ret (url_for "index").

(** [POST /disconnect_cluster] *)
Definition disconnect_cluster (r : request) : M redirection :=
  pop_connection ;;;
  flash "Disconnected from cluster" "info" ;;;
  ret (url_for "index").

(** [POST /create_deployment] *)
Definition create_deployment (r : request) : M redirection :=
  connected <~ session_connected ;;
  if negb connected then
    flash "Please connect to a cluster first" "error" ;;; ret (url_for "index")
  else
    let name := strip (form_get r "deployment_name" "") in
    let image := strip (form_get r "deployment_image" "") in
    let replicas := form_get r "deployment_replicas" "1" in
    let port := form_get r "deployment_port" "80" in
    let namespace := strip (form_get r "deployment_namespace" "default") in
    if negb (truthy name && truthy image) then
      flash "Deployment name and image are required" "error" ;;; ret (url_for "index")
    else
      try_except
        (manifest <~ generate_deployment_manifest name image replicas port namespace ;;
         let manifest_json := json_dumps manifest in
         let cmd := ["kubectl"; "apply"; "-f"; "-"] in
         process <~ Popen cmd None ;;
         streams <~ communicate process true (Some manifest_json) None ;;
         rc <~ returncode process ;;
         if iszero rc then
           flash ("Deployment " +:+ name +:+ " created successfully") "success" ;;;
           set_last_output (fst streams)
         else
           flash ("Failed to create deployment: " +:+ snd streams) "error" ;;;
           set_last_output (snd streams))
        (fun e => Some (h <~ gets host ;;
                        flash ("Error creating deployment: " +:+ str_exn h e) "error" ;;;
                        set_last_output (str_exn h e))) ;;;
      ret (url_for "index").

(** [POST /create_service] *)
Definition create_service (r : request) : M redirection :=
  connected <~ session_connected ;;
  if negb connected then
    flash "Please connect to a cluster first" "error" ;;; ret (url_for "index")
  else
    let name := strip (form_get r "service_name" "") in
    let port := form_get r "service_port" "80" in
    let target_port := form_get r "service_target_port" "80" in
    let service_type := form_get r "service_type" "ClusterIP" in
    let namespace := strip (form_get r "service_namespace" "default") in
    if negb (truthy name) then
      flash "Service name is required" "error" ;;; ret (url_for "index")
    else
      try_except
        (manifest <~ generate_service_manifest name port target_port service_type namespace ;;
         let manifest_json := json_dumps manifest in
         let cmd := ["kubectl"; "apply"; "-f"; "-"] in
         process <~ Popen cmd None ;;
         streams <~ communicate process true (Some manifest_json) None ;;
         rc <~ returncode process ;;
         if iszero rc then
           flash ("Service " +:+ name +:+ " created successfully") "success" ;;;
           set_last_output (fst streams)
         else
           flash ("Failed to create service: " +:+ snd streams) "error" ;;;
           set_last_output (snd streams))
        (fun e => Some (h <~ gets host ;;
                        flash ("Error creating service: " +:+ str_exn h e) "error" ;;;
                        set_last_output (str_exn h e))) ;;;
      ret (url_for "index").

(** [POST /execute_custom] *)
Definition execute_custom (r : request) : M redirection :=
  connected <~ session_connected ;;
  if negb connected then
    flash "Please connect to a cluster first" "error" ;;; ret (url_for "index")
  else
    let command := strip (form_get r "custom_command" "") in
    if negb (truthy command) then
      flash "Custom command is required" "error" ;;; ret (url_for "index")
    else if negb (startswith command "kubectl ") then
      flash "Only kubectl commands are allowed" "error" ;;; ret (url_for "index")
    else
      try_except
        (let cmd_args := split command in
         res <~ execute_kubectl_command cmd_args ;;
         let '(success, output) := res in
         if success : bool then
           flash "Custom command executed successfully" "success" ;;;
           set_last_output output
         else
           flash ("Command failed: " +:+ output) "error" ;;;
           set_last_output output)
        (fun e => Some (h <~ gets host ;;
                        flash ("Error executing command: " +:+ str_exn h e) "error" ;;;
                        set_last_output (str_exn h e))) ;;;
      ret (url_for "index").

(** [POST /execute_yaml] *)
Definition execute_yaml (r : request) : M redirection :=
  connected <~ session_connected ;;
  if negb connected then
    flash "Please connect to a cluster first" "error" ;;; ret (url_for "index")
  else
    let yaml_content := strip (form_get r "custom_yaml" "") in
    let namespace_override := strip (form_get r "yaml_namespace" "") in
    if negb (truthy yaml_content) then
      flash "YAML content is required" "error" ;;; ret (url_for "index")
    else
      try_except
        (let cmd :=
           ["kubectl"; "apply"; "-f"; "-"]
             ++ (if truthy namespace_override then ["-n"; namespace_override] else []) in
         process <~ Popen cmd None ;;
         try_except
           (streams <~ communicate process true (Some yaml_content) (Some 60%nat) ;;
            rc <~ returncode process ;;
            if iszero rc then
              flash "YAML manifest applied successfully" "success" ;;;
              set_last_output (fst streams)
            else
              flash ("Failed to apply YAML manifest: " +:+ snd streams) "error" ;;;
              set_last_output (snd streams))
           (fun e => match e with
                     | TimeoutExpired _ _ =>
                         Some (kill process ;;;
                               flash "YAML application timed out after 60 seconds" "error" ;;;
                               set_last_output "Command timed out")
                     | _ => None
                     end))
        (fun e => Some (h <~ gets host ;;
                        flash ("Error applying YAML manifest: " +:+ str_exn h e) "error" ;;;
                        set_last_output (str_exn h e))) ;;;
      ret (url_for "index").

(** [POST /get_resources]: the dict handed to [jsonify] and the status
    code. *)
Definition get_resources (r : request) : M (value * Z) :=
  connected <~ session_connected ;;
  if negb connected then
    ret (VDict [("error", VStr "Not connected to cluster")], 400)
  else
    let resource_type := form_get r "resource_type" "pods" in
    let namespace := form_get r "namespace" "default" in
    try_except
      (let cmd := ["kubectl"; "get"; resource_type; "-n"; namespace; "-o"; "json"] in
       res <~ execute_kubectl_command cmd ;;
       let '(success, output) := res in
       if success : bool then
         ret (VDict [("success", VBool true); ("data", VStr output)], 200)
       else
         ret (VDict [("error", VStr output)], 400))
      (fun e => Some (h <~ gets host ;;
                      ret (VDict [("error", VStr (str_exn h e))], 500))).

End Version2.

(** ** version4/app.py: version 2 with accounts and an audit log *)

Module Version4.

Import Py.

(** These four are the same text as in version 2. *)
Definition validate_cluster_connection := Version2.validate_cluster_connection.
Definition execute_kubectl_command := Version2.execute_kubectl_command.
Definition generate_deployment_manifest := Version2.generate_deployment_manifest.
Definition generate_service_manifest := Version2.generate_service_manifest.

(** [@login_required]: an anonymous request is sent to the login page. *)
Definition login_required (r : request) (view : user → M redirection) : M redirection :=
  match current_user r with
  | Some u => view u
  | None =>
      flash "Please log in to access this page." "message" ;;;
      ret (url_for "login")
  end.

(** [log_audit_action(action, resource_type, resource_name, namespace,
    cluster_name, command, status, output)] *)
Definition log_audit_action (r : request)
    (action resource_type resource_name namespace cluster_name command status output : string)
  : M unit :=
  match current_user r with
  | Some u =>
      now <~ gets (fun w => utcnow (host w)) ;;
      modify (set_web (add_audit
        {| al_user_id := Some (user_id u); al_action := action;
           al_resource_type := resource_type; al_resource_name := resource_name;
           al_namespace := namespace; al_cluster_name := cluster_name;
           al_command := command; al_status := status; al_output := output;
           al_ip_address := remote_addr r; al_user_agent := user_agent r;
           al_timestamp := now |})) ;;;
      modify (set_web (add_applog
        ("Audit log: " +:+ username u +:+ " performed " +:+ action +:+ " on "
           +:+ resource_type +:+ "/" +:+ resource_name)))
  | None => ret tt
  end.

(** [POST /connect_cluster] *)
Definition connect_cluster (r : request) : M redirection :=
  login_required r (fun u =>
    let endpoint := strip (form_get r "endpoint" "") in
    let cluster_name := strip (form_get r "cluster_name" "") in
    let token := strip (form_get r "token" "") in
    if negb (truthy endpoint && truthy cluster_name && truthy token) then
      flash "All cluster connection fields are required" "error" ;;;
      ret (url_for "index")
    else
      res <~ validate_cluster_connection endpoint token cluster_name ;;
      let '(success, output) := res in
      (if success : bool then
         set_connected endpoint cluster_name token ;;;
         now <~ gets (fun w => utcnow (host w)) ;;
         modify (set_web (add_connection
           {| cc_user_id := user_id u; cc_cluster_name := cluster_name;
              cc_cluster_endpoint := endpoint; cc_last_used := now |})) ;;;
         log_audit_action r "connect_cluster" "cluster" cluster_name "system" cluster_name
           ("Connected to cluster " +:+ cluster_name +:+ " at " +:+ endpoint)
           "success" output ;;;
         flash ("Successfully connected to cluster: " +:+ cluster_name) "success"
       else
         log_audit_action r "connect_cluster" "cluster" cluster_name "system" cluster_name
           ("Failed to connect to cluster " +:+ cluster_name +:+ " at " +:+ endpoint)
           "failed" output ;;;
         flash ("Failed to connect to cluster: " +:+ output) "error") ;;;
      ret (url_for "index")).

(** [POST /disconnect_cluster] *)
Definition disconnect_cluster (r : request) : M redirection :=
  login_required r (fun u =>
    cluster_name <~ session_cluster_name ;;
    log_audit_action r "disconnect_cluster" "cluster" cluster_name "system" cluster_name
      ("Disconnected from cluster " +:+ cluster_name) "success" "Cluster disconnected" ;;;
    pop_connection ;;;
    flash "Disconnected from cluster" "info" ;;;
    ret (url_for "index")).

(** [POST /create_deployment] *)
Definition create_deployment (r : request) : M redirection :=
  login_required r (fun u =>
    connected <~ session_connected ;;
    if negb connected then
      flash "Please connect to a cluster first" "error" ;;; ret (url_for "index")
    else
      let name := strip (form_get r "deployment_name" "") in
      let image := strip (form_get r "deployment_image" "") in
      let replicas := form_get r "deployment_replicas" "1" in
      let port := form_get r "deployment_port" "80" in
      let namespace := strip (form_get r "deployment_namespace" "default") in
      if negb (truthy name && truthy image) then
        flash "Deployment name and image are required" "error" ;;; ret (url_for "index")
      else
        let audit status output :=
          cluster <~ session_cluster_name ;;
          log_audit_action r "create_deployment" "deployment" name namespace cluster
            ("kubectl apply deployment " +:+ name) status output in
        try_except
          (manifest <~ generate_deployment_manifest name image replicas port namespace ;;
           let manifest_json := json_dumps manifest in
           let cmd := ["kubectl"; "apply"; "-f"; "-"] in
           process <~ Popen cmd None ;;
           streams <~ communicate process true (Some manifest_json) None ;;
           rc <~ returncode process ;;
           if iszero rc then
             audit "success" (fst streams) ;;;
             flash ("Deployment " +:+ name +:+ " created successfully") "success" ;;;
             set_last_output (fst streams)
           else
             audit "failed" (snd streams) ;;;
             flash ("Failed to create deployment: " +:+ snd streams) "error" ;;;
             set_last_output (snd streams))
          (fun e => Some (h <~ gets host ;;
                          audit "failed" (str_exn h e) ;;;
                          flash ("Error creating deployment: " +:+ str_exn h e) "error" ;;;
                          set_last_output (str_exn h e))) ;;;
        ret (url_for "index")).

(** [POST /create_service] *)
Definition create_service (r : request) : M redirection :=
  login_required r (fun u =>
    connected <~ session_connected ;;
    if negb connected then
      flash "Please connect to a cluster first" "error" ;;; ret (url_for "index")
    else
      let name := strip (form_get r "service_name" "") in
      let port := form_get r "service_port" "80" in
      let target_port := form_get r "service_target_port" "80" in
      let service_type := form_get r "service_type" "ClusterIP" in
      let namespace := strip (form_get r "service_namespace" "default") in
      if negb (truthy name) then
        flash "Service name is required" "error" ;;; ret (url_for "index")
      else
        try_except
          (manifest <~ generate_service_manifest name port target_port service_type namespace ;;
           let manifest_json := json_dumps manifest in
           let cmd := ["kubectl"; "apply"; "-f"; "-"] in
           process <~ Popen cmd None ;;
           streams <~ communicate process true (Some manifest_json) None ;;
           rc <~ returncode process ;;
           if iszero rc then
             flash ("Service " +:+ name +:+ " created successfully") "success" ;;;
             set_last_output (fst streams)
           else
             flash ("Failed to create service: " +:+ snd streams) "error" ;;;
             set_last_output (snd streams))
          (fun e => Some (h <~ gets host ;;
                          flash ("Error creating service: " +:+ str_exn h e) "error" ;;;
                          set_last_output (str_exn h e))) ;;;
        ret (url_for "index")).

(** [POST /execute_custom] *)
Definition execute_custom (r : request) : M redirection :=
  login_required r (fun u =>
    connected <~ session_connected ;;
    if negb connected then
      flash "Please connect to a cluster first" "error" ;;; ret (url_for "index")
    else
      let command := strip (form_get r "custom_command" "") in
      if negb (truthy command) then
        flash "Custom command is required" "error" ;;; ret (url_for "index")
      else if negb (startswith command "kubectl ") then
        flash "Only kubectl commands are allowed" "error" ;;; ret (url_for "index")
      else
        let audit status output :=
          cluster <~ session_cluster_name ;;
          log_audit_action r "execute_custom" "command" "custom_kubectl" "system" cluster
            command status output in
        try_except
          (let cmd_args := split command in
           res <~ execute_kubectl_command cmd_args ;;
           let '(success, output) := res in
           if success : bool then
             audit "success" output ;;;
             flash "Custom command executed successfully" "success" ;;;
             set_last_output output
           else
             audit "failed" output ;;;
             flash ("Command failed: " +:+ output) "error" ;;;
             set_last_output output)
          (fun e => Some (h <~ gets host ;;
                          audit "failed" (str_exn h e) ;;;
                          flash ("Error executing command: " +:+ str_exn h e) "error" ;;;
                          set_last_output (str_exn h e))) ;;;
        ret (url_for "index")).

(** [POST /execute_yaml] *)
Definition execute_yaml (r : request) : M redirection :=
  login_required r (fun u =>
    connected <~ session_connected ;;
    if negb connected then
      flash "Please connect to a cluster first" "error" ;;; ret (url_for "index")
    else
      let yaml_content := strip (form_get r "custom_yaml" "") in
      let namespace_override := strip (form_get r "yaml_namespace" "") in
      if negb (truthy yaml_content) then
        flash "YAML content is required" "error" ;;; ret (url_for "index")
      else
        let audit status output :=
          cluster <~ session_cluster_name ;;
          log_audit_action r "execute_yaml" "manifest" "custom_yaml"
            (str_or namespace_override "default") cluster "kubectl apply -f -"
            status output in
        try_except
          (let cmd :=
             ["kubectl"; "apply"; "-f"; "-"]
               ++ (if truthy namespace_override then ["-n"; namespace_override] else []) in
           process <~ Popen cmd None ;;
           try_except
             (streams <~ communicate process true (Some yaml_content) (Some 60%nat) ;;
              rc <~ returncode process ;;
              if iszero rc then
                audit "success" (fst streams) ;;;
                flash "YAML manifest applied successfully" "success" ;;;
                set_last_output (fst streams)
              else
                audit "failed" (snd streams) ;;;
                flash ("Failed to apply YAML manifest: " +:+ snd streams) "error" ;;;
                set_last_output (snd streams))
             (fun e => match e with
                       | TimeoutExpired _ _ =>
                           Some (kill process ;;;
                                 audit "failed" "Command timed out" ;;;
                                 flash "YAML application timed out after 60 seconds" "error" ;;;
                                 set_last_output "Command timed out")
                       | _ => None
                       end))
          (fun e => Some (h <~ gets host ;;
                          audit "failed" (str_exn h e) ;;;
                          flash ("Error applying YAML manifest: " +:+ str_exn h e) "error" ;;;
                          set_last_output (str_exn h e))) ;;;
        ret (url_for "index")).

(** [POST /get_resources]: the same text as in version 2; it is not behind
    [@login_required]. *)
Definition get_resources := Version2.get_resources.

End Version4.

Import Py.

(** ** Vocabulary of the statements *)

(** An entry of the process table. *)
Definition entry (argv : list string) (env : option (gmap string string))
    (input : option string) (limit : option nat) (b : behaviour) (st : status) : proc :=
  {| p_argv := argv; p_env := env; p_input := input; p_limit := limit;
     p_behaviour := b; p_status := st |}.

(** The world with one more entry in the process table. *)
Definition push (p : proc) : world → world := set_procs (fun l => l ++ [p]).

(** The command lines the handlers build. *)
Definition probe_cmd : list string := ["kubectl"; "get"; "ns"].
Definition apply_cmd (namespace : string) : list string :=
  ["kubectl"; "apply"; "-n"; namespace; "-f"; "-"].

(** The world once [build_kubeconfig] has written [doc] to [path]. *)
Definition built (path : string) (rest : list string) (doc : value) (w : world) : world :=
  set_files (alter (fun f => {| content := Some doc; executable := executable f |}) path)
    (set_names rest
       (set_files (insert path {| content := None; executable := false |}) w)).

(** The world once the child [argv] has exited with status [rc]. *)
Definition exited (argv : list string) (env : option (gmap string string))
    (input : option string) (timeout : option nat) (b : behaviour) (st : status) (rc : Z)
    (w : world) : world :=
  let w2 := push (entry argv env input timeout b (Exited rc)) w in
  if rc =? 0 then child_effect (entry argv env None None b st) w2 else w2.

(** What [subprocess.run] makes of a child that exited with status [rc]
    and the streams [out] and [err]. *)
Definition completed (argv : list string) (check : bool) (rc : Z) (out err : string)
  : outcome CompletedProcess :=
  if check && negb (rc =? 0) then Raise (CalledProcessError rc argv out err)
  else Ret {| cp_returncode := Some rc; cp_stdout := out; cp_stderr := err |}.

(** The flash message that rejects a custom command. *)
Definition rejected : string * string := ("Only kubectl commands are allowed", "error").

Definition manifest_cmd : list string := ["kubectl"; "apply"; "-f"; "-"].

(** The entries a call appended to the process table. *)
Definition started_by {A} (m : M A) (w : world) : list proc :=
  drop (length (procs w)) (procs (m w).2).

(** A child was given [text] on its stdin, or nothing. *)
Definition fed (text : string) (e : proc) : Prop :=
  p_input e = None ∨ p_input e = Some text.

(** *** Two runs of a handler that differ in the token

    [alike] relates the two worlds: the same machine facts, among them how
    kubectl answers, as many children started, and the same web state except
    for [session['cluster_token']];
    [alike_outcome] relates the two results: exceptions may differ in the
    command line they carry. *)
Definition forget_token (s : session_t) : session_t :=
  {| cluster_connected := cluster_connected s; cluster_endpoint := cluster_endpoint s;
     cluster_name := cluster_name s; cluster_token := None; last_output := last_output s |}.

Definition web_alike (x1 x2 : web) : Prop :=
  forget_token (session x1) = forget_token (session x2) ∧
  flashes x1 = flashes x2 ∧ audit_logs x1 = audit_logs x2 ∧
  cluster_connections x1 = cluster_connections x2 ∧ applog x1 = applog x2.

Definition alike (w1 w2 : world) : Prop :=
  host w1 = host w2 ∧ length (procs w1) = length (procs w2) ∧
  web_alike (web_state w1) (web_state w2).

Definition forget_cmd (e : exn) : exn :=
  match e with
  | CalledProcessError rc _ out err => CalledProcessError rc [] out err
  | TimeoutExpired _ t => TimeoutExpired [] t
  | _ => e
  end.

Definition alike_outcome {A} (o1 o2 : outcome A) : Prop :=
  match o1, o2 with
  | Ret a, Ret b => a = b
  | Raise e1, Raise e2 => forget_cmd e1 = forget_cmd e2
  | Hang, Hang => True
  | _, _ => False
  end.

Definition alike_run {A} (m1 m2 : M A) : Prop :=
  ∀ w1 w2, alike w1 w2 →
    alike_outcome (m1 w1).1 (m2 w2).1 ∧ alike (m1 w1).2 (m2 w2).2.

(** Two [alike] worlds whose process tables also agree from entry [n] on:
    what a handler has started since both tables had [n] entries. *)
Definition alike_since (n : nat) (w1 w2 : world) : Prop :=
  alike w1 w2 ∧ (n ≤ length (procs w1))%nat ∧ drop n (procs w1) = drop n (procs w2).

(** [m] cannot tell two such worlds apart: it gives the same result in both
    and leaves them as they were, one to the other. *)
Definition steady {A} (n : nat) (m : M A) : Prop :=
  ∀ w1 w2, alike_since n w1 w2 →
    (m w1).1 = (m w2).1 ∧ alike_since n (m w1).2 (m w2).2.

(** The request [r] with [t] in its token field. *)
Definition with_token (t : string) (r : request) : request :=
  {| form := <["token" := t]> (form r); remote_addr := remote_addr r;
     user_agent := user_agent r; current_user := current_user r |}.

(** [m] only appends entries satisfying [P] to the process table and leaves
    [os.environ] alone. *)
Definition spawns_only {A} (P : proc → Prop) (m : M A) : Prop :=
  ∀ w, environ (m w).2 = environ w ∧
       ∃ new, procs (m w).2 = procs w ++ new ∧ Forall P new.

(** A call that never blocks: it returns or raises on every machine. *)
Definition bounded {A} (m : M A) : Prop := ∀ w, (m w).1 ≠ Hang.

(** ** Concrete machines and requests

    A machine on which kubectl is installed, with one name left for
    [mkstemp] to draw; [o] says how each child process behaves, [werr]
    whether writing the kubeconfig fails. *)
Definition quiet_host (o : nat → behaviour) (werr : option string) : host_t :=
  {| oracle := o; signames := fun _ => None;
     install_script := "/app/install_kubectl.sh"; installer := (None, false);
     tempdir := "/tmp"; int_max_str_digits := 4300; write_error := werr;
     utcnow := 1700000000 |}.

Definition no_kubeconfig : kubecfg :=
  {| clusters := ∅; users := ∅; contexts := ∅; current_context := None |}.

Definition blank_web (s : session_t) : web :=
  {| session := s; flashes := []; audit_logs := []; cluster_connections := [];
     applog := [] |}.

Definition machine (o : nat → behaviour) (werr : option string) (s : session_t) : world :=
  {| host := quiet_host o werr; environ := {["PATH" := "/usr/bin"]}; files := ∅;
     names := ["k3x9q2ab"]; on_path := Some "/usr/bin/kubectl";
     kubeconfig := no_kubeconfig; procs := []; web_state := blank_web s |}.

Definition connected_session : session_t :=
  {| cluster_connected := Some true; cluster_endpoint := Some "https://k8s.example";
     cluster_name := Some "prod"; cluster_token := Some "tok"; last_output := None |}.

Definition alice : user := {| user_id := 1; username := "alice" |}.

Definition post (fields : list (string * string)) : request :=
  {| form := list_to_map fields; remote_addr := "10.0.0.7"; user_agent := "curl/8";
     current_user := Some alice |}.

Definition succeeds : behaviour := Exits 1 0 "ok" "".

(** The manifest text of [Version1.deploy] with one argument per place a
    name goes. *)
Definition deployment_text (metadata_name label selector pod_label container
    image replicas : string) : string :=
  unlines [
    "apiVersion: apps/v1";
    "kind: Deployment";
    "metadata:";
    "  name: " +:+ metadata_name;
    "  labels:";
    "    app: " +:+ label;
    "spec:";
    "  replicas: " +:+ replicas;
    "  selector:";
    "    matchLabels:";
    "      app: " +:+ selector;
    "  template:";
    "    metadata:";
    "      labels:";
    "        app: " +:+ pod_label;
    "    spec:";
    "      containers:";
    "      - name: " +:+ container;
    "        image: " +:+ image].

Definition disk_full : option string := Some "[Errno 28] No space left on device".

Definition deploy_form (replicas : string) : request :=
  post [("api", "https://k8s.example"); ("token", "tok"); ("name", "web");
        ("image", "nginx:1.25"); ("replicas", replicas)].

Definition connect_form : request :=
  post [("endpoint", "https://k8s.example"); ("cluster_name", "prod"); ("token", "tok")].

Definition deployment_form (replicas : string) : request :=
  post [("deployment_name", "web"); ("deployment_image", "nginx:1.25");
        ("deployment_replicas", replicas)].

Definition service_form : request :=
  post [("service_name", "web"); ("service_port", "8080")].

Definition custom_form (command : string) : request :=
  post [("custom_command", command)].

(** ** Further vocabulary *)

(** Only whitespace, or nothing at all. *)
Fixpoint blank (s : string) : bool :=
  match s with
  | EmptyString => true
  | String c s' => isspace c && blank s'
  end.

(** One of the form fields [keys] is missing or blank. *)
Definition lacks (r : request) (keys : list string) : bool :=
  existsb (fun k => blank (form_get r k "")) keys.

(** The four forms of version 1, the fields each requires and its answer when
    one is missing. *)
Definition forms : list ((request → M Version1.response) * list string * string) :=
  [(Version1.deploy, ["api"; "token"; "name"; "image"],
    "api, token, name and image are required");
   (Version1.service, ["api"; "token"; "name"], "api, token and name are required");
   (Version1.custom, ["api"; "token"; "yaml"], "api, token and yaml are required");
   (Version1.delete, ["api"; "token"; "kind"; "name"],
    "api, token, kind and name are required")].

(** The answer is not the bare text of a refused form. *)
Definition is_page (o : outcome Version1.response) : Prop :=
  match o with
  | Ret (Version1.Text _ _) => False
  | _ => True
  end.

(** The command line of [run_kubectl_delete]. *)
Definition delete_cmd (kind name namespace : string) : list string :=
  ["kubectl"; "delete"; kind; name; "-n"; namespace].

(** A path [mkstemp] may give the temporary kubeconfig on the machine [w]. *)
Definition temp_kubeconfig (w : world) (path : string) : Prop :=
  ∃ n, In n (names w) ∧ path = tempdir (host w) +:+ "/" +:+ "kubeconf_" +:+ n +:+ ".yaml".

(** The command lines of kubectl in version 1 and the manifests of its three
    applying forms, as the fields of [r] other than the token give them. *)
Definition commands (r : request) : list (list string) :=
  [probe_cmd; apply_cmd (Version1.namespace_of r);
   delete_cmd (strip (form_get r "kind" "")) (strip (form_get r "name" ""))
     (Version1.namespace_of r)].

Definition manifests (r : request) : list string :=
  let name := strip (form_get r "name" "") in
  let port := strip (form_get r "port" "80") in
  [Version1.deployment_yaml name (strip (form_get r "image" ""))
     (strip (form_get r "replicas" "1"));
   Version1.service_yaml name port (strip (form_get r "targetPort" port));
   strip (form_get r "yaml" "")].

(** The install script as [kubectl_path] starts it. *)
Definition installer_child (w : world) (e : proc) : Prop :=
  p_argv e = [install_script (host w)] ∧ p_env e = None ∧ p_input e = None.

(** kubectl as version 1 starts it: one of the command lines [cmds], a copy
    of the environment with KUBECONFIG set to the temporary file, and nothing
    or one of the texts [inputs] on its stdin. *)
Definition kubectl_child (w : world) (cmds : list (list string)) (inputs : list string)
    (e : proc) : Prop :=
  In (p_argv e) cmds ∧
  (∃ path, temp_kubeconfig w path ∧
           p_env e = Some (<["KUBECONFIG" := path]> (environ w))) ∧
  (p_input e = None ∨ ∃ text, In text inputs ∧ p_input e = Some text).

(** What a child of a request of version 1 is given, none of it read from
    the token field. *)
Definition token_free (r : request) (w : world) (e : proc) : Prop :=
  installer_child w e ∨ kubectl_child w (commands r) (manifests r) e.

(** The world with one more flashed message. *)
Definition flashed (message category : string) : world → world :=
  set_web (add_flash message category).

(** The handlers of version 2 and of version 4 that act on the cluster. *)
Definition actions2 : list (request → M redirection) :=
  [Version2.create_deployment; Version2.create_service; Version2.execute_custom;
   Version2.execute_yaml].
Definition actions4 : list (request → M redirection) :=
  [Version4.create_deployment; Version4.create_service; Version4.execute_custom;
   Version4.execute_yaml].

(** [session.get('cluster_connected')] is missing or false. *)
Definition disconnected (w : world) : Prop :=
  default false (cluster_connected (session (web_state w))) = false.

(** [session.get('cluster_connected')] is true. *)
Definition connected (w : world) : Prop :=
  default false (cluster_connected (session (web_state w))) = true.

(** The session once the four connection keys are popped. *)
Definition popped (s : session_t) : session_t :=
  {| cluster_connected := None; cluster_endpoint := None; cluster_name := None;
     cluster_token := None; last_output := last_output s |}.

(** The session once [connect_cluster] has made its four assignments. *)
Definition connected_to (endpoint name token : string) (s : session_t) : session_t :=
  {| cluster_connected := Some true; cluster_endpoint := Some endpoint;
     cluster_name := Some name; cluster_token := Some token;
     last_output := last_output s |}.

(** A call that returns on every machine, with a value in [P]. *)
Definition yields {A} (P : A → Prop) (m : M A) : Prop :=
  ∀ w, ∃ a, (m w).1 = Ret a ∧ P a.

(** A call that leaves the part [f] of the world as it is. *)
Definition keeps {A X} (f : world → X) (m : M A) : Prop :=
  ∀ w, f (m w).2 = f w.

(** No whitespace character anywhere. *)
Fixpoint spaceless (s : string) : bool :=
  match s with
  | EmptyString => true
  | String c s' => negb (isspace c) && spaceless s'
  end.

(** An argument as [str.split] makes them: not empty, no whitespace. *)
Definition argument (s : string) : Prop := truthy s = true ∧ spaceless s = true.

(** The command line of [get_resources]. *)
Definition resources_cmd (r : request) : list string :=
  ["kubectl"; "get"; form_get r "resource_type" "pods"; "-n";
   form_get r "namespace" "default"; "-o"; "json"].

(** [{'error': message}] *)
Definition json_error (message : string) : value := VDict [("error", VStr message)].

(** What [execute_kubectl_command] reports for a kubectl that was killed. *)
Definition timed_out : string := "Command timed out after 30 seconds".

(** kubectl exits within [t] seconds with status 0 and output that can be
    decoded. *)
Definition succeeds_within (t : nat) (b : behaviour) : bool :=
  match b with
  | Exits secs rc _ _ => (secs <=? t)%nat && (rc =? 0)
  | _ => false
  end.

(** The state in which a wait of [t] seconds, and [kill] once it has timed
    out, leave a child. *)
Definition left_as (t : nat) (b : behaviour) : status :=
  match b with
  | Exits secs rc _ _ | Garbles secs rc _ => if (secs <=? t)%nat then Exited rc else Killed
  | NeverExits => Killed
  | CannotStart _ => NotStarted
  end.

(** The command line of [execute_yaml]. *)
Definition yaml_cmd (namespace : string) : list string :=
  manifest_cmd ++ (if truthy namespace then ["-n"; namespace] else []).

(** The five commands of [validate_cluster_connection], in order. *)
Definition connect_cmds (endpoint token name : string) : list (list string) :=
  [["kubectl"; "config"; "set-cluster"; name; "--server=" +:+ endpoint;
    "--insecure-skip-tls-verify=true"];
   ["kubectl"; "config"; "set-credentials"; name +:+ "-user"; "--token=" +:+ token];
   ["kubectl"; "config"; "set-context"; name; "--cluster=" +:+ name;
    "--user=" +:+ (name +:+ "-user")];
   ["kubectl"; "config"; "use-context"; name];
   ["kubectl"; "get"; "nodes"]].

(** How a call of [subprocess.run(argv, capture_output=True, text=True,
    check=True)] that started a child ended, read off the entry [e] it left
    in the process table. *)
Definition checked_end (o : outcome CompletedProcess) (e : proc) : Prop :=
  match o with
  | Ret cp =>
      p_status e = Exited 0 ∧ ∃ secs err, p_behaviour e = Exits secs 0 (cp_stdout cp) err
  | Raise (CalledProcessError rc _ _ err) =>
      p_status e = Exited rc ∧ rc ≠ 0 ∧ ∃ secs out, p_behaviour e = Exits secs rc out err
  | Raise (OSError msg) => p_status e = NotStarted ∧ p_behaviour e = CannotStart msg
  | Raise (UnicodeDecodeError reason) =>
      ∃ secs rc, p_status e = Exited rc ∧ p_behaviour e = Garbles secs rc reason
  | Raise _ => False
  | Hang => p_status e = Running ∧ p_behaviour e = NeverExits
  end.

(** How [validate_cluster_connection] ended, read off the last entry [e],
    after the entries [done]. *)
Definition validated (o : outcome (bool * string)) (done : list proc) (e : proc) : Prop :=
  match o with
  | Ret (true, text) =>
      length done = 4%nat ∧ p_status e = Exited 0 ∧
      ∃ secs err, p_behaviour e = Exits secs 0 text err
  | Ret (false, text) =>
      ∃ secs rc out, rc ≠ 0 ∧ p_status e = Exited rc ∧ p_behaviour e = Exits secs rc out text
  | Raise (OSError msg) => p_status e = NotStarted ∧ p_behaviour e = CannotStart msg
  | Raise (UnicodeDecodeError reason) =>
      ∃ secs rc, p_status e = Exited rc ∧ p_behaviour e = Garbles secs rc reason
  | Raise _ => False
  | Hang => p_status e = Running ∧ p_behaviour e = NeverExits
  end.

(** [line] is one of the lines of the manifest text [yaml]. *)
Definition interpolated (line yaml : string) : Prop :=
  ∃ before after, yaml = unlines (before ++ [line] ++ after).

(** What [create_deployment] makes of the replicas field: when the count and
    the port parse, one kubectl is started and given the manifest with the
    parsed count; when [int] rejects one of them, nothing is started and the
    error is flashed. *)
Definition renders_replicas (create_deployment : request → M redirection) (r : request)
    (w : world) : Prop :=
  let name := strip (form_get r "deployment_name" "") in
  let image := strip (form_get r "deployment_image" "") in
  let replicas := form_get r "deployment_replicas" "1" in
  let port := form_get r "deployment_port" "80" in
  let namespace := strip (form_get r "deployment_namespace" "default") in
  let limit := int_max_str_digits (host w) in
  let w' := (create_deployment r w).2 in
  match Py.int limit replicas, Py.int limit port with
  | inl n, inl p =>
      ∃ m e,
        Version2.generate_deployment_manifest name image replicas port namespace w
          = (Ret m, w) ∧
        get [Key "spec"; Key "replicas"] m = Some (VInt n) ∧
        procs w' = procs w ++ [e] ∧ p_argv e = manifest_cmd ∧
        (p_status e ≠ NotStarted → p_input e = Some (json_dumps m))
  | inl _, inr msg | inr msg, _ =>
      procs w' = procs w ∧
      last (flashes (web_state w')) = Some ("Error creating deployment: " +:+ msg, "error")
  end.

(** What [create_service] makes of the two port fields: when both parse, one
    kubectl is started and given the manifest with the two parsed numbers;
    when [int] rejects one of them, nothing is started and the error is
    flashed. *)
Definition renders_ports (create_service : request → M redirection) (r : request)
    (w : world) : Prop :=
  let port := form_get r "service_port" "80" in
  let target_port := form_get r "service_target_port" "80" in
  let limit := int_max_str_digits (host w) in
  let w' := (create_service r w).2 in
  match Py.int limit port, Py.int limit target_port with
  | inl p, inl t =>
      ∃ m e,
        get [Key "spec"; Key "ports"; Idx 0; Key "port"] m = Some (VInt p) ∧
        get [Key "spec"; Key "ports"; Idx 0; Key "targetPort"] m = Some (VInt t) ∧
        procs w' = procs w ++ [e] ∧ p_argv e = manifest_cmd ∧
        (p_status e ≠ NotStarted → p_input e = Some (json_dumps m))
  | inl _, inr msg | inr msg, _ =>
      procs w' = procs w ∧
      last (flashes (web_state w')) = Some ("Error creating service: " +:+ msg, "error")
  end.

(** A machine without kubectl and without the install script. *)
Definition bare_machine : world :=
  set_on_path None (machine (fun _ => succeeds) None empty_session).

(** A machine without kubectl whose install script puts it at /tmp/kubectl. *)
Definition unprovisioned : world :=
  {| host := {| oracle := fun _ => succeeds; signames := fun _ => None;
                install_script := "/app/install_kubectl.sh"; installer := (None, true);
                tempdir := "/tmp"; int_max_str_digits := 4300; write_error := None;
                utcnow := 1700000000 |};
     environ := {["PATH" := "/usr/bin"]};
     files := {["/app/install_kubectl.sh" := {| content := None; executable := true |}]};
     names := ["k3x9q2ab"]; on_path := None; kubeconfig := no_kubeconfig; procs := [];
     web_state := blank_web empty_session |}.

(** A delete form for the pod [web]. *)
Definition delete_form : request :=
  post [("api", "https://k8s.example"); ("token", "tok"); ("kind", "pod"); ("name", "web")].

(** A request that carries no login. *)
Definition anonymous (fields : list (string * string)) : request :=
  {| form := list_to_map fields; remote_addr := "10.0.0.9"; user_agent := "curl/8";
     current_user := None |}.

(** ** Checks of the Python layer *)

Example strip_ex : Py.strip "  kubectl get pods  " = "kubectl get pods".
Proof. reflexivity. Qed.
Example split_ex : Py.split " kubectl  get pods " = ["kubectl"; "get"; "pods"].
Proof. reflexivity. Qed.
Example int_ex1 : Py.int 4300 " -3 " = inl (-3).
Proof. reflexivity. Qed.
Example int_ex2 : Py.int 4300 "1_000" = inl 1000.
Proof. reflexivity. Qed.
Example int_ex3 :
  Forall (fun s => Py.int 4300 s = inr (Py.int_error s))
    ["abc"; ""; "1__0"; "_1"; "1_"; "+ 1"; "3.5"; "-"].
Proof. repeat constructor. Qed.
Example b64_ex : Py.b64encode (Py.encode "hello") = "aGVsbG8=".
Proof. reflexivity. Qed.
Example repr_ex : Py.int_error "abc" = "invalid literal for int() with base 10: 'abc'".
Proof. reflexivity. Qed.
Example str_ex : map Py.str_of_int [0; 80; -3] = ["0"; "80"; "-3"].
Proof. reflexivity. Qed.
Example dumps_ex :
  Py.json_dumps (Py.VDict [("a", Py.VDict [("b", Py.VList [Py.VDict [("c", Py.VInt 1)]]);
                                          ("d", Py.VList []); ("e", Py.VStr "x\y")])])
  = Py.join Py.nl
      ["{"; "  " +:+ Py.json_string "a" +:+ ": {";
       "    " +:+ Py.json_string "b" +:+ ": ["; "      {";
       "        " +:+ Py.json_string "c" +:+ ": 1"; "      }"; "    ],";
       "    " +:+ Py.json_string "d" +:+ ": [],";
       "    " +:+ Py.json_string "e" +:+ ": " +:+ String Py.quote2 ("x\\y" +:+ String Py.quote2 "");
       "  }"; "}"].
Proof. reflexivity. Qed.

(** ** Facts about the string methods *)

Lemma startswith_kubectl (s : string) :
  startswith s "kubectl " = true → head (split s) = Some "kubectl".
Proof.
  unfold startswith. intros H.
  do 8 (destruct s as [|? s]; [discriminate H|];
        simpl in H;
        match type of H with
        | (if ?d then _ else _) = true => destruct d as [<-|]; [|discriminate H]
        end).
  reflexivity.
Qed.

Lemma split_lstrip s : split (lstrip s) = split s.
Proof.
  induction s as [|c s IH]; [reflexivity|].
  simpl. destruct (isspace c) eqn:E; [exact IH|].
  simpl. rewrite E. reflexivity.
Qed.

Lemma rstrip_empty_split s : rstrip s = "" → split s = [].
Proof.
  induction s as [|c s IH]; [reflexivity|].
  simpl. destruct (rstrip s) eqn:E.
  - destruct (isspace c) eqn:Ec; [|discriminate]. intros _. apply IH. reflexivity.
  - discriminate.
Qed.

Lemma split_cons c s :
  split (String c s) =
  if isspace c then split s
  else match s with
       | EmptyString => [String c EmptyString]
       | String c' _ =>
           if isspace c' then String c EmptyString :: split s
           else match split s with
                | w :: ws => String c w :: ws
                | [] => [String c EmptyString]
                end
       end.
Proof. reflexivity. Qed.

Lemma rstrip_head c s d r : rstrip (String c s) = String d r → d = c.
Proof.
  cbn [rstrip]. destruct (rstrip s); [destruct (isspace c)|]; congruence.
Qed.

Lemma split_rstrip s : split (rstrip s) = split s.
Proof.
  induction s as [|c s IH]; [reflexivity|].
  cbn [rstrip]. destruct (rstrip s) as [|d r] eqn:E.
  - pose proof (rstrip_empty_split s E) as Hs.
    rewrite (split_cons c s), Hs.
    destruct (isspace c) eqn:Ec; [reflexivity|].
    rewrite split_cons, Ec.
    destruct s as [|c' s']; [reflexivity|].
    destruct (isspace c'); reflexivity.
  - rewrite (split_cons c s), (split_cons c (String d r)), IH.
    destruct (isspace c); [reflexivity|].
    destruct s as [|c' s']; [discriminate E|].
    apply rstrip_head in E. subst d. reflexivity.
Qed.

Lemma split_strip s : split (strip s) = split s.
Proof. unfold strip. rewrite split_rstrip. apply split_lstrip. Qed.

Lemma split_nonempty_strip s : split s ≠ [] → truthy (strip s) = true.
Proof.
  intros H. destruct (strip s) eqn:E; [|reflexivity].
  exfalso. apply H. rewrite <- split_strip, E. reflexivity.
Qed.

Lemma first_token_strip s : head (split (strip s)) = head (split s).
Proof. rewrite split_strip. reflexivity. Qed.

Lemma rstrip_idem s : rstrip (rstrip s) = rstrip s.
Proof.
  induction s as [|c s IH]; [reflexivity|].
  cbn [rstrip]. destruct (rstrip s) as [|d t] eqn:E.
  - destruct (isspace c) eqn:Ec; [reflexivity|]. cbn [rstrip]. rewrite Ec. reflexivity.
  - cbn [rstrip] in *. rewrite IH. reflexivity.
Qed.

Lemma lstrip_head s :
  lstrip s = "" ∨ ∃ c t, lstrip s = String c t ∧ isspace c = false.
Proof.
  induction s as [|c s IH]; [left; reflexivity|].
  cbn [lstrip]. destruct (isspace c) eqn:Ec; [exact IH|]. right. eauto.
Qed.

Lemma strip_strip s : strip (strip s) = strip s.
Proof.
  unfold strip. destruct (lstrip_head s) as [->|(c & t & -> & Hc)]; [reflexivity|].
  assert (H : ∃ t', rstrip (String c t) = String c t').
  { cbn [rstrip]. destruct (rstrip t); [rewrite Hc|]; eauto. }
  destruct H as [t' Ht]. rewrite Ht at 1. cbn [lstrip]. rewrite Hc, <- Ht.
  apply rstrip_idem.
Qed.

Lemma str_or_empty s : str_or s "" = s.
Proof. destruct s; reflexivity. Qed.

Lemma truthy_app_r a b : truthy b = true → truthy (a +:+ b) = true.
Proof. destruct a; [trivial|reflexivity]. Qed.

(** ** The monad and the subprocess calls, in closed form *)

Lemma bind_eq {A B} (m : M A) (k : A → M B) w :
  bind m k w =
  match m w with
  | (Ret a, w') => k a w'
  | (Raise e, w') => (Raise e, w')
  | (Hang, w') => (Hang, w')
  end.
Proof. reflexivity. Qed.

Lemma if_same {A} (b : bool) (x : A) : (if b then x else x) = x.
Proof. destruct b; reflexivity. Qed.

Lemma nonzero_Some rc : nonzero (Some rc) = negb (rc =? 0).
Proof. destruct rc; reflexivity. Qed.

Lemma lookup_snoc {A} (l : list A) (x : A) : (l ++ [x]) !! length l = Some x.
Proof. apply list_lookup_middle. reflexivity. Qed.

Lemma alter_snoc {A} (f : A → A) (l : list A) (x : A) :
  alter f (length l) (l ++ [x]) = l ++ [f x].
Proof.
  replace (length l) with (length l + 0)%nat by lia.
  rewrite alter_app_r. reflexivity.
Qed.

Lemma alter_push (f : proc → proc) (e : proc) (w : world) :
  set_procs (alter f (length (procs w))) (push e w) = push (f e) w.
Proof. unfold push, set_procs. cbn. rewrite alter_snoc. reflexivity. Qed.

Lemma procs_push e w : procs (push e w) = procs w ++ [e].
Proof. reflexivity. Qed.

Lemma procs_child_effect p w : procs (child_effect p w) = procs w.
Proof.
  unfold child_effect.
  repeat match goal with
         | |- context [if ?c then _ else _] => destruct c
         | |- context [match ?c with Some _ => _ | None => _ end] => destruct c
         end; reflexivity.
Qed.

Lemma child_effect_host p w : host (child_effect p w) = host w.
Proof.
  unfold child_effect.
  repeat match goal with
         | |- context [if ?c then _ else _] => destruct c
         | |- context [match ?c with Some _ => _ | None => _ end] => destruct c
         end; reflexivity.
Qed.

Lemma child_effect_environ p w : environ (child_effect p w) = environ w.
Proof.
  unfold child_effect.
  repeat match goal with
         | |- context [if ?c then _ else _] => destruct c
         | |- context [match ?c with Some _ => _ | None => _ end] => destruct c
         end; reflexivity.
Qed.

Lemma child_effect_web p w : web_state (child_effect p w) = web_state w.
Proof.
  unfold child_effect.
  repeat match goal with
         | |- context [if ?c then _ else _] => destruct c
         | |- context [match ?c with Some _ => _ | None => _ end] => destruct c
         end; reflexivity.
Qed.

Lemma child_effect_files p w q :
  q ≠ "/tmp/kubectl" → files (child_effect p w) !! q = files w !! q.
Proof.
  intros Hq. unfold child_effect.
  repeat match goal with
         | |- context [if ?c then _ else _] => destruct c
         | |- context [match ?c with Some _ => _ | None => _ end] => destruct c
         end; cbn [files set_files set_on_path set_kubeconfig]; try reflexivity.
  apply lookup_insert_ne. congruence.
Qed.

Lemma child_effect_inert argv env b st w :
  length argv ≠ 1%nat → kubectl_config argv = None →
  child_effect (entry argv env None None b st) w = w.
Proof.
  intros Hlen Hcfg. unfold child_effect. cbn [p_argv entry].
  rewrite bool_decide_eq_false_2 by (intros ->; apply Hlen; reflexivity).
  rewrite Hcfg. destruct (points_elsewhere _ _); reflexivity.
Qed.

Lemma contains_app c a b :
  contains c (a +:+ b) = contains c a || contains c b.
Proof.
  induction a as [|d a IH]; [reflexivity|]. simpl.
  destruct (Ascii.eqb c d); [reflexivity|exact IH].
Qed.

Lemma Popen_eq argv env w :
  Popen argv env w =
  if embedded_null argv then (Raise (ValueError "embedded null byte"), w) else
  let b := oracle (host w) (length (procs w)) in
  match b with
  | CannotStart msg => (Raise (OSError msg), push (entry argv env None None b NotStarted) w)
  | _ => (Ret (length (procs w)), push (entry argv env None None b Running) w)
  end.
Proof.
  unfold Popen. destruct (embedded_null argv); [reflexivity|].
  cbv zeta. destruct (oracle _ _); reflexivity.
Qed.

Lemma communicate_eq argv env b st text input timeout w :
  communicate (length (procs w)) text input timeout (push (entry argv env None None b st) w) =
  let late := (Raise (TimeoutExpired argv (default 0%nat timeout)),
               push (entry argv env input timeout b st) w) in
  match b, timeout with
  | Exits secs rc out err, _ =>
      if within timeout secs then
        (Ret (if text then (out, err) else ("", "")),
         exited argv env input timeout b st rc w)
      else late
  | Garbles secs rc reason, _ =>
      if within timeout secs then
        (if text then Raise (UnicodeDecodeError reason) else Ret ("", ""),
         exited argv env input timeout b st rc w)
      else late
  | _, Some t => (Raise (TimeoutExpired argv t), push (entry argv env input timeout b st) w)
  | _, None => (Hang, push (entry argv env input timeout b st) w)
  end.
Proof.
  unfold communicate, exited. rewrite procs_push, lookup_snoc.
  rewrite alter_push. cbn [p_behaviour p_argv entry].
  destruct b as [secs rc out err|secs rc reason| |msg].
  - destruct (within timeout secs); [|reflexivity].
    cbv zeta. rewrite alter_push. reflexivity.
  - destruct (within timeout secs); [|reflexivity].
    cbv zeta. rewrite alter_push. reflexivity.
  - destruct timeout; reflexivity.
  - destruct timeout; reflexivity.
Qed.

Lemma procs_exited argv env input timeout b st rc w :
  procs (exited argv env input timeout b st rc w)
  = procs w ++ [entry argv env input timeout b (Exited rc)].
Proof. unfold exited. cbv zeta. destruct (rc =? 0); [rewrite procs_child_effect|]; reflexivity. Qed.

Lemma host_exited argv env input timeout b st rc w :
  host (exited argv env input timeout b st rc w) = host w.
Proof. unfold exited. cbv zeta. destruct (rc =? 0); [rewrite child_effect_host|]; reflexivity. Qed.

Lemma environ_exited argv env input timeout b st rc w :
  environ (exited argv env input timeout b st rc w) = environ w.
Proof.
  unfold exited. cbv zeta. destruct (rc =? 0); [rewrite child_effect_environ|]; reflexivity.
Qed.

Lemma web_exited argv env input timeout b st rc w :
  web_state (exited argv env input timeout b st rc w) = web_state w.
Proof. unfold exited. cbv zeta. destruct (rc =? 0); [rewrite child_effect_web|]; reflexivity. Qed.

Lemma files_exited argv env input timeout b st rc w q :
  q ≠ "/tmp/kubectl" → files (exited argv env input timeout b st rc w) !! q = files w !! q.
Proof.
  intros Hq. unfold exited. cbv zeta.
  destruct (rc =? 0); [rewrite child_effect_files by exact Hq|]; reflexivity.
Qed.

Lemma exited_inert argv env input timeout b st rc w :
  length argv ≠ 1%nat → kubectl_config argv = None →
  exited argv env input timeout b st rc w
  = push (entry argv env input timeout b (Exited rc)) w.
Proof.
  intros Hlen Hcfg. unfold exited. cbv zeta.
  rewrite child_effect_inert by assumption. apply if_same.
Qed.

Lemma returncode_exited argv env input timeout b st rc w :
  returncode (length (procs w)) (exited argv env input timeout b st rc w)
  = (Ret (Some rc), exited argv env input timeout b st rc w).
Proof.
  unfold returncode, gets. rewrite procs_exited, lookup_snoc. reflexivity.
Qed.

Lemma kill_eq argv env input limit b w :
  kill (length (procs w)) (push (entry argv env input limit b Running) w) =
  (Ret tt, push (entry argv env input limit b Killed) w).
Proof. unfold kill, modify. rewrite alter_push. reflexivity. Qed.

Lemma kill_exited argv env input timeout b st rc w :
  kill (length (procs w)) (exited argv env input timeout b st rc w)
  = (Ret tt, exited argv env input timeout b st rc w).
Proof.
  unfold kill, modify, exited. cbv zeta. f_equal.
  destruct (rc =? 0).
  - set (w2 := push _ w).
    assert (H : ∀ f w0, procs (set_procs f (child_effect (entry argv env None None b st) w0))
                        = f (procs w0))
      by (intros; cbn [procs set_procs]; rewrite procs_child_effect; reflexivity).
    assert (Hid : alter (fun p => match p_status p with
                                  | Running => with_status Killed p
                                  | _ => p
                                  end) (length (procs w)) (procs w2) = procs w2).
    { unfold w2. rewrite procs_push, alter_snoc. reflexivity. }
    destruct (child_effect (entry argv env None None b st) w2) as [h e f n o k pr ws] eqn:E.
    pose proof (procs_child_effect (entry argv env None None b st) w2) as Hp.
    rewrite E in Hp. cbn [procs] in Hp. unfold set_procs. cbn. rewrite Hp, Hid. reflexivity.
  - unfold push, set_procs. cbn. rewrite alter_snoc. reflexivity.
Qed.

Lemma returncode_eq i w :
  returncode i w =
  (Ret (match p_status <$> procs w !! i with
        | Some (Exited rc) => Some rc
        | Some Killed => Some (-9)
        | _ => None
        end), w).
Proof. reflexivity. Qed.

Lemma subprocess_run_eq argv env input capture check timeout w :
  subprocess_run argv env input capture check timeout w =
  if embedded_null argv then (Raise (ValueError "embedded null byte"), w) else
  let b := oracle (host w) (length (procs w)) in
  let late := (Raise (TimeoutExpired argv (default 0%nat timeout)),
               push (entry argv env input timeout b Killed) w) in
  match b with
  | CannotStart msg => (Raise (OSError msg), push (entry argv env None None b NotStarted) w)
  | Exits secs rc out err =>
      if within timeout secs then
        (if capture then completed argv check rc out err else completed argv check rc "" "",
         exited argv env input timeout b Running rc w)
      else late
  | Garbles secs rc reason =>
      if within timeout secs then
        (if capture then Raise (UnicodeDecodeError reason) else completed argv check rc "" "",
         exited argv env input timeout b Running rc w)
      else late
  | NeverExits =>
      match timeout with
      | Some t => (Raise (TimeoutExpired argv t), push (entry argv env input timeout b Killed) w)
      | None => (Hang, push (entry argv env input timeout b Running) w)
      end
  end.
Proof.
  unfold subprocess_run. rewrite bind_eq, Popen_eq.
  destruct (embedded_null argv); [reflexivity|]. cbv zeta.
  destruct (oracle (host w) (length (procs w))) as [secs rc out err|secs rc reason| |msg].
  - rewrite bind_eq. unfold try_except. rewrite communicate_eq. cbv zeta.
    destruct (within timeout secs).
    + rewrite bind_eq, returncode_exited. unfold completed.
      destruct capture; cbn [fst snd]; destruct (check && negb (rc =? 0)); reflexivity.
    + rewrite bind_eq, kill_eq. reflexivity.
  - rewrite bind_eq. unfold try_except. rewrite communicate_eq. cbv zeta.
    destruct (within timeout secs).
    + destruct capture.
      * rewrite bind_eq, kill_exited. reflexivity.
      * rewrite bind_eq, returncode_exited. unfold completed.
        cbn [fst snd]. destruct (check && negb (rc =? 0)); reflexivity.
    + rewrite bind_eq, kill_eq. reflexivity.
  - rewrite bind_eq. unfold try_except. rewrite communicate_eq. cbv zeta.
    destruct timeout as [t|].
    + rewrite bind_eq, kill_eq. reflexivity.
    + reflexivity.
  - reflexivity.
Qed.

(** ** version 1: the kubeconfig that is written *)

Lemma mkstemp_pick_fresh candidates dir pre suf (fs : gmap string file) path rest :
  Version1.mkstemp_pick candidates dir pre suf fs = Some (path, rest) →
  fs !! path = None ∧ truthy path = true.
Proof.
  induction candidates as [|n l IH]; [discriminate|].
  cbn [Version1.mkstemp_pick].
  destruct (fs !! (dir +:+ "/" +:+ pre +:+ n +:+ suf)) eqn:E; [exact IH|].
  intros [= <- <-]. split; [exact E|]. apply truthy_app_r. reflexivity.
Qed.

Lemma build_kubeconfig_eq api token ns skip ca w :
  Version1.build_kubeconfig api token ns skip ca w =
  match Version1.mkstemp_pick (names w) (tempdir (host w)) "kubeconf_" ".yaml" (files w) with
  | Some (path, rest) =>
      match write_error (host w) with
      | Some msg =>
          (Raise (OSError msg),
           set_names rest
             (set_files (insert path {| content := None; executable := false |}) w))
      | None =>
          (Ret path, built path rest (Version1.kubeconfig_dict api token ns skip ca) w)
      end
  | None =>
      (Raise (OSError "[Errno 17] No usable temporary file name found"), set_names [] w)
  end.
Proof.
  unfold Version1.build_kubeconfig, bind, Version1.mkstemp, Version1.safe_dump, ret, built.
  cbv zeta.
  destruct (Version1.mkstemp_pick _ _ _ _ _) as [[path rest]|]; [|reflexivity].
  cbn [host set_names set_files]. destruct (write_error (host w)); reflexivity.
Qed.

Lemma build_kubeconfig_procs api token ns skip ca w :
  procs (Version1.build_kubeconfig api token ns skip ca w).2 = procs w.
Proof.
  rewrite build_kubeconfig_eq.
  destruct (Version1.mkstemp_pick _ _ _ _ _) as [[path rest]|]; [|reflexivity].
  destruct (write_error (host w)); reflexivity.
Qed.

(** Claim C10.  In the kubeconfig that [build_kubeconfig] writes, the
    cluster has [insecure-skip-tls-verify: true] exactly when [skip_tls] is
    set, and [certificate-authority-data] exactly when [skip_tls] is not set
    and a non-empty CA PEM is given, its value being the base64 text of the
    encoded PEM: with [skip_tls] set, a given CA is left out.
    [build_kubeconfig] returns whenever a temporary name is free and the
    write does not fail, and the file at the path it returns then holds this
    document; otherwise it raises. *)
Theorem skip_tls_overrides_ca api token ns skip ca :
  let doc := Version1.kubeconfig_dict api token ns skip ca in
  get (Version1.cluster_path ++ [Key "insecure-skip-tls-verify"]) doc
    = (if skip then Some (VBool true) else None) ∧
  get (Version1.cluster_path ++ [Key "certificate-authority-data"]) doc
    = (if skip then None
       else match ca with
            | Some pem => if truthy pem then Some (VStr (b64encode (encode pem))) else None
            | None => None
            end) ∧
  get (Version1.cluster_path ++ [Key "server"]) doc = Some (VStr api) ∧
  ∀ w, match Version1.mkstemp_pick (names w) (tempdir (host w)) "kubeconf_" ".yaml"
               (files w), write_error (host w) with
       | Some (path, _), None =>
           ∃ w', Version1.build_kubeconfig api token ns skip ca w = (Ret path, w') ∧
                 files w !! path = None ∧
                 content <$> files w' !! path = Some (Some doc)
       | _, _ => ∃ e w', Version1.build_kubeconfig api token ns skip ca w = (Raise e, w')
       end.
Proof.
  cbv zeta. repeat split.
  - destruct skip; [reflexivity|]. destruct ca as [[|c pem]|]; reflexivity.
  - destruct skip; [reflexivity|]. destruct ca as [[|c pem]|]; reflexivity.
  - destruct skip; [reflexivity|]. destruct ca as [[|c pem]|]; reflexivity.
  - intros w. rewrite build_kubeconfig_eq.
    destruct (Version1.mkstemp_pick _ _ _ _ _) as [[path rest]|] eqn:E; [|eauto].
    destruct (write_error (host w)); [eauto|].
    eexists. split; [reflexivity|]. split; [apply (mkstemp_pick_fresh _ _ _ _ _ _ _ E)|].
    unfold built. cbn [files set_files set_names].
    rewrite lookup_alter_eq, lookup_insert_eq. reflexivity.
Qed.

(** With [skip_tls] set and a CA given, on a machine with a free name. *)
Example build_kubeconfig_ex :
  let w := machine (fun _ => succeeds) None empty_session in
  let '(o, w') := Version1.build_kubeconfig "https://k8s.example" "tok" "default" true
                    (Some "-----BEGIN CERTIFICATE-----") w in
  o = Ret "/tmp/kubeconf_k3x9q2ab.yaml" ∧
  ∃ doc, content <$> files w' !! "/tmp/kubeconf_k3x9q2ab.yaml" = Some (Some doc) ∧
         get (Version1.cluster_path ++ [Key "insecure-skip-tls-verify"]) doc
           = Some (VBool true) ∧
         get (Version1.cluster_path ++ [Key "certificate-authority-data"]) doc = None.
Proof. vm_compute. split; [reflexivity|]. eexists. repeat split. Qed.

(** ** version 1: the probe before the apply *)

Lemma run_kubectl_apply_eq yaml kc ns w :
  Version1.run_kubectl_apply yaml kc ns w =
  let env := Some (<["KUBECONFIG" := kc]> (environ w)) in
  let b0 := oracle (host w) (length (procs w)) in
  let probe := entry probe_cmd env None None b0 in
  match b0 with
  | Exits _ rc out err =>
      if rc =? 0 then
        let w1 := push (probe (Exited rc)) w in
        if embedded_null (apply_cmd ns) then (Raise (ValueError "embedded null byte"), w1)
        else
          let b1 := oracle (host w) (S (length (procs w))) in
          match b1 with
          | Exits _ rc1 out1 err1 =>
              (Ret (rc1 =? 0, out1, err1),
               push (entry (apply_cmd ns) env (Some yaml) None b1 (Exited rc1)) w1)
          | Garbles _ rc1 reason =>
              (Raise (UnicodeDecodeError reason),
               push (entry (apply_cmd ns) env (Some yaml) None b1 (Exited rc1)) w1)
          | NeverExits =>
              (Hang, push (entry (apply_cmd ns) env (Some yaml) None b1 Running) w1)
          | CannotStart msg =>
              (Raise (OSError msg), push (entry (apply_cmd ns) env None None b1 NotStarted) w1)
          end
      else (Ret (false, out, str_or err "Connectivity check failed"),
            push (probe (Exited rc)) w)
  | Garbles _ rc reason => (Raise (UnicodeDecodeError reason), push (probe (Exited rc)) w)
  | NeverExits => (Hang, push (probe Running) w)
  | CannotStart msg => (Raise (OSError msg), push (probe NotStarted) w)
  end.
Proof.
  unfold Version1.run_kubectl_apply. rewrite bind_eq. unfold gets at 1. cbv beta iota zeta.
  rewrite bind_eq, subprocess_run_eq. fold probe_cmd.
  change (embedded_null probe_cmd) with false. cbv beta iota zeta.
  destruct (oracle (host w) (length (procs w))) as [secs rc out err|secs rc reason| |msg];
    cbn [within]; cbv beta iota; rewrite ?exited_inert by (try discriminate; reflexivity);
    [|reflexivity..].
  unfold completed. cbn [andb]. cbv beta iota. cbn [cp_returncode cp_stdout cp_stderr].
  rewrite nonzero_Some.
  destruct (rc =? 0) eqn:Erc; cbn [negb]; [|unfold ret; rewrite str_or_empty; reflexivity].
  rewrite bind_eq, subprocess_run_eq. fold (apply_cmd ns).
  destruct (embedded_null (apply_cmd ns)); [reflexivity|]. cbv zeta.
  rewrite procs_push, length_app. cbn [length host push set_procs].
  replace (length (procs w) + 1)%nat with (S (length (procs w))) by lia.
  destruct (oracle (host w) (S (length (procs w)))) as [secs1 rc1 out1 err1|secs1 rc1 reason1| |msg1];
    cbn [within]; cbv beta iota;
    rewrite ?(exited_inert (apply_cmd ns)) by (try discriminate; reflexivity);
    [|reflexivity..].
  unfold completed, ret. cbn [andb]. cbv beta iota. cbn [cp_returncode cp_stdout cp_stderr].
  unfold iszero. rewrite nonzero_Some, negb_involutive, !str_or_empty. reflexivity.
Qed.

(** Claim C6, amended.  [run_kubectl_apply] starts the probe
    [kubectl get ns] first.  When the probe exits with a non-zero status the
    call returns [False], the probe's stdout and, as the reason, the probe's
    stderr or the text "Connectivity check failed" when that stderr is empty;
    the probe is then the only process started.  It is also the only one
    when the probe cannot be started, never exits, or wrote output that
    cannot be decoded (the call then raises), and when the namespace holds a
    NUL, which [subprocess] refuses as an argument of the apply.  The apply
    is started only after a probe that exited with status 0. *)
Theorem probe_gates_apply yaml kc ns w :
  let env := Some (<["KUBECONFIG" := kc]> (environ w)) in
  let '(o, w') := Version1.run_kubectl_apply yaml kc ns w in
  match oracle (host w) (length (procs w)) with
  | Exits _ rc out err =>
      if rc =? 0 then
        if embedded_null (apply_cmd ns) then
          o = Raise (ValueError "embedded null byte") ∧
          ∃ probe, procs w' = procs w ++ [probe] ∧ p_argv probe = probe_cmd ∧
                   p_env probe = env ∧ p_status probe = Exited rc
        else
          ∃ probe apply, procs w' = procs w ++ [probe; apply] ∧
            p_argv probe = probe_cmd ∧ p_env probe = env ∧
            p_argv apply = apply_cmd ns ∧ p_env apply = env
      else
        o = Ret (false, out, str_or err "Connectivity check failed") ∧
        ∃ probe, procs w' = procs w ++ [probe] ∧ p_argv probe = probe_cmd ∧
                 p_env probe = env ∧ p_status probe = Exited rc
  | Garbles _ rc reason =>
      o = Raise (UnicodeDecodeError reason) ∧
      ∃ probe, procs w' = procs w ++ [probe] ∧ p_argv probe = probe_cmd ∧
               p_env probe = env ∧ p_status probe = Exited rc
  | NeverExits =>
      o = Hang ∧
      ∃ probe, procs w' = procs w ++ [probe] ∧ p_argv probe = probe_cmd ∧ p_env probe = env
  | CannotStart msg =>
      o = Raise (OSError msg) ∧
      ∃ probe, procs w' = procs w ++ [probe] ∧ p_argv probe = probe_cmd ∧ p_env probe = env
  end.
Proof.
  cbv zeta. rewrite run_kubectl_apply_eq. cbv zeta.
  destruct (oracle (host w) (length (procs w))) as [secs rc out err|secs rc reason| |msg].
  - destruct (rc =? 0).
    + destruct (embedded_null (apply_cmd ns)).
      * split; [reflexivity|]. eexists. repeat split.
      * destruct (oracle (host w) (S (length (procs w))))
          as [secs1 rc1 out1 err1|secs1 rc1 reason1| |msg1];
          eexists _, _; cbn [procs push set_procs]; rewrite <- app_assoc;
          repeat split.
    + split; [reflexivity|]. eexists. repeat split.
  - split; [reflexivity|]. eexists. repeat split.
  - split; [reflexivity|]. eexists. repeat split.
  - split; [reflexivity|]. eexists. repeat split.
Qed.

(** Claim C6 says that the failure reason is the probe's stderr.  A probe
    that exits with status 1 and an empty stderr yields a reason that is not
    its stderr. *)
Lemma silent_probe_failure_gets_stock_text :
  let w := machine (fun _ => Exits 1 1 "" "") None empty_session in
  ∃ reason,
    (Version1.run_kubectl_apply "kind: Pod" "/tmp/kc.yaml" "default" w).1
      = Ret (false, "", reason) ∧
    reason ≠ "".
Proof. exists "Connectivity check failed". split; [vm_compute; reflexivity|discriminate]. Qed.

(** ** version 1: looking for kubectl *)

Lemma kubectl_path_eq w :
  Version1.kubectl_path w =
  let h := host w in
  let script := install_script h in
  let b := oracle h (length (procs w)) in
  let installed rc :=
    let w1 := exited [script] None None None b Running rc w in
    if rc =? 0 then
      if Version1.found (on_path w1) then (Ret (default "" (on_path w1)), w1)
      else if Version1.is_executable "/tmp/kubectl" w1 then (Ret "/tmp/kubectl", w1)
      else (Raise Version1.not_found, w1)
    else
      (Raise (RuntimeError ("Failed to install kubectl: "
                              +:+ str_exn h (CalledProcessError rc [script] "" ""))),
       w1) in
  if Version1.found (on_path w) then (Ret (default "" (on_path w)), w)
  else if Version1.is_executable script w then
    if embedded_null [script] then (Raise (ValueError "embedded null byte"), w) else
    match b with
    | Exits _ rc _ _ => installed rc
    | Garbles _ rc _ => installed rc
    | NeverExits => (Hang, push (entry [script] None None None b Running) w)
    | CannotStart msg =>
        (Raise (OSError msg), push (entry [script] None None None b NotStarted) w)
    end
  else (Raise Version1.not_found, w).
Proof.
  unfold Version1.kubectl_path, bind, gets, try_except. cbv beta iota zeta.
  destruct (Version1.found (on_path w)); [reflexivity|].
  destruct (Version1.is_executable _ w); [|reflexivity].
  rewrite subprocess_run_eq.
  destruct (embedded_null _); [reflexivity|]. cbv zeta.
  destruct (oracle (host w) (length (procs w))) as [secs rc out err|secs rc reason| |msg];
    cbn [within]; cbv beta iota; [| |reflexivity..];
    unfold completed; cbn [andb]; destruct (rc =? 0); cbn [negb]; cbv beta iota;
    unfold ret, raise; try reflexivity;
    (destruct (Version1.found _); [reflexivity|]);
    destruct (Version1.is_executable _ _); reflexivity.
Qed.

Lemma kubectl_path_frame w :
  host (Version1.kubectl_path w).2 = host w ∧
  ∀ q, q ≠ "/tmp/kubectl" → files (Version1.kubectl_path w).2 !! q = files w !! q.
Proof.
  rewrite kubectl_path_eq. cbv zeta.
  repeat match goal with
         | |- context [if ?c then _ else _] => destruct c
         | |- context [match ?c with Exits _ _ _ _ => _ | _ => _ end] => destruct c
         end;
    cbn [fst snd]; rewrite ?host_exited; split; try reflexivity;
    intros q Hq; rewrite ?files_exited by exact Hq; reflexivity.
Qed.

Lemma kubectl_path_procs w :
  ∃ new, procs (Version1.kubectl_path w).2 = procs w ++ new ∧
         Forall (fun e => p_argv e = [install_script (host w)] ∧ p_env e = None ∧
                          p_input e = None ∧ p_limit e = None) new.
Proof.
  rewrite kubectl_path_eq. cbv zeta.
  repeat match goal with
         | |- context [if ?c then _ else _] => destruct c
         | |- context [match ?c with Exits _ _ _ _ => _ | _ => _ end] => destruct c
         end;
    cbn [fst snd]; rewrite ?procs_exited;
    first [ exists []; rewrite app_nil_r; split; [reflexivity|apply List.Forall_nil]
          | eexists [_]; split; [reflexivity|];
            apply List.Forall_cons; [repeat split|apply List.Forall_nil] ].
Qed.

(** [kubectl_path] starts at most one process: the install script, in the
    server's own environment and without a timeout, and only when kubectl is
    not on the search path and the script is executable.  It never runs the
    script a second time. *)
Theorem kubectl_path_installs_at_most_once w :
  match started_by Version1.kubectl_path w with
  | [] => True
  | [e] =>
      p_argv e = [install_script (host w)] ∧ p_env e = None ∧ p_limit e = None ∧
      Version1.found (on_path w) = false ∧
      Version1.is_executable (install_script (host w)) w = true
  | _ => False
  end.
Proof.
  unfold started_by. rewrite kubectl_path_eq. cbv zeta.
  destruct (Version1.found (on_path w)) eqn:Ef.
  { cbn [snd]. rewrite drop_all. exact I. }
  destruct (Version1.is_executable _ w) eqn:Ex.
  2:{ cbn [snd]. rewrite drop_all. exact I. }
  destruct (embedded_null _).
  { cbn [snd]. rewrite drop_all. exact I. }
  repeat match goal with
         | |- context [if ?c then _ else _] => destruct c
         | |- context [match ?c with Exits _ _ _ _ => _ | _ => _ end] => destruct c
         end;
    cbn [snd]; rewrite ?procs_exited, ?procs_push, drop_app_length; repeat split.
Qed.

(** A path that [kubectl_path] returns is not empty, and it is where kubectl
    is when the call returns: on the search path, or the executable file
    /tmp/kubectl. *)
Theorem kubectl_path_result_is_found w p w' :
  Version1.kubectl_path w = (Ret p, w') →
  truthy p = true ∧
  (on_path w' = Some p ∨
   (p = "/tmp/kubectl" ∧ Version1.is_executable "/tmp/kubectl" w' = true)).
Proof.
  rewrite kubectl_path_eq. cbv zeta.
  assert (Hf : ∀ o, Version1.found o = true →
               truthy (default "" o) = true ∧ o = Some (default "" o)).
  { intros [q|] H; [|discriminate]. split; [exact H|reflexivity]. }
  destruct (Version1.found (on_path w)) eqn:Ef.
  { intros [= <- <-]. destruct (Hf _ Ef). auto. }
  destruct (Version1.is_executable _ w); [|discriminate].
  destruct (embedded_null _); [discriminate|].
  assert (Hinst : ∀ rc w1,
    (if rc =? 0 then
       if Version1.found (on_path w1) then (Ret (default "" (on_path w1)), w1)
       else if Version1.is_executable "/tmp/kubectl" w1 then (Ret "/tmp/kubectl", w1)
       else (Raise Version1.not_found, w1)
     else
       (Raise (RuntimeError ("Failed to install kubectl: "
                               +:+ str_exn (host w)
                                     (CalledProcessError rc [install_script (host w)] "" ""))),
        w1)) = (Ret p, w') →
    truthy p = true ∧
    (on_path w' = Some p ∨
     (p = "/tmp/kubectl" ∧ Version1.is_executable "/tmp/kubectl" w' = true))).
  { intros rc w1. destruct (rc =? 0); [|discriminate].
    destruct (Version1.found (on_path w1)) eqn:Ef2.
    { intros [= <- <-]. destruct (Hf _ Ef2). auto. }
    destruct (Version1.is_executable "/tmp/kubectl" w1) eqn:Ex; [|discriminate].
    intros [= <- <-]. split; [reflexivity|]. right. auto. }
  destruct (oracle (host w) (length (procs w))) as [secs rc out err|secs rc reason| |msg];
    [apply Hinst|apply Hinst|discriminate..].
Qed.

(** ** version 1: delete *)

Lemma run_kubectl_delete_eq kind name kc ns w :
  Version1.run_kubectl_delete kind name kc ns w =
  let env := Some (<["KUBECONFIG" := kc]> (environ w)) in
  let b := oracle (host w) (length (procs w)) in
  let e := entry (delete_cmd kind name ns) env None None b in
  if embedded_null (delete_cmd kind name ns)
  then (Raise (ValueError "embedded null byte"), w) else
  match b with
  | Exits _ rc out err => (Ret (rc =? 0, out, err), push (e (Exited rc)) w)
  | Garbles _ rc reason => (Raise (UnicodeDecodeError reason), push (e (Exited rc)) w)
  | NeverExits => (Hang, push (e Running) w)
  | CannotStart msg => (Raise (OSError msg), push (e NotStarted) w)
  end.
Proof.
  unfold Version1.run_kubectl_delete. rewrite bind_eq. unfold gets at 1. cbv beta iota zeta.
  rewrite bind_eq, subprocess_run_eq. fold (delete_cmd kind name ns).
  destruct (embedded_null _); [reflexivity|]. cbv zeta.
  destruct (oracle (host w) (length (procs w))) as [secs rc out err|secs rc reason| |msg];
    cbn [within]; cbv beta iota;
    rewrite ?(exited_inert (delete_cmd kind name ns)) by (try discriminate; reflexivity);
    [|reflexivity..].
  unfold completed, ret. cbn [andb]. cbv beta iota. cbn [cp_returncode cp_stdout cp_stderr].
  unfold iszero. rewrite nonzero_Some, negb_involutive, !str_or_empty. reflexivity.
Qed.

(** [run_kubectl_delete] starts one process, [kubectl delete kind name -n
    namespace], with KUBECONFIG set in a copy of the environment, no input,
    no timeout and no probe before it; it reports ok exactly for exit status
    0, raises when the output of kubectl cannot be decoded, never returns
    when kubectl never exits, and leaves [os.environ], the files and the
    shared kubeconfig alone.  A kind, name or namespace with a NUL in it is
    refused by [subprocess] before anything is started. *)
Theorem run_kubectl_delete_runs_once kind name kc ns w :
  let cmd := ["kubectl"; "delete"; kind; name; "-n"; ns] in
  let '(o, w') := Version1.run_kubectl_delete kind name kc ns w in
  (if embedded_null cmd then procs w' = procs w
   else ∃ e, procs w' = procs w ++ [e] ∧
             p_argv e = cmd ∧
             p_env e = Some (<["KUBECONFIG" := kc]> (environ w)) ∧
             p_input e = None ∧ p_limit e = None) ∧
  environ w' = environ w ∧ files w' = files w ∧ kubeconfig w' = kubeconfig w ∧
  o = if embedded_null cmd then Raise (ValueError "embedded null byte")
      else match oracle (host w) (length (procs w)) with
           | Exits _ rc out err => Ret (rc =? 0, out, err)
           | Garbles _ _ reason => Raise (UnicodeDecodeError reason)
           | NeverExits => Hang
           | CannotStart msg => Raise (OSError msg)
           end.
Proof.
  cbv zeta. rewrite run_kubectl_delete_eq. cbv zeta. unfold delete_cmd.
  destruct (embedded_null _); [repeat split|].
  destruct (oracle (host w) (length (procs w))) as [secs rc out err|secs rc reason| |msg];
    (split; [eexists; repeat split|repeat split]).
Qed.

(** ** version 1: the temporary kubeconfig is removed, but for one path *)

Lemma files_restore (m : gmap string file) path x f :
  m !! path = None → delete path (alter f path (<[path := x]> m)) = m.
Proof. intros H. rewrite delete_alter_eq. apply delete_insert_id. exact H. Qed.

Lemma cleanup_eq path w :
  truthy path = true → is_Some (files w !! path) →
  Version1.cleanup (Some path) w = (Ret tt, set_files (delete path) w).
Proof.
  intros Ht Hs. unfold Version1.cleanup, bind, gets. cbv beta iota.
  rewrite Ht, (bool_decide_eq_true_2 _ Hs). reflexivity.
Qed.

Lemma with_kubeconfig_restores_files {A} api token ns skip ca (body : string → M A) w :
  (∀ kc w0, files (body kc w0).2 = files w0) →
  write_error (host w) = None →
  (Version1.with_kubeconfig (Version1.build_kubeconfig api token ns skip ca) body w).1 ≠ Hang →
  files (Version1.with_kubeconfig (Version1.build_kubeconfig api token ns skip ca) body w).2
    = files w.
Proof.
  intros Hbody Hw. unfold Version1.with_kubeconfig. rewrite build_kubeconfig_eq, Hw.
  destruct (Version1.mkstemp_pick _ _ _ _ _) as [[path rest]|] eqn:Epick;
    [|intros _; reflexivity].
  apply mkstemp_pick_fresh in Epick as [Hfresh Htruthy].
  unfold try_finally.
  set (w2 := built path rest _ w).
  specialize (Hbody path w2).
  destruct (body path w2) as [o w3]. cbn [snd] in Hbody.
  assert (Hthere : is_Some (files w3 !! path)).
  { rewrite Hbody. unfold w2, built. cbn [files set_files set_names].
    rewrite lookup_alter_eq, lookup_insert_eq. eexists; reflexivity. }
  assert (Hback : delete path (files w3) = files w).
  { rewrite Hbody. unfold w2, built. cbn [files set_files set_names].
    apply files_restore, Hfresh. }
  destruct o; cbn [fst snd]; [| |intros H; contradiction].
  - rewrite cleanup_eq by assumption. intros _. exact Hback.
  - rewrite cleanup_eq by assumption. intros _. exact Hback.
Qed.

Lemma run_kubectl_apply_files yaml kc ns w :
  files (Version1.run_kubectl_apply yaml kc ns w).2 = files w.
Proof.
  rewrite run_kubectl_apply_eq. cbv zeta.
  repeat match goal with |- context [match ?x with _ => _ end] => destruct x end;
    reflexivity.
Qed.

Lemma run_kubectl_delete_files kind name kc ns w :
  files (Version1.run_kubectl_delete kind name kc ns w).2 = files w.
Proof.
  rewrite run_kubectl_delete_eq. cbv zeta.
  repeat match goal with |- context [match ?x with _ => _ end] => destruct x end;
    reflexivity.
Qed.

(** The step shared by the four handlers: look for kubectl, report its
    absence as a result page, else run [guarded]. *)
Lemma kubectl_guard_files {A} (page : exn → host_t → A) (guarded : M A) w :
  (∀ w0, write_error (host w0) = None → (guarded w0).1 ≠ Hang →
         files (guarded w0).2 = files w0) →
  write_error (host w) = None →
  let m :=
    missing <~ try_except (Version1.kubectl_path ;;; ret None)
                 (fun e => Some (h <~ gets host ;; ret (Some (page e h)))) ;;
    match missing with
    | Some p => ret p
    | None => guarded
    end in
  (m w).1 ≠ Hang →
  ∀ q, q ≠ "/tmp/kubectl" → files (m w).2 !! q = files w !! q.
Proof.
  intros Hg Hw. cbv zeta. rewrite bind_eq. unfold try_except. rewrite bind_eq.
  destruct (kubectl_path_frame w) as [Hh Hf].
  destruct (Version1.kubectl_path w) as [[p|e|] w1]; cbn [fst snd] in *.
  - unfold ret. cbv beta iota. intros Ho q Hq.
    rewrite Hg; [apply Hf, Hq|rewrite Hh; exact Hw|exact Ho].
  - rewrite bind_eq. unfold gets, ret. cbv beta iota. cbn [fst snd]. intros _. exact Hf.
  - cbn [fst]. intros H; contradiction.
Qed.

Lemma apply_and_render_files r api token yaml kind name w :
  write_error (host w) = None →
  (Version1.apply_and_render r api token yaml kind name w).1 ≠ Hang →
  ∀ q, q ≠ "/tmp/kubectl" →
    files (Version1.apply_and_render r api token yaml kind name w).2 !! q = files w !! q.
Proof.
  intros Hw. unfold Version1.apply_and_render.
  apply (kubectl_guard_files
           (fun e h => Version1.ResultPage yaml false "" (str_exn h e) kind name));
    [|exact Hw].
  intros w0 Hw0 Ho.
  apply with_kubeconfig_restores_files; [|exact Hw0|exact Ho].
  intros kc w1. rewrite bind_eq.
  pose proof (run_kubectl_apply_files yaml kc (Version1.namespace_of r) w1) as H.
  destruct (Version1.run_kubectl_apply _ _ _ w1) as [[[[ok out] err]|e|] w2]; exact H.
Qed.

(** When the kubeconfig can be written, every way out of [deploy] (a result
    page, a 400, an exception of kubectl) leaves the files as they were, but
    for a /tmp/kubectl that the install script may have put there: the
    temporary kubeconfig is gone. *)
Lemma deploy_removes_kubeconfig r w :
  write_error (host w) = None →
  (Version1.deploy r w).1 ≠ Hang →
  ∀ q, q ≠ "/tmp/kubectl" → files (Version1.deploy r w).2 !! q = files w !! q.
Proof.
  intros Hw. unfold Version1.deploy.
  destruct (negb _); [intros _ q _; reflexivity|].
  apply apply_and_render_files, Hw.
Qed.

(** Claim C1 (the temporary kubeconfig is removed on every way out of the
    handler, exceptions included) fails on one path.  On a machine whose disk
    is full, [mkstemp] creates the file, writing it raises, and
    [build_kubeconfig] never returns the path: [kc_path] is still [None] in
    the [finally] clause of [deploy], nothing is removed, and the file is
    there when the exception leaves the handler. *)
Theorem deploy_leaks_kubeconfig_when_write_fails :
  let w := machine (fun _ => succeeds) disk_full empty_session in
  let '(o, w') := Version1.deploy (deploy_form "2") w in
  o = Raise (OSError "[Errno 28] No space left on device") ∧
  files w !! "/tmp/kubeconf_k3x9q2ab.yaml" = None ∧
  files w' !! "/tmp/kubeconf_k3x9q2ab.yaml" = Some {| content := None; executable := false |}.
Proof. vm_compute. repeat split. Qed.

(** ** version 1: the forms are checked before anything is done *)

Lemma lstrip_blank s : blank s = true → lstrip s = "".
Proof.
  induction s as [|c s IH]; [reflexivity|]. cbn [blank lstrip].
  destruct (isspace c); [exact IH|discriminate].
Qed.

Lemma lstrip_not_blank s : blank s = false → truthy (lstrip s) = true.
Proof.
  induction s as [|c s IH]; [discriminate|]. cbn [blank lstrip].
  destruct (isspace c); [exact IH|reflexivity].
Qed.

Lemma truthy_rstrip s c : isspace c = false → truthy (rstrip (String c s)) = true.
Proof. intros H. cbn [rstrip]. destruct (rstrip s); [rewrite H|]; reflexivity. Qed.

Lemma truthy_strip s : truthy (strip s) = negb (blank s).
Proof.
  unfold strip. destruct (blank s) eqn:E.
  - rewrite lstrip_blank by exact E. reflexivity.
  - destruct (lstrip_head s) as [H|(c & t & H & Hc)].
    + apply lstrip_not_blank in E. rewrite H in E. discriminate.
    + rewrite H. apply truthy_rstrip, Hc.
Qed.

Lemma with_kubeconfig_page (build : M string) (body : string → M Version1.response) w :
  (∀ kc w0, is_page (body kc w0).1) →
  is_page (Version1.with_kubeconfig build body w).1.
Proof.
  intros Hb. unfold Version1.with_kubeconfig, try_finally.
  destruct (build w) as [[kc|e|] w1]; [| |exact I].
  - specialize (Hb kc w1). destruct (body kc w1) as [[a|e|] w2]; [| |exact I];
      destruct (Version1.cleanup _ w2) as [[[]|e'|] w3]; first [exact Hb|exact I].
  - unfold raise. destruct (Version1.cleanup _ w1) as [[[]|e'|] w3]; exact I.
Qed.

Lemma report_page (m : M (bool * string * string))
    (f : bool → string → string → Version1.response) w :
  (∀ ok out err, is_page (Ret (f ok out err))) →
  is_page ((res <~ m ;; let '(ok, out, err) := res in ret (f ok out err)) w).1.
Proof.
  intros Hf. rewrite bind_eq. destruct (m w) as [[[[ok out] err]|e|] w1];
    [apply Hf|exact I..].
Qed.

Lemma kubectl_guard_page (page : exn → host_t → Version1.response)
    (guarded : M Version1.response) w :
  (∀ e h, is_page (Ret (page e h))) → (∀ w0, is_page (guarded w0).1) →
  is_page ((missing <~ try_except (Version1.kubectl_path ;;; ret None)
                         (fun e => Some (h <~ gets host ;; ret (Some (page e h)))) ;;
            match missing with
            | Some p => ret p
            | None => guarded
            end) w).1.
Proof.
  intros Hp Hg. rewrite bind_eq. unfold try_except. rewrite bind_eq.
  destruct (Version1.kubectl_path w) as [[p|e|] w1]; unfold ret, gets, bind;
    cbv beta iota; [apply Hg|apply Hp|exact I].
Qed.

Lemma apply_and_render_page r api token yaml kind name w :
  is_page (Version1.apply_and_render r api token yaml kind name w).1.
Proof.
  unfold Version1.apply_and_render.
  apply (kubectl_guard_page (fun e h => Version1.ResultPage yaml false "" (str_exn h e) kind name)).
  - intros; exact I.
  - intros w0.
    apply with_kubeconfig_page. intros kc w1.
    apply (report_page _ (fun ok out err => Version1.ResultPage yaml ok out err kind name)).
    intros; exact I.
Qed.

(** [deploy], [service], [custom] and [delete] answer a form that lacks one of
    its required fields, or has only whitespace in it, with status 400 and
    the text naming the fields, and do nothing else; a form that has them
    all is never answered with that text. *)
Theorem blank_fields_are_refused h keys msg r w :
  In (h, keys, msg) forms →
  if lacks r keys then h r w = (Ret (Version1.Text msg 400), w)
  else is_page (h r w).1.
Proof.
  unfold forms, lacks.
  intros [[= <- <- <-]|[[= <- <- <-]|[[= <- <- <-]|[[= <- <- <-]|[]]]]];
    cbn [existsb];
    [unfold Version1.deploy|unfold Version1.service|unfold Version1.custom
    |unfold Version1.delete];
    cbv zeta; rewrite !truthy_strip, !orb_false_r.
  - destruct (blank (form_get r "api" "")), (blank (form_get r "token" "")),
      (blank (form_get r "name" "")), (blank (form_get r "image" ""));
      cbn [negb andb orb]; try reflexivity; apply apply_and_render_page.
  - destruct (blank (form_get r "api" "")), (blank (form_get r "token" "")),
      (blank (form_get r "name" ""));
      cbn [negb andb orb]; try reflexivity; apply apply_and_render_page.
  - destruct (blank (form_get r "api" "")), (blank (form_get r "token" "")),
      (blank (form_get r "yaml" ""));
      cbn [negb andb orb]; try reflexivity; apply apply_and_render_page.
  - destruct (blank (form_get r "api" "")), (blank (form_get r "token" "")),
      (blank (form_get r "kind" "")), (blank (form_get r "name" ""));
      cbn [negb andb orb]; try reflexivity.
    apply (kubectl_guard_page
             (fun e h => Version1.ResultPage "" false "" (str_exn h e)
                           (strip (form_get r "kind" "")) (strip (form_get r "name" "")))).
    + intros; exact I.
    + intros w0.
      apply with_kubeconfig_page. intros kc w1.
      apply (report_page _ (fun ok out err => Version1.ResultPage _ ok out err _ _)).
      intros; exact I.
Qed.

(** When [kubectl_path] raises, each of the four handlers answers a complete
    form with the result page, [ok] false and the text of the exception as
    stderr, and stops there: the world is the one [kubectl_path] left, so no
    kubeconfig is written and no kubectl is started. *)
Theorem missing_kubectl_is_reported h keys msg r w e w1 :
  In (h, keys, msg) forms →
  lacks r keys = false →
  Version1.kubectl_path w = (Raise e, w1) →
  ∃ yaml kind name,
    h r w = (Ret (Version1.ResultPage yaml false "" (str_exn (host w) e) kind name), w1).
Proof.
  intros Hin Hl Hk.
  assert (Hh : host w1 = host w).
  { pose proof (proj1 (kubectl_path_frame w)) as H. rewrite Hk in H. exact H. }
  assert (Happly : ∀ api token yaml kind name,
            Version1.apply_and_render r api token yaml kind name w
            = (Ret (Version1.ResultPage yaml false "" (str_exn (host w) e) kind name), w1)).
  { intros. unfold Version1.apply_and_render. rewrite bind_eq. unfold try_except.
    rewrite bind_eq, Hk. rewrite bind_eq. unfold gets, ret. cbv beta iota.
    rewrite Hh. reflexivity. }
  revert Hin Hl. unfold forms, lacks.
  intros [[= <- <- <-]|[[= <- <- <-]|[[= <- <- <-]|[[= <- <- <-]|[]]]]];
    cbn [existsb]; rewrite !orb_false_r; intros Hl;
    [unfold Version1.deploy|unfold Version1.service|unfold Version1.custom
    |unfold Version1.delete];
    cbv zeta; rewrite !truthy_strip.
  - repeat match goal with H : _ || _ = false |- _ => apply orb_false_elim in H as [? ?] end.
    repeat match goal with H : blank _ = false |- _ => rewrite H; clear H end.
    cbn [negb andb]. eexists _, _, _. apply Happly.
  - repeat match goal with H : _ || _ = false |- _ => apply orb_false_elim in H as [? ?] end.
    repeat match goal with H : blank _ = false |- _ => rewrite H; clear H end.
    cbn [negb andb]. eexists _, _, _. apply Happly.
  - repeat match goal with H : _ || _ = false |- _ => apply orb_false_elim in H as [? ?] end.
    repeat match goal with H : blank _ = false |- _ => rewrite H; clear H end.
    cbn [negb andb]. eexists _, _, _. apply Happly.
  - repeat match goal with H : _ || _ = false |- _ => apply orb_false_elim in H as [? ?] end.
    repeat match goal with H : blank _ = false |- _ => rewrite H; clear H end.
    cbn [negb andb]. eexists _, _, _.
    rewrite bind_eq. unfold try_except.
    rewrite bind_eq, Hk. rewrite bind_eq. unfold gets, ret. cbv beta iota.
    rewrite Hh. reflexivity.
Qed.

(** ** version 1: every handler removes its kubeconfig *)

(** When writing the kubeconfig does not fail, each of the four handlers that
    returns or raises leaves every file but /tmp/kubectl (which the install
    script may create) as it found it: the temporary kubeconfig is gone. *)
Theorem handlers_remove_kubeconfig (h : request → M Version1.response) r w :
  In h [Version1.deploy; Version1.service; Version1.custom; Version1.delete] →
  write_error (host w) = None →
  (h r w).1 ≠ Hang →
  ∀ q, q ≠ "/tmp/kubectl" → files (h r w).2 !! q = files w !! q.
Proof.
  intros Hin Hw.
  assert (Happly : ∀ api token yaml kind name,
            (Version1.apply_and_render r api token yaml kind name w).1 ≠ Hang →
            ∀ q, q ≠ "/tmp/kubectl" →
              files (Version1.apply_and_render r api token yaml kind name w).2 !! q
                = files w !! q).
  { intros. apply apply_and_render_files; assumption. }
  destruct Hin as [<-|[<-|[<-|[<-|[]]]]].
  - unfold Version1.deploy. destruct (negb _); [intros _ q _; reflexivity|]. apply Happly.
  - unfold Version1.service. destruct (negb _); [intros _ q _; reflexivity|]. apply Happly.
  - unfold Version1.custom. destruct (negb _); [intros _ q _; reflexivity|]. apply Happly.
  - unfold Version1.delete. destruct (negb _); [intros _ q _; reflexivity|].
    apply (kubectl_guard_files
             (fun e h => Version1.ResultPage "" false "" (str_exn h e)
                           (strip (form_get r "kind" "")) (strip (form_get r "name" ""))));
      [|exact Hw].
    intros w0 Hw0 Ho.
    apply with_kubeconfig_restores_files; [|exact Hw0|exact Ho].
    intros kc w1. rewrite bind_eq.
    pose proof (run_kubectl_delete_files (strip (form_get r "kind" ""))
                  (strip (form_get r "name" "")) kc (Version1.namespace_of r) w1) as H.
    destruct (Version1.run_kubectl_delete _ _ _ _ w1) as [[[[ok out] err]|e|] w2];
      exact H.
Qed.


(** [build_kubeconfig] never touches a file that exists: such a file is
    unchanged afterwards, whether the call returns or raises, and its path is
    never the one returned. *)
Theorem build_kubeconfig_spares_existing_files api token ns skip ca w q :
  is_Some (files w !! q) →
  files (Version1.build_kubeconfig api token ns skip ca w).2 !! q = files w !! q ∧
  (Version1.build_kubeconfig api token ns skip ca w).1 ≠ Ret q.
Proof.
  intros Hq. rewrite build_kubeconfig_eq.
  destruct (Version1.mkstemp_pick _ _ _ _ _) as [[path rest]|] eqn:E;
    [|split; [reflexivity|discriminate]].
  apply mkstemp_pick_fresh in E as [Hfresh _].
  assert (Hne : path ≠ q).
  { intros ->. rewrite Hfresh in Hq. destruct Hq; discriminate. }
  destruct (write_error (host w)); cbn [fst snd]; unfold built;
    cbn [files set_files set_names].
  - rewrite lookup_insert_ne by exact Hne. split; [reflexivity|discriminate].
  - rewrite lookup_alter_ne, lookup_insert_ne by exact Hne.
    split; [reflexivity|]. intros [= ->]. contradiction.
Qed.

(** The kubeconfig that [build_kubeconfig] writes refers to itself: the
    current context is the one context, which names the one cluster and the
    one user; the user carries the token and the context the namespace,
    whatever the TLS options. *)
Theorem kubeconfig_dict_is_consistent api token ns skip ca :
  let doc := Version1.kubeconfig_dict api token ns skip ca in
  get [Key "contexts"; Idx 0; Key "name"] doc = get [Key "current-context"] doc ∧
  get [Key "contexts"; Idx 0; Key "context"; Key "cluster"] doc
    = get [Key "clusters"; Idx 0; Key "name"] doc ∧
  get [Key "contexts"; Idx 0; Key "context"; Key "user"] doc
    = get [Key "users"; Idx 0; Key "name"] doc ∧
  get [Key "users"; Idx 0; Key "user"; Key "token"] doc = Some (VStr token) ∧
  get [Key "contexts"; Idx 0; Key "context"; Key "namespace"] doc = Some (VStr ns) ∧
  get [Key "current-context"] doc = Some (VStr "portal-context").
Proof.
  cbv zeta. destruct skip; [repeat split|]. destruct ca as [[|c pem]|]; repeat split.
Qed.

(** ** version 1: what the children are given *)

Lemma cleanup_procs kc w : procs (Version1.cleanup kc w).2 = procs w.
Proof.
  unfold Version1.cleanup. destruct kc as [path|]; [|reflexivity].
  unfold bind, gets. cbv beta iota. destruct (_ && _); reflexivity.
Qed.

Lemma try_finally_cleanup_procs {A} (m : M A) kc w :
  procs (try_finally m (Version1.cleanup kc) w).2 = procs (m w).2.
Proof.
  unfold try_finally. destruct (m w) as [[a|e|] w1]; cbn [snd]; [| |reflexivity].
  - pose proof (cleanup_procs kc w1) as H.
    destruct (Version1.cleanup kc w1) as [[[]|e'|] w2]; exact H.
  - pose proof (cleanup_procs kc w1) as H.
    destruct (Version1.cleanup kc w1) as [[[]|e'|] w2]; exact H.
Qed.

Ltac all_entries :=
  repeat (apply List.Forall_cons;
          [first [reflexivity | left; reflexivity | right; reflexivity]|]);
  apply List.Forall_nil.

Lemma run_kubectl_apply_procs yaml kc ns w :
  ∃ new, procs (Version1.run_kubectl_apply yaml kc ns w).2 = procs w ++ new ∧
         Forall (fed yaml) new ∧
         Forall (fun e => p_env e = Some (<["KUBECONFIG" := kc]> (environ w))) new ∧
         Forall (fun e => p_argv e = probe_cmd ∨ p_argv e = apply_cmd ns) new.
Proof.
  rewrite run_kubectl_apply_eq. cbv zeta.
  repeat match goal with
         | |- context [if ?c then _ else _] => destruct c
         | |- context [match ?c with Exits _ _ _ _ => _ | _ => _ end] => destruct c
         end;
    cbn [snd procs push set_procs]; rewrite <- ?app_assoc;
    first [eexists [_; _]; split; [reflexivity|]
          |eexists [_]; split; [reflexivity|]];
    (split; [|split]); all_entries.
Qed.

Lemma apply_and_render_procs r api token yaml kind name w :
  ∃ new, procs (Version1.apply_and_render r api token yaml kind name w).2 = procs w ++ new ∧
         Forall (fed yaml) new.
Proof.
  unfold Version1.apply_and_render. rewrite bind_eq. unfold try_except.
  rewrite bind_eq.
  destruct (kubectl_path_procs w) as (new1 & H1 & F1).
  assert (F1' : Forall (fed yaml) new1).
  { eapply Forall_impl; [exact F1|]. intros e (_ & _ & He & _). left. exact He. }
  destruct (Version1.kubectl_path w) as [[p|e|] w1]; cbn [snd] in H1.
  - unfold ret at 1. cbv beta iota.
    unfold Version1.with_kubeconfig.
    pose proof (build_kubeconfig_procs api token (Version1.namespace_of r)
                  (Version1.skip_tls_of r) (Version1.ca_cert_of r) w1) as Hb.
    destruct (Version1.build_kubeconfig _ _ _ _ _ w1) as [[kc|e|] w2]; cbn [snd] in Hb.
    + rewrite try_finally_cleanup_procs, bind_eq.
      destruct (run_kubectl_apply_procs yaml kc (Version1.namespace_of r) w2)
        as (new2 & H2 & F2 & _ & _).
      destruct (Version1.run_kubectl_apply _ _ _ w2) as [[[[ok out] err]|e|] w3];
        cbn [snd] in *; cbv beta iota; unfold ret; cbn [snd]; exists (new1 ++ new2);
        (split; [rewrite H2, Hb, H1, app_assoc; reflexivity|apply Forall_app; split; assumption]).
    + rewrite try_finally_cleanup_procs. cbn [snd raise]. exists new1. rewrite Hb. split; assumption.
    + cbn [snd]. exists new1. rewrite Hb. split; assumption.
  - unfold gets, ret, bind. cbn [snd]. exists new1. split; assumption.
  - cbn [snd]. exists new1. split; assumption.
Qed.

(** The handlers of version 1 that apply a manifest, on a machine with
    kubectl on the search path, a free temporary name and a probe that
    succeeds: the probe and the apply are the two children, and the apply is
    given the manifest. *)
Lemma apply_and_render_applies r api token yaml kind name w path rest secs out err :
  Version1.found (on_path w) = true →
  write_error (host w) = None →
  Version1.mkstemp_pick (names w) (tempdir (host w)) "kubeconf_" ".yaml" (files w)
    = Some (path, rest) →
  oracle (host w) (length (procs w)) = Exits secs 0 out err →
  embedded_null (apply_cmd (Version1.namespace_of r)) = false →
  let env := Some (<["KUBECONFIG" := path]> (environ w)) in
  ∃ probe apply,
    procs (Version1.apply_and_render r api token yaml kind name w).2
      = procs w ++ [probe; apply] ∧
    p_argv probe = probe_cmd ∧ p_env probe = env ∧ p_input probe = None ∧
    p_argv apply = apply_cmd (Version1.namespace_of r) ∧ p_env apply = env ∧
    (p_status apply ≠ NotStarted → p_input apply = Some yaml).
Proof.
  intros Hf Hw Hpick Ho Hnul. cbv zeta.
  unfold Version1.apply_and_render. rewrite bind_eq. unfold try_except.
  rewrite bind_eq, kubectl_path_eq. cbv zeta. rewrite Hf. unfold ret at 1. cbv beta iota.
  unfold Version1.with_kubeconfig. rewrite build_kubeconfig_eq, Hpick, Hw.
  rewrite try_finally_cleanup_procs, bind_eq, run_kubectl_apply_eq. cbv zeta.
  change (host (built _ _ _ w)) with (host w).
  change (procs (built _ _ _ w)) with (procs w).
  change (environ (built _ _ _ w)) with (environ w).
  rewrite Ho, Hnul. cbn [Z.eqb]. cbv beta iota.
  destruct (oracle (host w) (S (length (procs w)))) as [s1 rc1 o1 e1|s1 rc1 reason| |msg];
    unfold ret; cbn [snd procs push set_procs built set_files set_names];
    rewrite <- app_assoc; eexists _, _; (split; [reflexivity|]); repeat split;
    intros H; contradiction.
Qed.

(** ** The custom command gate *)

(** Claim C2.  A custom command whose first token is not [kubectl] starts no
    process, in version 2 and in version 4, whatever the session.  With a
    connected session and a command that is not blank, version 2 answers with
    the flash message "Only kubectl commands are allowed", and so does
    version 4 for a logged-in user.  Read backwards: a process is started
    only for a command whose first token is [kubectl]. *)
Theorem untrusted_command_rejected (r : request) (w : world) :
  head (split (form_get r "custom_command" "")) ≠ Some "kubectl" →
  let w2 := (Version2.execute_custom r w).2 in
  let w4 := (Version4.execute_custom r w).2 in
  (procs w2 = procs w ∧ procs w4 = procs w) ∧
  (default false (cluster_connected (session (web_state w))) = true →
   split (form_get r "custom_command" "") ≠ [] →
   Version2.execute_custom r w = (Ret (url_for "index"), set_web (add_flash rejected.1 rejected.2) w) ∧
   (is_Some (current_user r) →
    Version4.execute_custom r w = (Ret (url_for "index"), set_web (add_flash rejected.1 rejected.2) w))).
Proof.
  intros Htok. cbv zeta.
  assert (Hno : startswith (strip (form_get r "custom_command" "")) "kubectl " = false).
  { destruct (startswith _ _) eqn:E; [|reflexivity].
    apply startswith_kubectl in E. rewrite first_token_strip in E. contradiction. }
  unfold Version2.execute_custom, Version4.execute_custom, Version4.login_required,
    bind, session_connected, gets, flash, modify, ret.
  cbv beta iota. rewrite Hno. cbn [negb].
  split.
  - split.
    + destruct (default false _); cbn [negb]; [|reflexivity].
      destruct (truthy _); reflexivity.
    + destruct (current_user r); [|reflexivity].
      destruct (default false _); cbn [negb]; [|reflexivity].
      destruct (truthy _); reflexivity.
  - intros Hc Hs. rewrite Hc. cbn [negb]. rewrite (split_nonempty_strip _ Hs). cbn [negb].
    split; [reflexivity|]. intros [u ->]. cbv beta iota. rewrite Hc. reflexivity.
Qed.

(** ** Rendering and applying a Deployment *)

Lemma py_int_eq s w :
  py_int s w =
  match Py.int (int_max_str_digits (host w)) s with
  | inl z => (Ret z, w)
  | inr msg => (Raise (ValueError msg), w)
  end.
Proof. unfold py_int, bind, gets. destruct (Py.int _ s); reflexivity. Qed.

Lemma generate_deployment_manifest_eq name image replicas port ns w :
  Version2.generate_deployment_manifest name image replicas port ns w =
  match Py.int (int_max_str_digits (host w)) replicas,
        Py.int (int_max_str_digits (host w)) port with
  | inl n, inl p =>
      (Ret (VDict [
         ("apiVersion", VStr "apps/v1");
         ("kind", VStr "Deployment");
         ("metadata", VDict [("name", VStr name); ("namespace", VStr ns)]);
         ("spec", VDict [
            ("replicas", VInt n);
            ("selector", VDict [("matchLabels", VDict [("app", VStr name)])]);
            ("template", VDict [
               ("metadata", VDict [("labels", VDict [("app", VStr name)])]);
               ("spec", VDict [
                  ("containers", VList [
                     VDict [("name", VStr name);
                            ("image", VStr image);
                            ("ports", VList [VDict [("containerPort", VInt p)]])]])])])])]), w)
  | inl _, inr msg => (Raise (ValueError msg), w)
  | inr msg, _ => (Raise (ValueError msg), w)
  end.
Proof.
  unfold Version2.generate_deployment_manifest. rewrite bind_eq, py_int_eq.
  destruct (Py.int _ replicas); [|reflexivity]. rewrite bind_eq, py_int_eq.
  destruct (Py.int _ port); reflexivity.
Qed.


Ltac report_in E Hu :=
  unfold bind, session_cluster_name, Version4.log_audit_action, flash, set_last_output,
    modify, gets, ret in E;
  rewrite ?Hu in E; cbv beta iota in E.

(** One kubectl, given the manifest [doc]. *)
Ltac applied doc :=
  exists doc; eexists; repeat split; try contradiction; try congruence.

(** [create_deployment] of version 2, and of version 4 for a logged-in user,
    with a connected session and a name and an image: what is applied, by
    what [int] makes of the replicas and the port. *)
Lemma create_deployment_replicas h (r : request) (w : world) :
  h = Version2.create_deployment
  ∨ h = Version4.create_deployment ∧ is_Some (current_user r) →
  connected w →
  truthy (strip (form_get r "deployment_name" "")) = true →
  truthy (strip (form_get r "deployment_image" "")) = true →
  renders_replicas h r w.
Proof.
  intros Hh Hc Hn Hi. unfold renders_replicas, connected in *. cbv zeta.
  destruct (h r w) as [o w'] eqn:E. cbn [snd].
  assert (Hu : ∃ u, h = Version2.create_deployment ∨ current_user r = Some u ∧
                    h = Version4.create_deployment).
  { destruct Hh as [->|[-> [u Hu]]]; [exists alice; auto|exists u; auto]. }
  destruct Hu as [u [->|[Hu ->]]];
    [unfold Version2.create_deployment in E
    |unfold Version4.create_deployment, Version4.login_required in E; rewrite Hu in E;
     unfold Version4.generate_deployment_manifest in E].
  all: rewrite bind_eq in E; unfold session_connected at 1 in E; unfold gets at 1 in E;
    cbv beta iota in E; rewrite Hc, Hn, Hi in E; cbn [negb andb] in E;
    rewrite bind_eq in E; unfold try_except in E; rewrite bind_eq in E;
    rewrite generate_deployment_manifest_eq in *.
  all: destruct (Py.int _ (form_get r "deployment_replicas" "1")) as [n|msg];
    [|report_in E Hu; injection E as <- <-; split; [reflexivity|apply last_snoc]].
  all: destruct (Py.int _ (form_get r "deployment_port" "80")) as [p|msg];
    [|report_in E Hu; injection E as <- <-; split; [reflexivity|apply last_snoc]].
  all: match type of E with context [json_dumps ?m] => set (doc := m) in * end;
    cbv beta iota zeta in E; rewrite bind_eq, Popen_eq in E; fold manifest_cmd in E;
    change (embedded_null manifest_cmd) with false in E; cbv beta iota zeta in E.
  all: destruct (oracle (host w) (length (procs w))) as [secs rc out err|secs rc reason| |msg];
    cbv beta iota in E.
  (* kubectl cannot be started *)
  4,8: report_in E Hu; injection E as <- <-; applied doc.
  (* kubectl never exits *)
  3,6: rewrite bind_eq, communicate_eq in E; cbv beta iota zeta in E;
    injection E as <- <-; applied doc.
  (* kubectl exits, with output that is text or not *)
  all: rewrite bind_eq, communicate_eq in E; cbn [within] in E; cbv beta iota zeta in E;
    rewrite exited_inert in E by (try discriminate; reflexivity).
  2,4: report_in E Hu; injection E as <- <-; applied doc.
  all: rewrite bind_eq, returncode_eq in E; cbv beta iota in E;
    rewrite procs_push, lookup_snoc in E;
    cbn [fmap option_fmap option_map p_status entry] in E;
    destruct (iszero (Some rc)); report_in E Hu; injection E as <- <-; applied doc.
Qed.

(** Claim C4, amended.  In version 2 and 4 the replica count is parsed by
    [int]: when the count and the port parse, one kubectl is started and the
    manifest it is given has the parsed integer, negative or not, as
    [spec.replicas]; when [int] rejects the count or the port, the handler
    flashes the error and starts no process.  In version 1 the count is not
    parsed: [deploy] puts the stripped text of the field into the line
    [replicas:] of the manifest, whatever it is, and when the probe
    succeeds the apply is given that manifest. *)
Theorem replicas_rendering (r : request) (w : world) (u : user)
    (r1 : request) (w1 : world) path rest secs out err :
  (connected w →
   truthy (strip (form_get r "deployment_name" "")) = true →
   truthy (strip (form_get r "deployment_image" "")) = true →
   renders_replicas Version2.create_deployment r w) ∧
  (current_user r = Some u →
   connected w →
   truthy (strip (form_get r "deployment_name" "")) = true →
   truthy (strip (form_get r "deployment_image" "")) = true →
   renders_replicas Version4.create_deployment r w) ∧
  (lacks r1 ["api"; "token"; "name"; "image"] = false →
   Version1.found (on_path w1) = true →
   write_error (host w1) = None →
   Version1.mkstemp_pick (names w1) (tempdir (host w1)) "kubeconf_" ".yaml" (files w1)
     = Some (path, rest) →
   oracle (host w1) (length (procs w1)) = Exits secs 0 out err →
   embedded_null (apply_cmd (Version1.namespace_of r1)) = false →
   let replicas := strip (form_get r1 "replicas" "1") in
   let yaml := Version1.deployment_yaml (strip (form_get r1 "name" ""))
                 (strip (form_get r1 "image" "")) replicas in
   interpolated ("  replicas: " +:+ replicas) yaml ∧
   ∃ probe apply,
     procs (Version1.deploy r1 w1).2 = procs w1 ++ [probe; apply] ∧
     p_argv probe = probe_cmd ∧
     p_argv apply = apply_cmd (Version1.namespace_of r1) ∧
     (p_status apply ≠ NotStarted → p_input apply = Some yaml)).
Proof.
  split; [|split].
  - intros Hc Hn Hi. apply create_deployment_replicas; auto.
  - intros Hu Hc Hn Hi. apply create_deployment_replicas; eauto.
  - intros Hl Hf Hw Hpick Ho Hnul. cbv zeta. split.
    + eexists [_; _; _; _; _; _; _], [_; _; _; _; _; _; _; _; _; _; _]. reflexivity.
    + unfold Version1.deploy. cbv zeta. rewrite !truthy_strip.
      unfold lacks in Hl. cbn [existsb] in Hl. rewrite !orb_false_r in Hl.
      repeat match goal with
             | H : _ || _ = false |- _ => apply orb_false_elim in H as [? ?]
             end.
      repeat match goal with H : blank _ = false |- _ => rewrite H; clear H end.
      cbn [negb andb].
      destruct (apply_and_render_applies r1 (strip (form_get r1 "api" ""))
                  (strip (form_get r1 "token" ""))
                  (Version1.deployment_yaml (strip (form_get r1 "name" ""))
                     (strip (form_get r1 "image" "")) (strip (form_get r1 "replicas" "1")))
                  "Deployment" (strip (form_get r1 "name" "")) w1 path rest secs out err
                  Hf Hw Hpick Ho Hnul)
        as (probe & apply & Hp & Hpa & _ & _ & Haa & _ & Hin).
      exists probe, apply. auto.
Qed.

(** Claim C4 says that a negative or non-numeric replica count is a
    validation error and starts no process.  In version 4 the count "-3" is
    parsed to -3 and the manifest with [replicas: -3] is applied; in version 1
    the count "lots" is put into the manifest text as it is and applied. *)
Lemma negative_replicas_are_applied :
  (let w := machine (fun _ => succeeds) None connected_session in
   let w' := (Version4.create_deployment (deployment_form "-3") w).2 in
   ∃ m e, procs w' = [e] ∧ p_status e = Exited 0 ∧ p_input e = Some (json_dumps m) ∧
          get [Key "spec"; Key "replicas"] m = Some (VInt (-3))) ∧
  (let w := machine (fun _ => succeeds) None empty_session in
   let w' := (Version1.deploy (deploy_form "lots") w).2 in
   p_input <$> procs w' = [None; Some (Version1.deployment_yaml "web" "nginx:1.25" "lots")] ∧
   p_status <$> procs w' = [Exited 0; Exited 0]).
Proof.
  split.
  - exists (VDict [
         ("apiVersion", VStr "apps/v1");
         ("kind", VStr "Deployment");
         ("metadata", VDict [("name", VStr "web"); ("namespace", VStr "default")]);
         ("spec", VDict [
            ("replicas", VInt (-3));
            ("selector", VDict [("matchLabels", VDict [("app", VStr "web")])]);
            ("template", VDict [
               ("metadata", VDict [("labels", VDict [("app", VStr "web")])]);
               ("spec", VDict [
                  ("containers", VList [
                     VDict [("name", VStr "web");
                            ("image", VStr "nginx:1.25");
                            ("ports", VList [VDict [("containerPort", VInt 80)]])]])])])])]).
    eexists. split; [vm_compute; reflexivity|].
    split; [reflexivity|]. split; [vm_compute; reflexivity|reflexivity].
  - vm_compute. split; reflexivity.
Qed.

(** ** Rendering and applying a Service *)

Lemma generate_service_manifest_eq name port target ty ns w :
  Version2.generate_service_manifest name port target ty ns w =
  match Py.int (int_max_str_digits (host w)) port,
        Py.int (int_max_str_digits (host w)) target with
  | inl p, inl t =>
      (Ret (VDict [
         ("apiVersion", VStr "v1");
         ("kind", VStr "Service");
         ("metadata", VDict [("name", VStr name); ("namespace", VStr ns)]);
         ("spec", VDict [
            ("selector", VDict [("app", VStr name)]);
            ("ports", VList [VDict [("port", VInt p); ("targetPort", VInt t)]]);
            ("type", VStr ty)])]), w)
  | inl _, inr msg => (Raise (ValueError msg), w)
  | inr msg, _ => (Raise (ValueError msg), w)
  end.
Proof.
  unfold Version2.generate_service_manifest. rewrite bind_eq, py_int_eq.
  destruct (Py.int _ port); [|reflexivity]. rewrite bind_eq, py_int_eq.
  destruct (Py.int _ target); reflexivity.
Qed.

(** [create_service] of version 2, and of version 4 for a logged-in user,
    with a connected session and a name: what is applied, by what [int]
    makes of the two port fields. *)
Lemma create_service_ports h (r : request) (w : world) :
  h = Version2.create_service
  ∨ h = Version4.create_service ∧ is_Some (current_user r) →
  connected w →
  truthy (strip (form_get r "service_name" "")) = true →
  renders_ports h r w.
Proof.
  intros Hh Hc Hn. unfold renders_ports, connected in *. cbv zeta.
  destruct (h r w) as [o w'] eqn:E. cbn [snd].
  assert (Hu : ∃ u, h = Version2.create_service ∨ current_user r = Some u ∧
                    h = Version4.create_service).
  { destruct Hh as [->|[-> [u Hu]]]; [exists alice; auto|exists u; auto]. }
  destruct Hu as [u [->|[Hu ->]]];
    [unfold Version2.create_service in E
    |unfold Version4.create_service, Version4.login_required in E; rewrite Hu in E;
     unfold Version4.generate_service_manifest in E].
  all: rewrite bind_eq in E; unfold session_connected at 1 in E; unfold gets at 1 in E;
    cbv beta iota in E; rewrite Hc, Hn in E; cbn [negb andb] in E;
    rewrite bind_eq in E; unfold try_except in E; rewrite bind_eq in E;
    rewrite generate_service_manifest_eq in *.
  all: destruct (Py.int _ (form_get r "service_port" "80")) as [p|msg];
    [|report_in E Hu; injection E as <- <-; split; [reflexivity|apply last_snoc]].
  all: destruct (Py.int _ (form_get r "service_target_port" "80")) as [t|msg];
    [|report_in E Hu; injection E as <- <-; split; [reflexivity|apply last_snoc]].
  all: match type of E with context [json_dumps ?m] => set (doc := m) in * end;
    cbv beta iota zeta in E; rewrite bind_eq, Popen_eq in E; fold manifest_cmd in E;
    change (embedded_null manifest_cmd) with false in E; cbv beta iota zeta in E.
  all: destruct (oracle (host w) (length (procs w))) as [secs rc out err|secs rc reason| |msg];
    cbv beta iota in E.
  (* kubectl cannot be started *)
  4,8: report_in E Hu; injection E as <- <-; applied doc.
  (* kubectl never exits *)
  3,6: rewrite bind_eq, communicate_eq in E; cbv beta iota zeta in E;
    injection E as <- <-; applied doc.
  (* kubectl exits, with output that is text or not *)
  all: rewrite bind_eq, communicate_eq in E; cbn [within] in E; cbv beta iota zeta in E;
    rewrite exited_inert in E by (try discriminate; reflexivity).
  2,4: report_in E Hu; injection E as <- <-; applied doc.
  all: rewrite bind_eq, returncode_eq in E; cbv beta iota in E;
    rewrite procs_push, lookup_snoc in E;
    cbn [fmap option_fmap option_map p_status entry] in E;
    destruct (iszero (Some rc)); report_in E Hu; injection E as <- <-; applied doc.
Qed.

(** Claim C7, amended.  In version 2 and 4, [create_service] parses the
    field [service_target_port] by [int], with the text "80" when the
    field is missing: a request without it renders [targetPort: 80]
    whatever the port is.  In version 1, [service] renders [targetPort]
    with the stripped text of the field [targetPort]: the text of the port
    when the field is missing, and nothing at all when the field is there
    but blank. *)
Theorem target_port_default (r : request) (w : world) (u : user)
    (r1 : request) (w1 : world) path rest secs out err :
  (connected w →
   truthy (strip (form_get r "service_name" "")) = true →
   renders_ports Version2.create_service r w) ∧
  (current_user r = Some u →
   connected w →
   truthy (strip (form_get r "service_name" "")) = true →
   renders_ports Version4.create_service r w) ∧
  (form r !! "service_target_port" = None →
   Py.int (int_max_str_digits (host w)) (form_get r "service_target_port" "80") = inl 80) ∧
  (lacks r1 ["api"; "token"; "name"] = false →
   Version1.found (on_path w1) = true →
   write_error (host w1) = None →
   Version1.mkstemp_pick (names w1) (tempdir (host w1)) "kubeconf_" ".yaml" (files w1)
     = Some (path, rest) →
   oracle (host w1) (length (procs w1)) = Exits secs 0 out err →
   embedded_null (apply_cmd (Version1.namespace_of r1)) = false →
   let port := strip (form_get r1 "port" "80") in
   let target := match form r1 !! "targetPort" with
                 | Some field => strip field
                 | None => port
                 end in
   let yaml := Version1.service_yaml (strip (form_get r1 "name" "")) port target in
   interpolated ("      port: " +:+ port) yaml ∧
   interpolated ("      targetPort: " +:+ target) yaml ∧
   ∃ probe apply,
     procs (Version1.service r1 w1).2 = procs w1 ++ [probe; apply] ∧
     p_argv probe = probe_cmd ∧
     p_argv apply = apply_cmd (Version1.namespace_of r1) ∧
     (p_status apply ≠ NotStarted → p_input apply = Some yaml)).
Proof.
  split; [|split; [|split]].
  - intros Hc Hn. apply create_service_ports; auto.
  - intros Hu Hc Hn. apply create_service_ports; eauto.
  - intros Ht. unfold form_get. rewrite Ht. reflexivity.
  - intros Hl Hf Hw Hpick Ho Hnul. cbv zeta. split; [|split].
    + eexists [_; _; _; _; _; _; _; _; _], [_; _]. reflexivity.
    + eexists [_; _; _; _; _; _; _; _; _; _], [_]. reflexivity.
    + unfold Version1.service. cbv zeta. rewrite !truthy_strip.
      unfold lacks in Hl. cbn [existsb] in Hl. rewrite !orb_false_r in Hl.
      repeat match goal with
             | H : _ || _ = false |- _ => apply orb_false_elim in H as [? ?]
             end.
      repeat match goal with H : blank _ = false |- _ => rewrite H; clear H end.
      cbn [negb andb].
      replace (strip (form_get r1 "targetPort" (strip (form_get r1 "port" "80"))))
        with (match form r1 !! "targetPort" with
              | Some field => strip field
              | None => strip (form_get r1 "port" "80")
              end)
        by (unfold form_get at 2; destruct (form r1 !! "targetPort");
            [reflexivity|symmetry; apply strip_strip]).
      destruct (apply_and_render_applies r1 (strip (form_get r1 "api" ""))
                  (strip (form_get r1 "token" ""))
                  (Version1.service_yaml (strip (form_get r1 "name" ""))
                     (strip (form_get r1 "port" "80"))
                     (match form r1 !! "targetPort" with
                      | Some field => strip field
                      | None => strip (form_get r1 "port" "80")
                      end))
                  "Service" (strip (form_get r1 "name" "")) w1 path rest secs out err
                  Hf Hw Hpick Ho Hnul)
        as (probe & apply & Hp & Hpa & _ & _ & Haa & _ & Hin).
      exists probe, apply. auto.
Qed.

(** Claim C7 says that a missing targetPort defaults to the port.  In
    version 4, port 8080 and no [service_target_port] field render
    [targetPort: 80]. *)
Lemma create_service_targets_80 :
  let w := machine (fun _ => succeeds) None connected_session in
  let w' := (Version4.create_service service_form w).2 in
  form service_form !! "service_target_port" = None ∧
  ∃ m e, procs w' = [e] ∧ p_input e = Some (json_dumps m) ∧
         get [Key "spec"; Key "ports"; Idx 0; Key "port"] m = Some (VInt 8080) ∧
         get [Key "spec"; Key "ports"; Idx 0; Key "targetPort"] m = Some (VInt 80).
Proof.
  split; [vm_compute; reflexivity|].
  exists (VDict [
         ("apiVersion", VStr "v1");
         ("kind", VStr "Service");
         ("metadata", VDict [("name", VStr "web"); ("namespace", VStr "default")]);
         ("spec", VDict [
            ("selector", VDict [("app", VStr "web")]);
            ("ports", VList [VDict [("port", VInt 8080); ("targetPort", VInt 80)]]);
            ("type", VStr "ClusterIP")])]).
  eexists. split; [vm_compute; reflexivity|]. split; [vm_compute; reflexivity|].
  split; reflexivity.
Qed.

(** ** The environment of the children *)

Lemma spawns_only_ret {A} P (a : A) : spawns_only P (ret a).
Proof. intros w. split; [reflexivity|]. exists []. rewrite app_nil_r. split; [reflexivity|constructor]. Qed.

Lemma spawns_only_bind {A B} P (m : M A) (k : A → M B) :
  spawns_only P m → (∀ a, spawns_only P (k a)) → spawns_only P (bind m k).
Proof.
  intros Hm Hk w. rewrite bind_eq. destruct (Hm w) as (He & new & Hp & HP).
  destruct (m w) as [[a|e|] w1]; cbn [snd] in *.
  - destruct (Hk a w1) as (He' & new' & Hp' & HP').
    split; [congruence|]. exists (new ++ new').
    split; [rewrite Hp', Hp, app_assoc; reflexivity|apply Forall_app; split; assumption].
  - split; [assumption|]. exists new. split; assumption.
  - split; [assumption|]. exists new. split; assumption.
Qed.

Lemma spawns_only_try_except {A} P (m : M A) (h : exn → option (M A)) :
  spawns_only P m → (∀ e k, h e = Some k → spawns_only P k) →
  spawns_only P (try_except m h).
Proof.
  intros Hm Hh w. unfold try_except. destruct (Hm w) as (He & new & Hp & HP).
  destruct (m w) as [[a|e|] w1]; cbn [snd] in *.
  - split; [assumption|]. exists new. split; assumption.
  - destruct (h e) as [k|] eqn:Ek.
    + destruct (Hh e k Ek w1) as (He' & new' & Hp' & HP').
      split; [congruence|]. exists (new ++ new').
      split; [rewrite Hp', Hp, app_assoc; reflexivity|apply Forall_app; split; assumption].
    + split; [assumption|]. exists new. split; assumption.
  - split; [assumption|]. exists new. split; assumption.
Qed.

Lemma spawns_only_subprocess_run (P : proc → Prop) argv env input capture check timeout :
  (∀ e, p_argv e = argv → p_env e = env → P e) →
  spawns_only P (subprocess_run argv env input capture check timeout).
Proof.
  intros HP w. rewrite subprocess_run_eq. cbv zeta.
  assert (H1 : ∀ i l b st, Forall P [entry argv env i l b st]).
  { intros. apply List.Forall_cons; [apply HP; reflexivity|apply List.Forall_nil]. }
  repeat match goal with
         | |- context [if ?c then _ else _] => destruct c
         | |- context [match ?c with Exits _ _ _ _ => _ | _ => _ end] => destruct c
         | |- context [match ?c with Some _ => _ | None => _ end] => destruct c
         end;
    cbn [snd]; rewrite ?environ_exited, ?procs_exited;
    (split; [reflexivity|]);
    first [ exists []; rewrite app_nil_r; split; [reflexivity|apply List.Forall_nil]
          | eexists [_]; split; [reflexivity|apply H1] ].
Qed.

Lemma validate_spawns endpoint token name :
  spawns_only (fun e => p_env e = None)
    (Version2.validate_cluster_connection endpoint token name).
Proof.
  unfold Version2.validate_cluster_connection. cbv zeta.
  apply spawns_only_try_except.
  - repeat (apply spawns_only_bind;
            [apply spawns_only_subprocess_run; intros e _ He; exact He|intros ?]).
    apply spawns_only_ret.
  - intros [] k [= <-]. apply spawns_only_ret.
Qed.

Lemma started_by_app {A} (m : M A) w new :
  procs (m w).2 = procs w ++ new → started_by m w = new.
Proof. intros H. unfold started_by. rewrite H. apply drop_app_length. Qed.

(** Claim C8, amended.  In version 1, [run_kubectl_apply] leaves
    [os.environ] and the shared kubeconfig as they were, and every child it
    starts gets a copy of the environment with KUBECONFIG set to the
    temporary file.  In version 2 to 4 there is no override:
    [validate_cluster_connection] leaves [os.environ] as it was and starts
    every child in the server's own environment. *)
Theorem kubeconfig_override_scope yaml kc ns endpoint token name w :
  (environ (Version1.run_kubectl_apply yaml kc ns w).2 = environ w ∧
   kubeconfig (Version1.run_kubectl_apply yaml kc ns w).2 = kubeconfig w ∧
   Forall (fun e => p_env e = Some (<["KUBECONFIG" := kc]> (environ w)))
     (started_by (Version1.run_kubectl_apply yaml kc ns) w)) ∧
  (environ (Version2.validate_cluster_connection endpoint token name w).2 = environ w ∧
   Forall (fun e => p_env e = None)
     (started_by (Version2.validate_cluster_connection endpoint token name) w)).
Proof.
  split.
  - destruct (run_kubectl_apply_procs yaml kc ns w) as (new & Hp & _ & He & _).
    rewrite (started_by_app _ _ _ Hp). split; [|split; [|exact He]].
    + rewrite run_kubectl_apply_eq. cbv zeta.
      repeat match goal with |- context [match ?x with _ => _ end] => destruct x end;
        reflexivity.
    + rewrite run_kubectl_apply_eq. cbv zeta.
      repeat match goal with |- context [match ?x with _ => _ end] => destruct x end;
        reflexivity.
  - destruct (validate_spawns endpoint token name w) as (He & new & Hp & HP).
    rewrite (started_by_app _ _ _ Hp). split; assumption.
Qed.

(** Claim C8 says that configuration shared with other calls is left
    unchanged.  The children of [validate_cluster_connection] run in the
    server's own environment and rewrite the kubeconfig that every later
    kubectl of the server reads. *)
Lemma connecting_rewrites_shared_kubeconfig :
  let w := machine (fun _ => succeeds) None empty_session in
  let w' := (Version2.validate_cluster_connection "https://k8s.example" "tok" "prod" w).2 in
  p_env <$> procs w' = [None; None; None; None; None] ∧
  current_context (kubeconfig w) = None ∧
  current_context (kubeconfig w') = Some "prod" ∧
  users (kubeconfig w') !! "prod-user" = Some "tok" ∧
  kubeconfig w' ≠ kubeconfig w.
Proof.
  cbv zeta. repeat split; try (vm_compute; reflexivity).
  intros H. apply (f_equal current_context) in H. vm_compute in H. discriminate H.
Qed.

(** ** The token: kept in the session, absent from the audit log *)

Section Alike.

Lemma alike_ret {A} (a : A) : alike_run (ret a) (ret a).
Proof. intros w1 w2 H. split; [reflexivity|exact H]. Qed.

Lemma alike_bind {A B} (m1 m2 : M A) (k1 k2 : A → M B) :
  alike_run m1 m2 → (∀ a, alike_run (k1 a) (k2 a)) →
  alike_run (bind m1 k1) (bind m2 k2).
Proof.
  intros Hm Hk w1 w2 H. unfold bind.
  destruct (Hm w1 w2 H) as [Ho Hw].
  destruct (m1 w1) as [[a1|e1|] w1'], (m2 w2) as [[a2|e2|] w2'];
    cbn [fst snd alike_outcome] in *; try contradiction.
  - subst a2. apply Hk, Hw.
  - split; assumption.
  - split; assumption.
Qed.

Lemma alike_try_except {A} (m1 m2 : M A) (h1 h2 : exn → option (M A)) :
  alike_run m1 m2 →
  (∀ e1 e2, forget_cmd e1 = forget_cmd e2 →
     match h1 e1, h2 e2 with
     | Some k1, Some k2 => alike_run k1 k2
     | None, None => True
     | _, _ => False
     end) →
  alike_run (try_except m1 h1) (try_except m2 h2).
Proof.
  intros Hm Hh w1 w2 H. unfold try_except.
  destruct (Hm w1 w2 H) as [Ho Hw].
  destruct (m1 w1) as [[a1|e1|] w1'], (m2 w2) as [[a2|e2|] w2'];
    cbn [fst snd alike_outcome] in *; try contradiction.
  - split; assumption.
  - specialize (Hh e1 e2 Ho).
    destruct (h1 e1), (h2 e2); try contradiction.
    + apply Hh, Hw.
    + split; assumption.
  - split; assumption.
Qed.

Lemma alike_gets {A} (f : world → A) :
  (∀ w1 w2, alike w1 w2 → f w1 = f w2) → alike_run (gets f) (gets f).
Proof. intros Hf w1 w2 H. split; [apply Hf, H|exact H]. Qed.

Lemma alike_modify_web (f1 f2 : web → web) :
  (∀ x1 x2, web_alike x1 x2 → web_alike (f1 x1) (f2 x2)) →
  alike_run (modify (set_web f1)) (modify (set_web f2)).
Proof.
  intros Hf w1 w2 (Hh & Hp & Hx). split; [reflexivity|].
  split; [exact Hh|]. split; [exact Hp|]. apply Hf, Hx.
Qed.

Lemma alike_push e1 e2 w1 w2 : alike w1 w2 → alike (push e1 w1) (push e2 w2).
Proof.
  intros (Hh & Hp & Hx). split; [exact Hh|]. split; [|exact Hx].
  rewrite !procs_push, !length_app, Hp. reflexivity.
Qed.

Lemma alike_child_effect p1 p2 w1 w2 :
  alike w1 w2 → alike (child_effect p1 w1) (child_effect p2 w2).
Proof.
  intros (Hh & Hp & Hx). unfold alike.
  rewrite !child_effect_host, !procs_child_effect, !child_effect_web. auto.
Qed.

Lemma alike_exited a1 a2 e1 e2 i1 i2 t1 t2 b1 b2 s1 s2 rc w1 w2 :
  alike w1 w2 →
  alike (exited a1 e1 i1 t1 b1 s1 rc w1) (exited a2 e2 i2 t2 b2 s2 rc w2).
Proof.
  intros H. unfold exited. cbv zeta.
  destruct (rc =? 0); [apply alike_child_effect|]; apply alike_push, H.
Qed.

Lemma alike_completed a1 a2 check rc out err :
  alike_outcome (completed a1 check rc out err) (completed a2 check rc out err).
Proof. unfold completed. destruct (check && negb (rc =? 0)); reflexivity. Qed.

Lemma alike_subprocess_run argv1 argv2 env1 env2 input1 input2 capture check timeout :
  embedded_null argv1 = embedded_null argv2 →
  alike_run (subprocess_run argv1 env1 input1 capture check timeout)
            (subprocess_run argv2 env2 input2 capture check timeout).
Proof.
  intros Hnul w1 w2 H. rewrite !subprocess_run_eq, <- Hnul.
  destruct (embedded_null argv1); [split; [reflexivity|exact H]|]. cbv zeta.
  destruct H as (Hh & Hp & Hx). rewrite <- Hh, <- Hp.
  assert (H : alike w1 w2) by (split; auto).
  destruct (oracle (host w1) (length (procs w1))) as [secs rc out err|secs rc reason| |msg].
  - destruct (within timeout secs).
    + cbn [fst snd]. split; [|apply alike_exited, H].
      destruct capture; apply alike_completed.
    + split; [reflexivity|apply alike_push, H].
  - destruct (within timeout secs).
    + cbn [fst snd]. split; [|apply alike_exited, H].
      destruct capture; [reflexivity|apply alike_completed].
    + split; [reflexivity|apply alike_push, H].
  - destruct timeout; (split; [reflexivity|apply alike_push, H]).
  - split; [reflexivity|apply alike_push, H].
Qed.

Lemma alike_flash m c : alike_run (flash m c) (flash m c).
Proof.
  apply alike_modify_web. intros x1 x2 (Hs & Hf & Ha & Hc & Hl).
  repeat split; cbn; congruence.
Qed.

Lemma alike_log_audit_action r1 r2 a b c d e f g h :
  remote_addr r1 = remote_addr r2 → user_agent r1 = user_agent r2 →
  current_user r1 = current_user r2 →
  alike_run (Version4.log_audit_action r1 a b c d e f g h)
            (Version4.log_audit_action r2 a b c d e f g h).
Proof.
  intros Ha Hu Hc. unfold Version4.log_audit_action. rewrite Ha, Hu, Hc.
  destruct (current_user r2) as [u|]; [|apply alike_ret].
  apply alike_bind.
  - apply alike_gets. intros w1 w2 (Hh & _). rewrite Hh. reflexivity.
  - intros now. apply alike_bind.
    + apply alike_modify_web. intros x1 x2 (Hs & Hf & Hl & Hcc & Hlog).
      repeat split; cbn; congruence.
    + intros _. apply alike_modify_web. intros x1 x2 (Hs & Hf & Hl & Hcc & Hlog).
      repeat split; cbn; congruence.
Qed.

Lemma embedded_null_token name t1 t2 :
  contains (chr 0) t1 = contains (chr 0) t2 →
  embedded_null ["kubectl"; "config"; "set-credentials"; name +:+ "-user"; "--token=" +:+ t1]
  = embedded_null ["kubectl"; "config"; "set-credentials"; name +:+ "-user"; "--token=" +:+ t2].
Proof.
  intros H. unfold embedded_null. cbn [existsb].
  rewrite !(contains_app _ "--token="), H. reflexivity.
Qed.

Lemma alike_validate endpoint t1 t2 name :
  contains (chr 0) t1 = contains (chr 0) t2 →
  alike_run (Version2.validate_cluster_connection endpoint t1 name)
            (Version2.validate_cluster_connection endpoint t2 name).
Proof.
  intros Hnul. unfold Version2.validate_cluster_connection. cbv zeta.
  apply alike_try_except.
  - apply alike_bind; [apply alike_subprocess_run; reflexivity|intros ?].
    apply alike_bind; [apply alike_subprocess_run, embedded_null_token, Hnul|intros ?].
    repeat (apply alike_bind; [apply alike_subprocess_run; reflexivity|intros ?]).
    apply alike_ret.
  - intros [] [] He; try discriminate He; try exact I.
    injection He as -> -> ->. apply alike_ret.
Qed.

End Alike.

Lemma form_get_with_token_ne t r k d :
  k ≠ "token" → form_get (with_token t r) k d = form_get r k d.
Proof. intros H. unfold form_get, with_token. cbn. rewrite lookup_insert_ne by congruence. reflexivity. Qed.

Lemma form_get_with_token t r d : form_get (with_token t r) "token" d = t.
Proof. unfold form_get, with_token. cbn. rewrite lookup_insert_eq. reflexivity. Qed.

Lemma alike_connect_cluster r t1 t2 :
  truthy (strip t1) = truthy (strip t2) →
  contains (chr 0) (strip t1) = contains (chr 0) (strip t2) →
  alike_run (Version4.connect_cluster (with_token t1 r))
            (Version4.connect_cluster (with_token t2 r)).
Proof.
  intros H1 H2. unfold Version4.connect_cluster, Version4.login_required.
  cbn [current_user with_token].
  destruct (current_user r) as [u|].
  2:{ apply alike_bind; [apply alike_flash|intros _; apply alike_ret]. }
  rewrite !form_get_with_token, !form_get_with_token_ne by discriminate.
  rewrite <- H1.
  destruct (truthy (strip (form_get r "endpoint" "")) && truthy (strip (form_get r "cluster_name" ""))
            && truthy (strip t1)); cbn [negb].
  2:{ apply alike_bind; [apply alike_flash|intros _; apply alike_ret]. }
  apply alike_bind; [apply alike_validate, H2|].
  intros [success output]. apply alike_bind; [|intros _; apply alike_ret].
  destruct success.
  - apply alike_bind.
    { apply alike_modify_web. intros x1 x2 (Hs & Hf & Hl & Hcc & Hlog).
      repeat split; cbn; try congruence.
      unfold forget_token in *. cbn. congruence. }
    intros _. apply alike_bind.
    { apply alike_gets. intros w1 w2 (Hh & _). rewrite Hh. reflexivity. }
    intros now. apply alike_bind.
    { apply alike_modify_web. intros x1 x2 (Hs & Hf & Hl & Hcc & Hlog).
      repeat split; cbn; congruence. }
    intros _. apply alike_bind; [apply alike_log_audit_action; reflexivity|].
    intros _. apply alike_flash.
  - apply alike_bind; [apply alike_log_audit_action; reflexivity|].
    intros _. apply alike_flash.
Qed.

(** *** The handlers that run with a token in the session *)

Lemma alike_since_start w1 w2 : alike w1 w2 → alike_since (length (procs w1)) w1 w2.
Proof.
  intros H. split; [exact H|]. split; [lia|].
  destruct H as (_ & Hl & _). rewrite drop_all, Hl, drop_all. reflexivity.
Qed.

Lemma alike_since_push n e w1 w2 :
  alike_since n w1 w2 → alike_since n (push e w1) (push e w2).
Proof.
  intros (H & Hn & Hd). pose proof H as (_ & Hl & _).
  split; [apply alike_push, H|]. rewrite !procs_push, length_app.
  split; [lia|]. rewrite !drop_app_le by lia. rewrite Hd. reflexivity.
Qed.

Lemma alike_since_alter n i f w1 w2 :
  (n ≤ i)%nat → alike_since n w1 w2 →
  alike_since n (set_procs (alter f i) w1) (set_procs (alter f i) w2).
Proof.
  intros Hi ((Hh & Hl & Hx) & Hn & Hd).
  split; [|split].
  - split; [exact Hh|]. split; [|exact Hx].
    cbn [procs set_procs]. rewrite !length_alter. exact Hl.
  - cbn [procs set_procs]. rewrite length_alter. exact Hn.
  - cbn [procs set_procs]. rewrite !drop_alter_ge by exact Hi. rewrite Hd. reflexivity.
Qed.

Lemma alike_since_child_effect n p w1 w2 :
  alike_since n w1 w2 → alike_since n (child_effect p w1) (child_effect p w2).
Proof.
  intros (H & Hn & Hd). split; [apply alike_child_effect, H|].
  rewrite !procs_child_effect. auto.
Qed.

Lemma alike_since_web n f w1 w2 :
  (∀ x1 x2, web_alike x1 x2 → web_alike (f x1) (f x2)) →
  alike_since n w1 w2 → alike_since n (set_web f w1) (set_web f w2).
Proof.
  intros Hf ((Hh & Hl & Hx) & Hn & Hd).
  split; [|split; assumption]. split; [exact Hh|]. split; [exact Hl|]. apply Hf, Hx.
Qed.

Lemma alike_since_lookup n i w1 w2 :
  (n ≤ i)%nat → alike_since n w1 w2 → procs w1 !! i = procs w2 !! i.
Proof.
  intros Hi (_ & _ & Hd). replace i with (n + (i - n))%nat by lia.
  rewrite <- !lookup_drop, Hd. reflexivity.
Qed.

Section Steady.

Variable n : nat.

Lemma steady_ret {A} (a : A) : steady n (ret a).
Proof. intros w1 w2 H. split; [reflexivity|exact H]. Qed.

Lemma steady_raise {A} e : steady n (@raise A e).
Proof. intros w1 w2 H. split; [reflexivity|exact H]. Qed.

Lemma steady_bind {A B} (m : M A) (k : A → M B) :
  steady n m → (∀ a, steady n (k a)) → steady n (bind m k).
Proof.
  intros Hm Hk w1 w2 H. unfold bind.
  destruct (Hm w1 w2 H) as [Ho Hw].
  destruct (m w1) as [[a1|e1|] w1'], (m w2) as [o2 w2'];
    cbn [fst snd] in *; subst o2.
  - apply Hk, Hw.
  - split; [reflexivity|exact Hw].
  - split; [reflexivity|exact Hw].
Qed.

Lemma steady_try_except {A} (m : M A) (h : exn → option (M A)) :
  steady n m → (∀ e k, h e = Some k → steady n k) → steady n (try_except m h).
Proof.
  intros Hm Hh w1 w2 H. unfold try_except.
  destruct (Hm w1 w2 H) as [Ho Hw].
  destruct (m w1) as [[a1|e1|] w1'], (m w2) as [o2 w2'];
    cbn [fst snd] in *; subst o2.
  - split; [reflexivity|exact Hw].
  - destruct (h e1) as [k|] eqn:E.
    + apply (Hh e1 k E), Hw.
    + split; [reflexivity|exact Hw].
  - split; [reflexivity|exact Hw].
Qed.

Lemma steady_gets {A} (f : world → A) :
  (∀ w1 w2, alike w1 w2 → f w1 = f w2) → steady n (gets f).
Proof.
  intros Hf w1 w2 H. split; [|exact H].
  unfold gets. cbn [fst]. f_equal. apply Hf, H.
Qed.

Lemma steady_modify_web (f : web → web) :
  (∀ x1 x2, web_alike x1 x2 → web_alike (f x1) (f x2)) →
  steady n (modify (set_web f)).
Proof. intros Hf w1 w2 H. split; [reflexivity|]. apply alike_since_web; assumption. Qed.

Lemma steady_Popen_bind {A} argv env (k : nat → M A) :
  (∀ i, (n ≤ i)%nat → steady n (k i)) → steady n (bind (Popen argv env) k).
Proof.
  intros Hk w1 w2 H. rewrite !bind_eq, !Popen_eq.
  destruct (embedded_null argv); [split; [reflexivity|exact H]|]. cbv zeta.
  pose proof H as ((Hh & Hl & _) & Hn & _). rewrite <- Hh, <- Hl.
  destruct (oracle (host w1) (length (procs w1))) as [secs rc out err|secs rc reason| |msg];
    try (apply Hk; [exact Hn|apply alike_since_push, H]).
  split; [reflexivity|apply alike_since_push, H].
Qed.

Lemma steady_communicate i text input timeout :
  (n ≤ i)%nat → steady n (communicate i text input timeout).
Proof.
  intros Hi w1 w2 H. unfold communicate.
  rewrite <- (alike_since_lookup n i w1 w2 Hi H).
  destruct (procs w1 !! i) as [p|]; [|split; [reflexivity|exact H]].
  cbv zeta.
  assert (H1 : alike_since n (set_procs (alter (waited input timeout) i) w1)
                              (set_procs (alter (waited input timeout) i) w2))
    by (apply alike_since_alter; assumption).
  assert (H2 : ∀ rc,
    alike_since n
      (if rc =? 0
       then child_effect p (set_procs (alter (with_status (Exited rc)) i)
                              (set_procs (alter (waited input timeout) i) w1))
       else set_procs (alter (with_status (Exited rc)) i)
              (set_procs (alter (waited input timeout) i) w1))
      (if rc =? 0
       then child_effect p (set_procs (alter (with_status (Exited rc)) i)
                              (set_procs (alter (waited input timeout) i) w2))
       else set_procs (alter (with_status (Exited rc)) i)
              (set_procs (alter (waited input timeout) i) w2))).
  { intros rc. destruct (rc =? 0); [apply alike_since_child_effect|];
      apply alike_since_alter; assumption. }
  destruct (p_behaviour p) as [secs rc out err|secs rc reason| |msg].
  - destruct (within timeout secs); (split; [reflexivity|]); [apply H2|exact H1].
  - destruct (within timeout secs); (split; [reflexivity|]); [apply H2|exact H1].
  - destruct timeout; (split; [reflexivity|exact H1]).
  - destruct timeout; (split; [reflexivity|exact H1]).
Qed.

Lemma steady_returncode i : (n ≤ i)%nat → steady n (returncode i).
Proof.
  intros Hi w1 w2 H. rewrite !returncode_eq.
  rewrite <- (alike_since_lookup n i w1 w2 Hi H). split; [reflexivity|exact H].
Qed.

Lemma steady_kill i : (n ≤ i)%nat → steady n (kill i).
Proof.
  intros Hi w1 w2 H. split; [reflexivity|].
  apply alike_since_alter; assumption.
Qed.

Lemma steady_subprocess_run argv env input capture check timeout :
  steady n (subprocess_run argv env input capture check timeout).
Proof.
  unfold subprocess_run. apply steady_Popen_bind. intros i Hi.
  apply steady_bind.
  - apply steady_try_except; [apply steady_communicate, Hi|].
    intros e k [= <-]. apply steady_bind; [apply steady_kill, Hi|].
    intros _. apply steady_raise.
  - intros r. apply steady_bind; [apply steady_returncode, Hi|].
    intros [rc|]; [destruct (check && negb (rc =? 0))|];
      first [apply steady_raise|apply steady_ret].
Qed.

Lemma steady_flash m c : steady n (flash m c).
Proof.
  apply steady_modify_web. intros x1 x2 (Hs & Hf & Ha & Hc & Hl).
  repeat split; cbn; congruence.
Qed.

Lemma steady_utcnow : steady n (gets (fun w => utcnow (host w))).
Proof. apply steady_gets. intros w1 w2 (Hh & _). rewrite Hh. reflexivity. Qed.

Lemma steady_host : steady n (gets host).
Proof. apply steady_gets. intros w1 w2 (Hh & _). exact Hh. Qed.

Lemma forget_token_field {A} (f : session_t → A) x1 x2 :
  (∀ s, f s = f (forget_token s)) → web_alike x1 x2 → f (session x1) = f (session x2).
Proof. intros Hf (Hs & _). rewrite (Hf (session x1)), (Hf (session x2)), Hs. reflexivity. Qed.

Lemma steady_session_connected : steady n session_connected.
Proof.
  apply steady_gets. intros w1 w2 (_ & _ & Hx).
  apply (forget_token_field (fun s => default false (cluster_connected s))); [reflexivity|exact Hx].
Qed.

Lemma steady_session_cluster_name : steady n session_cluster_name.
Proof.
  apply steady_gets. intros w1 w2 (_ & _ & Hx).
  apply (forget_token_field (fun s => default "unknown" (cluster_name s))); [reflexivity|exact Hx].
Qed.

Lemma steady_set_last_output o : steady n (set_last_output o).
Proof.
  apply steady_modify_web. intros x1 x2 (Hs & Hf & Ha & Hc & Hl).
  repeat split; cbn; try congruence.
  unfold forget_token in *. cbn. congruence.
Qed.

Lemma steady_pop_connection : steady n pop_connection.
Proof.
  apply steady_modify_web. intros x1 x2 (Hs & Hf & Ha & Hc & Hl).
  repeat split; cbn; try congruence.
  unfold forget_token in *. cbn. congruence.
Qed.

Lemma steady_py_int s : steady n (py_int s).
Proof.
  unfold py_int. apply steady_bind.
  - apply steady_gets. intros w1 w2 (Hh & _). rewrite Hh. reflexivity.
  - intros limit. destruct (int limit s); [apply steady_ret|apply steady_raise].
Qed.

Lemma steady_log_audit_action r a b c d e f g h :
  steady n (Version4.log_audit_action r a b c d e f g h).
Proof.
  unfold Version4.log_audit_action.
  destruct (current_user r) as [u|]; [|apply steady_ret].
  apply steady_bind; [apply steady_utcnow|]. intros now.
  apply steady_bind; [|intros _];
    (apply steady_modify_web; intros x1 x2 (Hs & Hf & Hl & Hcc & Hlog);
     repeat split; cbn; congruence).
Qed.

Lemma steady_execute_kubectl_command args :
  steady n (Version2.execute_kubectl_command args).
Proof.
  unfold Version2.execute_kubectl_command. apply steady_try_except.
  - apply steady_bind; [apply steady_subprocess_run|intros ?; apply steady_ret].
  - intros [] k [= <-]; apply steady_ret.
Qed.

End Steady.

(** One step of such a proof: the call at the head of the goal. *)
Ltac steady_step :=
  first
    [ apply steady_ret | apply steady_raise | apply steady_flash
    | apply steady_log_audit_action | apply steady_session_connected
    | apply steady_session_cluster_name | apply steady_set_last_output
    | apply steady_pop_connection | apply steady_py_int | apply steady_host
    | apply steady_execute_kubectl_command
    | apply steady_communicate; assumption
    | apply steady_returncode; assumption
    | apply steady_kill; assumption
    | apply steady_Popen_bind; intros ? ?
    | apply steady_bind; [|intros ?]
    | match goal with
      | |- steady _ (try_except _ (fun e => Some _)) =>
          apply steady_try_except; [|intros ? ? [= <-]]
      | |- steady _ (try_except _ _) =>
          apply steady_try_except; [|intros [] ? [= <-]]
      | |- steady _ (if ?c then _ else _) => destruct c
      | |- steady _ (let '(_, _) := ?c in _) => destruct c
      end ].

Lemma steady_later n h r :
  In h (Version4.disconnect_cluster :: actions4) → steady n (h r).
Proof.
  unfold actions4. intros [<-|[<-|[<-|[<-|[<-|[]]]]]];
    [unfold Version4.disconnect_cluster|unfold Version4.create_deployment
    |unfold Version4.create_service|unfold Version4.execute_custom
    |unfold Version4.execute_yaml];
    unfold Version4.login_required, Version4.generate_deployment_manifest,
      Version4.generate_service_manifest, Version2.generate_deployment_manifest,
      Version2.generate_service_manifest, Version4.execute_kubectl_command;
    cbv zeta; destruct (current_user r) as [u|]; repeat steady_step.
Qed.

Lemma steady_get_resources n r : steady n (Version4.get_resources r).
Proof.
  unfold Version4.get_resources, Version2.get_resources. cbv zeta.
  repeat steady_step.
Qed.



(** A token with a NUL character in it is refused by [Popen] once the first
    [kubectl config] command has run: [connect_cluster] raises, and no audit
    row is written. *)
Example nul_token_leaves_no_row :
  let w := machine (fun _ => succeeds) None empty_session in
  let t := String "a" (String (chr 0) "b") in
  let '(o, w') := Version4.connect_cluster (with_token t connect_form) w in
  o = Raise (ValueError "embedded null byte") ∧
  length (procs w') = 1%nat ∧ audit_logs (web_state w') = [] ∧
  cluster_token (session (web_state w')) = None.
Proof. vm_compute. repeat split. Qed.

(** ** Timeouts *)

Lemma execute_kubectl_command_eq args w :
  Version2.execute_kubectl_command args w =
  if embedded_null args then (Raise (ValueError "embedded null byte"), w) else
  let b := oracle (host w) (length (procs w)) in
  let timed_out := (Ret (false, "Command timed out after 30 seconds"),
                    push (entry args None None (Some 30%nat) b Killed) w) in
  match b with
  | Exits secs rc out err =>
      if (secs <=? 30)%nat then
        (Ret (if rc =? 0 then (true, out) else (false, err)),
         exited args None None (Some 30%nat) b Running rc w)
      else timed_out
  | Garbles secs rc reason =>
      if (secs <=? 30)%nat then
        (Raise (UnicodeDecodeError reason), exited args None None (Some 30%nat) b Running rc w)
      else timed_out
  | NeverExits => timed_out
  | CannotStart msg => (Raise (OSError msg), push (entry args None None None b NotStarted) w)
  end.
Proof.
  unfold Version2.execute_kubectl_command, try_except. rewrite bind_eq, subprocess_run_eq.
  destruct (embedded_null args); [reflexivity|].
  cbv zeta. destruct (oracle (host w) (length (procs w))) as [secs rc out err|secs rc reason| |msg];
    try reflexivity.
  - cbn [within]. destruct (secs <=? 30)%nat; [|reflexivity].
    unfold completed. cbn [andb]. destruct (rc =? 0); reflexivity.
  - cbn [within]. destruct (secs <=? 30)%nat; reflexivity.
Qed.

(** The calls that pass a timeout never block, whatever kubectl does. *)
Lemma bounded_ret {A} (a : A) : bounded (ret a).
Proof. intros w. discriminate. Qed.

Lemma bounded_raise {A} e : bounded (@raise A e).
Proof. intros w. discriminate. Qed.

Lemma bounded_gets {A} (f : world → A) : bounded (gets f).
Proof. intros w. discriminate. Qed.

Lemma bounded_modify f : bounded (modify f).
Proof. intros w. discriminate. Qed.

Lemma bounded_bind {A B} (m : M A) (k : A → M B) :
  bounded m → (∀ a, bounded (k a)) → bounded (bind m k).
Proof.
  intros Hm Hk w. rewrite bind_eq. specialize (Hm w).
  destruct (m w) as [[a|e|] w1]; cbn [fst] in *; [apply Hk|discriminate|contradiction].
Qed.

Lemma bounded_try_except {A} (m : M A) (h : exn → option (M A)) :
  bounded m → (∀ e k, h e = Some k → bounded k) → bounded (try_except m h).
Proof.
  intros Hm Hh w. unfold try_except. specialize (Hm w).
  destruct (m w) as [[a|e|] w1]; cbn [fst] in *; [discriminate| |contradiction].
  destruct (h e) as [k|] eqn:E; [apply (Hh e k E)|discriminate].
Qed.

Lemma bounded_Popen argv env : bounded (Popen argv env).
Proof.
  intros w. rewrite Popen_eq. destruct (embedded_null argv); [discriminate|].
  cbv zeta. destruct (oracle _ _); discriminate.
Qed.

Lemma bounded_communicate i text input t : bounded (communicate i text input (Some t)).
Proof.
  intros w. unfold communicate. destruct (procs w !! i) as [p|]; [|discriminate].
  cbv zeta. destruct (p_behaviour p); try destruct (within _ _); try destruct text; discriminate.
Qed.

Lemma bounded_subprocess_run argv env input capture check t :
  bounded (subprocess_run argv env input capture check (Some t)).
Proof.
  unfold subprocess_run.
  apply bounded_bind; [apply bounded_Popen|intros p].
  apply bounded_bind.
  { apply bounded_try_except; [apply bounded_communicate|].
    intros e k [= <-]. apply bounded_bind; [apply bounded_modify|intros _; apply bounded_raise]. }
  intros r. apply bounded_bind; [apply bounded_gets|intros [rc|]].
  - destruct (check && negb (rc =? 0)); [apply bounded_raise|apply bounded_ret].
  - apply bounded_ret.
Qed.

Lemma bounded_flash m c : bounded (flash m c).
Proof. apply bounded_modify. Qed.

Lemma bounded_set_last_output o : bounded (set_last_output o).
Proof. apply bounded_modify. Qed.

Lemma bounded_log_audit_action r a b c d e f g h :
  bounded (Version4.log_audit_action r a b c d e f g h).
Proof.
  unfold Version4.log_audit_action. destruct (current_user r); [|apply bounded_ret].
  apply bounded_bind; [apply bounded_gets|intros now].
  apply bounded_bind; [apply bounded_modify|intros _; apply bounded_modify].
Qed.

Lemma bounded_execute_kubectl_command args :
  bounded (Version4.execute_kubectl_command args).
Proof.
  unfold Version4.execute_kubectl_command, Version2.execute_kubectl_command.
  apply bounded_try_except.
  - apply bounded_bind; [apply bounded_subprocess_run|intros ?; apply bounded_ret].
  - intros [] k [= <-]; apply bounded_ret.
Qed.

Ltac bounded_report :=
  repeat lazymatch goal with
         | |- bounded (bind _ _) => apply bounded_bind; [|intros ?]
         | |- bounded (ret _) => apply bounded_ret
         | |- bounded (flash _ _) => apply bounded_flash
         | |- bounded (set_last_output _) => apply bounded_set_last_output
         | |- bounded (Version4.log_audit_action _ _ _ _ _ _ _ _ _) =>
             apply bounded_log_audit_action
         | |- bounded (gets _) => apply bounded_gets
         | |- bounded (modify _) => apply bounded_modify
         end.

Lemma bounded_execute_custom r : bounded (Version4.execute_custom r).
Proof.
  unfold Version4.execute_custom, Version4.login_required.
  destruct (current_user r) as [u|]; [|bounded_report].
  apply bounded_bind; [apply bounded_gets|intros connected].
  destruct (negb connected); [bounded_report|].
  destruct (negb (truthy _)); [bounded_report|].
  destruct (negb (startswith _ _)); [bounded_report|].
  apply bounded_bind; [|intros _; apply bounded_ret].
  apply bounded_try_except.
  - apply bounded_bind; [apply bounded_execute_kubectl_command|intros [[] output]];
      unfold session_cluster_name; bounded_report.
  - intros e k [= <-]. unfold session_cluster_name. bounded_report.
Qed.

Lemma bounded_execute_yaml r : bounded (Version4.execute_yaml r).
Proof.
  unfold Version4.execute_yaml, Version4.login_required.
  destruct (current_user r) as [u|]; [|bounded_report].
  apply bounded_bind; [apply bounded_gets|intros connected].
  destruct (negb connected); [bounded_report|].
  destruct (negb (truthy _)); [bounded_report|].
  apply bounded_bind; [|intros _; apply bounded_ret].
  apply bounded_try_except.
  - apply bounded_bind; [apply bounded_Popen|intros process].
    apply bounded_try_except.
    + apply bounded_bind; [apply bounded_communicate|intros streams].
      apply bounded_bind; [apply bounded_gets|intros rc].
      destruct (iszero rc); unfold session_cluster_name; bounded_report.
    + intros [] k [= <-]. unfold kill, session_cluster_name. bounded_report.
  - intros e k [= <-]. unfold session_cluster_name. bounded_report.
Qed.

(** Claim C5 (every child process is waited for with a timeout) fails for
    [create_deployment]: it calls [communicate] with no timeout, so with a
    kubectl that never exits the handler never returns and the child keeps
    running.  On the same machine [execute_custom], which goes through
    [execute_kubectl_command], and [execute_yaml] return and have killed
    their child after 30 and 60 seconds. *)
Theorem create_deployment_waits_forever :
  let w := machine (fun _ => NeverExits) None connected_session in
  let '(o, w') := Version4.create_deployment (deployment_form "2") w in
  (o = Hang ∧ p_limit <$> procs w' = [None] ∧ p_status <$> procs w' = [Running]) ∧
  (let '(o1, w1) := Version4.execute_custom (custom_form "kubectl get pods") w in
   o1 = Ret (url_for "index") ∧
   p_limit <$> procs w1 = [Some 30%nat] ∧ p_status <$> procs w1 = [Killed]) ∧
  (let '(o2, w2) := Version4.execute_yaml (post [("custom_yaml", "kind: Pod")]) w in
   o2 = Ret (url_for "index") ∧
   p_limit <$> procs w2 = [Some 60%nat] ∧ p_status <$> procs w2 = [Killed]).
Proof. vm_compute. repeat split. Qed.

(** ** version 1: the token reaches no child *)

Lemma mkstemp_pick_drawn candidates dir pre suf (fs : gmap string file) path rest :
  Version1.mkstemp_pick candidates dir pre suf fs = Some (path, rest) →
  ∃ n, In n candidates ∧ path = dir +:+ "/" +:+ pre +:+ n +:+ suf.
Proof.
  induction candidates as [|n l IH]; [discriminate|].
  cbn [Version1.mkstemp_pick].
  destruct (fs !! (dir +:+ "/" +:+ pre +:+ n +:+ suf)).
  - intros H. destruct (IH H) as (m & Hm & ->). exists m. split; [right; exact Hm|reflexivity].
  - intros [= <- <-]. exists n. split; [left|]; reflexivity.
Qed.

Lemma child_effect_names p w : names (child_effect p w) = names w.
Proof.
  unfold child_effect.
  repeat match goal with
         | |- context [if ?c then _ else _] => destruct c
         | |- context [match ?c with Some _ => _ | None => _ end] => destruct c
         end; reflexivity.
Qed.

Lemma names_exited argv env input timeout b st rc w :
  names (exited argv env input timeout b st rc w) = names w.
Proof. unfold exited. cbv zeta. destruct (rc =? 0); [rewrite child_effect_names|]; reflexivity. Qed.

Lemma kubectl_path_keeps w :
  host (Version1.kubectl_path w).2 = host w ∧
  names (Version1.kubectl_path w).2 = names w ∧
  environ (Version1.kubectl_path w).2 = environ w.
Proof.
  rewrite kubectl_path_eq. cbv zeta.
  repeat match goal with
         | |- context [if ?c then _ else _] => destruct c
         | |- context [match ?c with Exits _ _ _ _ => _ | _ => _ end] => destruct c
         end;
    cbn [fst snd]; rewrite ?host_exited, ?names_exited, ?environ_exited; repeat split.
Qed.

(** The step shared by the four handlers: look for kubectl, else run
    [guarded]. *)
Lemma kubectl_guard_census {A} (P : proc → Prop) (page : exn → host_t → A)
    (guarded : M A) w :
  (∀ e, installer_child w e → P e) →
  (∀ w0, host w0 = host w → names w0 = names w → environ w0 = environ w →
         ∃ new, procs (guarded w0).2 = procs w0 ++ new ∧ Forall P new) →
  let m :=
    missing <~ try_except (Version1.kubectl_path ;;; ret None)
                 (fun e => Some (h <~ gets host ;; ret (Some (page e h)))) ;;
    match missing with
    | Some p => ret p
    | None => guarded
    end in
  ∃ new, procs (m w).2 = procs w ++ new ∧ Forall P new.
Proof.
  intros Hi Hg. cbv zeta. rewrite bind_eq. unfold try_except. rewrite bind_eq.
  destruct (kubectl_path_procs w) as (new1 & H1 & F1).
  assert (F1' : Forall P new1).
  { eapply Forall_impl; [exact F1|]. intros e (Ha & He & Hin & _). apply Hi. repeat split; assumption. }
  destruct (kubectl_path_keeps w) as (Hh & Hn & He).
  destruct (Version1.kubectl_path w) as [[p|e|] w1]; cbn [snd] in *.
  - unfold ret at 1. cbv beta iota.
    destruct (Hg w1 Hh Hn He) as (new2 & H2 & F2).
    exists (new1 ++ new2). rewrite H2, H1, app_assoc. split; [reflexivity|].
    apply Forall_app. split; assumption.
  - unfold gets, ret, bind. cbn [snd]. exists new1. split; assumption.
  - cbn [snd]. exists new1. split; assumption.
Qed.

Lemma with_kubeconfig_census {A} (P : proc → Prop) api token ns skip ca
    (body : string → M A) w :
  (∀ path w1, temp_kubeconfig w path → environ w1 = environ w → procs w1 = procs w →
              ∃ new, procs (body path w1).2 = procs w1 ++ new ∧ Forall P new) →
  ∃ new, procs (Version1.with_kubeconfig
                  (Version1.build_kubeconfig api token ns skip ca) body w).2
         = procs w ++ new ∧ Forall P new.
Proof.
  intros Hb. unfold Version1.with_kubeconfig. rewrite build_kubeconfig_eq.
  destruct (Version1.mkstemp_pick _ _ _ _ _) as [[path rest]|] eqn:Hpick.
  - destruct (write_error (host w)) as [msg|].
    + rewrite try_finally_cleanup_procs. exists []. rewrite app_nil_r.
      split; [reflexivity|apply List.Forall_nil].
    + rewrite try_finally_cleanup_procs.
      change (procs w)
        with (procs (built path rest (Version1.kubeconfig_dict api token ns skip ca) w)).
      apply Hb; [|reflexivity..].
      apply mkstemp_pick_drawn in Hpick as (n & Hn & ->). exists n. split; [exact Hn|reflexivity].
  - rewrite try_finally_cleanup_procs. exists []. rewrite app_nil_r.
    split; [reflexivity|apply List.Forall_nil].
Qed.

Lemma run_kubectl_apply_census r yaml ns kc w0 w :
  ns = Version1.namespace_of r → In yaml (manifests r) →
  temp_kubeconfig w kc → environ w0 = environ w →
  ∃ new, procs (Version1.run_kubectl_apply yaml kc ns w0).2 = procs w0 ++ new ∧
         Forall (token_free r w) new.
Proof.
  intros -> Hy Hkc He.
  destruct (run_kubectl_apply_procs yaml kc (Version1.namespace_of r) w0)
    as (new & Hp & Hfed & Henv & Hargv).
  exists new. split; [exact Hp|].
  rewrite List.Forall_forall in *. intros e Hin. right. split; [|split].
  - unfold commands. destruct (Hargv e Hin) as [->| ->]; [left|right; left]; reflexivity.
  - exists kc. split; [exact Hkc|]. rewrite <- He. apply Henv, Hin.
  - destruct (Hfed e Hin) as [H|H]; [left; exact H|right]. exists yaml. split; assumption.
Qed.

Lemma run_kubectl_delete_census r kind name ns kc w0 w :
  ns = Version1.namespace_of r →
  kind = strip (form_get r "kind" "") → name = strip (form_get r "name" "") →
  temp_kubeconfig w kc → environ w0 = environ w →
  ∃ new, procs (Version1.run_kubectl_delete kind name kc ns w0).2 = procs w0 ++ new ∧
         Forall (token_free r w) new.
Proof.
  intros -> -> -> Hkc He. rewrite run_kubectl_delete_eq. cbv zeta.
  assert (Hone : ∀ st b,
    token_free r w (entry (delete_cmd (strip (form_get r "kind" ""))
                             (strip (form_get r "name" "")) (Version1.namespace_of r))
                      (Some (<["KUBECONFIG" := kc]> (environ w0))) None None b st)).
  { intros st b. right. split; [|split].
    - unfold commands. cbn [p_argv entry]. right. right. left. reflexivity.
    - exists kc. split; [exact Hkc|]. cbn [p_env entry]. rewrite He. reflexivity.
    - left. reflexivity. }
  destruct (embedded_null _).
  - exists []. rewrite app_nil_r. split; [reflexivity|apply List.Forall_nil].
  - destruct (oracle _ _); cbn [snd]; rewrite procs_push; eexists [_];
      (split; [reflexivity|]); (apply List.Forall_cons; [apply Hone|apply List.Forall_nil]).
Qed.

Lemma report_census {A B} (P : proc → Prop) (m : M A) (k : A → M B) w :
  (∀ a w1, procs (k a w1).2 = procs w1) →
  (∃ new, procs (m w).2 = procs w ++ new ∧ Forall P new) →
  ∃ new, procs (bind m k w).2 = procs w ++ new ∧ Forall P new.
Proof.
  intros Hk (new & Hp & HF). exists new. split; [|exact HF].
  rewrite bind_eq. destruct (m w) as [[a|e|] w1]; cbn [snd] in *; [|exact Hp..].
  rewrite Hk. exact Hp.
Qed.

Lemma apply_and_render_census r r' api token yaml kind name w :
  Version1.namespace_of r' = Version1.namespace_of r → In yaml (manifests r) →
  ∃ new, procs (Version1.apply_and_render r' api token yaml kind name w).2 = procs w ++ new ∧
         Forall (token_free r w) new.
Proof.
  intros Hns Hy. unfold Version1.apply_and_render.
  apply (kubectl_guard_census (token_free r w)
           (fun e h => Version1.ResultPage yaml false "" (str_exn h e) kind name)).
  { intros e He. left. exact He. }
  intros w0 Hh Hn He.
  assert (Hcen : ∀ e, token_free r w0 e → token_free r w e).
  { unfold token_free, installer_child, kubectl_child, temp_kubeconfig.
    rewrite Hh, Hn, He. auto. }
  destruct (with_kubeconfig_census (token_free r w0) api token (Version1.namespace_of r')
              (Version1.skip_tls_of r') (Version1.ca_cert_of r')
              (fun kc_path =>
                 res <~ Version1.run_kubectl_apply yaml kc_path (Version1.namespace_of r') ;;
                 let '(ok, out, err) := res in
                 ret (Version1.ResultPage yaml ok out err kind name)) w0) as (new & Hp & HF).
  { intros path w1 Hpath He1 Hp1. apply report_census.
    - intros [[ok out] err] w2. reflexivity.
    - apply run_kubectl_apply_census; assumption. }
  exists new. split; [exact Hp|]. eapply Forall_impl; [exact HF|exact Hcen].
Qed.

(** In version 1 the token goes into the temporary kubeconfig and nowhere
    else.  Whatever the token of a request and whatever kubectl answers, each
    child the request starts is the install script, with the server's own
    environment and no input, or kubectl with one of three command lines
    built from the kind, the name and the namespace of the form, with
    KUBECONFIG set to the path of the temporary file in a copy of the
    environment, and with nothing or one of the three manifests of the form
    on its stdin: no command line, environment or input of a child is read
    from the token field. *)
Theorem token_reaches_no_child h keys msg r t w :
  In (h, keys, msg) forms →
  Forall (token_free r w) (started_by (h (with_token t r)) w).
Proof.
  intros Hin. unfold started_by.
  assert (Hns : Version1.namespace_of (with_token t r) = Version1.namespace_of r).
  { unfold Version1.namespace_of.
    rewrite form_get_with_token_ne by discriminate. reflexivity. }
  assert (Hdrop : ∀ w', (∃ new, procs w' = procs w ++ new ∧ Forall (token_free r w) new) →
                        Forall (token_free r w) (drop (length (procs w)) (procs w'))).
  { intros w' (new & -> & HF). rewrite drop_app_length. exact HF. }
  assert (Hnone : Forall (token_free r w) (drop (length (procs w)) (procs w))).
  { rewrite drop_all. apply List.Forall_nil. }
  revert Hin. unfold forms.
  intros [[= <- <- <-]|[[= <- <- <-]|[[= <- <- <-]|[[= <- <- <-]|[]]]]];
    [unfold Version1.deploy|unfold Version1.service|unfold Version1.custom
    |unfold Version1.delete];
    cbv zeta; rewrite !form_get_with_token;
    rewrite ?(form_get_with_token_ne t) by discriminate;
    (destruct (negb _); [exact Hnone|]); apply Hdrop.
  - apply apply_and_render_census; [exact Hns|]. unfold manifests. left. reflexivity.
  - apply apply_and_render_census; [exact Hns|]. unfold manifests. right. left. reflexivity.
  - apply apply_and_render_census; [exact Hns|]. unfold manifests. do 2 right. left. reflexivity.
  - apply (kubectl_guard_census (token_free r w)
             (fun e h => Version1.ResultPage "" false "" (str_exn h e)
                           (strip (form_get r "kind" "")) (strip (form_get r "name" "")))).
    { intros e He. left. exact He. }
    intros w0 Hh Hn He.
    assert (Hcen : ∀ e, token_free r w0 e → token_free r w e).
    { unfold token_free, installer_child, kubectl_child, temp_kubeconfig.
      rewrite Hh, Hn, He. auto. }
    destruct (with_kubeconfig_census (token_free r w0) (strip (form_get r "api" "")) (strip t)
                (Version1.namespace_of (with_token t r))
                (Version1.skip_tls_of (with_token t r)) (Version1.ca_cert_of (with_token t r))
                (fun kc_path =>
                   res <~ Version1.run_kubectl_delete (strip (form_get r "kind" ""))
                            (strip (form_get r "name" "")) kc_path
                            (Version1.namespace_of (with_token t r)) ;;
                   let '(ok, out, err) := res in
                   ret (Version1.ResultPage
                          ("# delete " +:+ strip (form_get r "kind" "") +:+ "/"
                             +:+ strip (form_get r "name" ""))
                          ok out err (strip (form_get r "kind" ""))
                          (strip (form_get r "name" "")))) w0) as (new & Hp & HF).
    { intros path w1 Hpath He1 Hp1. apply report_census.
      - intros [[ok out] err] w2. reflexivity.
      - apply run_kubectl_delete_census; auto. }
    exists new. split; [exact Hp|]. eapply Forall_impl; [exact HF|exact Hcen].
Qed.

(** ** version 2 to 4: logins and sessions *)

(** In version 4 a request without a login is sent to the login page by
    [connect_cluster], [disconnect_cluster] and the four actions, with one
    flashed message and no other effect. *)
Theorem anonymous_requests_go_to_login h r w :
  In h (Version4.connect_cluster :: Version4.disconnect_cluster :: actions4) →
  current_user r = None →
  h r w = (Ret (url_for "login"), flashed "Please log in to access this page." "message" w).
Proof.
  unfold actions4.
  intros [<-|[<-|[<-|[<-|[<-|[<-|[]]]]]]] Hu;
    [unfold Version4.connect_cluster|unfold Version4.disconnect_cluster
    |unfold Version4.create_deployment|unfold Version4.create_service
    |unfold Version4.execute_custom|unfold Version4.execute_yaml];
    unfold Version4.login_required; rewrite Hu; reflexivity.
Qed.

(** Without a connected session the four actions only flash one message and
    redirect: no process, no audit row, no change to the session.  In
    version 2, which has no logins, the message is "Please connect to a
    cluster first" for every request; in version 4 it is that message for a
    logged-in user, and the login message for an anonymous request. *)
Theorem disconnected_actions_are_turned_away h r w :
  disconnected w →
  (In h actions2 →
     h r w = (Ret (url_for "index"),
              flashed "Please connect to a cluster first" "error" w)) ∧
  (In h actions4 →
     h r w = match current_user r with
             | Some _ => (Ret (url_for "index"),
                          flashed "Please connect to a cluster first" "error" w)
             | None => (Ret (url_for "login"),
                        flashed "Please log in to access this page." "message" w)
             end).
Proof.
  intros Hd.
  assert (Hgate : ∀ (k : M redirection),
            (connected <~ session_connected ;;
             if negb connected
             then flash "Please connect to a cluster first" "error" ;;; ret (url_for "index")
             else k) w
            = (Ret (url_for "index"), flashed "Please connect to a cluster first" "error" w)).
  { intros k. rewrite bind_eq. unfold session_connected, gets. cbv beta iota.
    unfold disconnected in Hd. rewrite Hd. reflexivity. }
  split.
  - unfold actions2. intros [<-|[<-|[<-|[<-|[]]]]]; apply Hgate.
  - unfold actions4. intros [<-|[<-|[<-|[<-|[]]]]];
      [unfold Version4.create_deployment|unfold Version4.create_service
      |unfold Version4.execute_custom|unfold Version4.execute_yaml];
      unfold Version4.login_required; destruct (current_user r) as [u|];
      first [apply Hgate|reflexivity].
Qed.

(** [disconnect_cluster] pops the four connection keys of the session and
    keeps [last_output]; afterwards the session is not connected.  It
    starts no process and leaves the kubeconfig that connecting wrote, the
    environment and the files as they are. *)
Theorem disconnect_cluster_forgets_the_connection h r w :
  In h [Version2.disconnect_cluster; Version4.disconnect_cluster] →
  let w' := (h r w).2 in
  (current_user r = None ∧ h = Version4.disconnect_cluster
   ∨ session (web_state w') = popped (session (web_state w)) ∧ disconnected w') ∧
  procs w' = procs w ∧ kubeconfig w' = kubeconfig w ∧ environ w' = environ w ∧
  files w' = files w.
Proof.
  cbv zeta. intros [<-|[<-|[]]].
  - split; [right|]; repeat split.
  - unfold Version4.disconnect_cluster, Version4.login_required, Version4.log_audit_action.
    destruct (current_user r) as [u|].
    + split; [right|]; repeat split.
    + split; [left|]; repeat split.
Qed.

(** ** Handlers that always answer *)

Lemma yields_ret {A} (P : A → Prop) a : P a → yields P (ret a).
Proof. intros H w. exists a. split; [reflexivity|exact H]. Qed.

Lemma yields_bind {A B} (P : B → Prop) (m : M A) (k : A → M B) :
  yields (fun _ => True) m → (∀ a, yields P (k a)) → yields P (bind m k).
Proof.
  intros Hm Hk w. rewrite bind_eq. destruct (Hm w) as (a & Ha & _).
  destruct (m w) as [o w1]. cbn [fst] in Ha. subst o. apply Hk.
Qed.

Lemma yields_try_except {A} (P : A → Prop) (m : M A) (k : exn → M A) :
  bounded m → (∀ a w, (m w).1 = Ret a → P a) → (∀ e, yields P (k e)) →
  yields P (try_except m (fun e => Some (k e))).
Proof.
  intros Hb Hm Hk w. unfold try_except. specialize (Hb w).
  pose proof (fun a => Hm a w) as Hm'. clear Hm.
  destruct (m w) as [[a|e|] w1]; cbn [fst] in *.
  - exists a. split; [reflexivity|apply Hm'; reflexivity].
  - apply Hk.
  - contradiction.
Qed.

Lemma yields_gets {A} (f : world → A) : yields (fun _ => True) (gets f).
Proof. intros w. eexists. split; [reflexivity|exact I]. Qed.

Lemma yields_modify f : yields (fun _ => True) (modify f).
Proof. intros w. eexists. split; [reflexivity|exact I]. Qed.

Lemma yields_log_audit_action r a b c d e f g h :
  yields (fun _ => True) (Version4.log_audit_action r a b c d e f g h).
Proof.
  unfold Version4.log_audit_action. destruct (current_user r); [|apply yields_ret; exact I].
  apply yields_bind; [apply yields_gets|intros now].
  apply yields_bind; [apply yields_modify|intros _; apply yields_modify].
Qed.

Ltac yields_report :=
  repeat lazymatch goal with
         | |- yields _ (bind _ _) => apply yields_bind; [|intros ?]
         | |- yields _ (ret _) => apply yields_ret; try exact I; try reflexivity
         | |- yields _ (flash _ _) => apply yields_modify
         | |- yields _ (set_last_output _) => apply yields_modify
         | |- yields _ (kill _) => apply yields_modify
         | |- yields _ (Version4.log_audit_action _ _ _ _ _ _ _ _ _) =>
             apply yields_log_audit_action
         | |- yields _ (gets _) => apply yields_gets
         | |- yields _ (session_cluster_name) => apply yields_gets
         | |- yields _ (modify _) => apply yields_modify
         end.

Ltac bounded_body :=
  repeat lazymatch goal with
         | |- bounded (bind _ _) => apply bounded_bind; [|intros ?]
         | |- bounded (ret _) => apply bounded_ret
         | |- bounded (flash _ _) => apply bounded_flash
         | |- bounded (set_last_output _) => apply bounded_set_last_output
         | |- bounded (kill _) => apply bounded_modify
         | |- bounded (Version4.log_audit_action _ _ _ _ _ _ _ _ _) =>
             apply bounded_log_audit_action
         | |- bounded (gets _) => apply bounded_gets
         | |- bounded (session_cluster_name) => apply bounded_gets
         | |- bounded (modify _) => apply bounded_modify
         | |- bounded (returncode _) => apply bounded_gets
         | |- bounded (Popen _ _) => apply bounded_Popen
         | |- bounded (communicate _ _ _ (Some _)) => apply bounded_communicate
         | |- bounded (Version2.execute_kubectl_command _) =>
             apply bounded_execute_kubectl_command
         | |- bounded (Version4.execute_kubectl_command _) =>
             apply bounded_execute_kubectl_command
         | |- bounded (if ?c then _ else _) => destruct c
         | |- bounded (let '(_, _) := ?p in _) => destruct p
         | |- bounded (try_except _ _) =>
             apply bounded_try_except; [|intros [] ? [= <-]]
         end.

(** [execute_custom] and [execute_yaml], in version 2 and in version 4,
    answer every request on every machine with a redirect: they never block
    and never let an exception escape, whatever kubectl does. *)
Theorem timed_handlers_always_answer h r w :
  In h [Version2.execute_custom; Version2.execute_yaml;
        Version4.execute_custom; Version4.execute_yaml] →
  ∃ page, (h r w).1 = Ret (url_for page) ∧ (page = "index" ∨ page = "login").
Proof.
  intros Hin.
  assert (H : yields (fun a => ∃ page, a = url_for page ∧ (page = "index" ∨ page = "login"))
                (h r)).
  2:{ destruct (H w) as (a & Ha & page & -> & Hp). exists page. auto. }
  assert (Hindex : ∃ page, url_for "index" = url_for page ∧ (page = "index" ∨ page = "login"))
    by (exists "index"; auto).
  assert (Hlogin : ∃ page, url_for "login" = url_for page ∧ (page = "index" ∨ page = "login"))
    by (exists "login"; auto).
  assert (Htail : ∀ (m : M unit) (k : exn → M unit),
            bounded m → (∀ e, yields (fun _ => True) (k e)) →
            yields (fun a => ∃ page, a = url_for page ∧ (page = "index" ∨ page = "login"))
              (try_except m (fun e => Some (k e)) ;;; ret (url_for "index"))).
  { intros m k Hm Hk. apply yields_bind.
    - apply yields_try_except; [exact Hm|intros; exact I|exact Hk].
    - intros _. apply yields_ret, Hindex. }
  assert (Hflash : ∀ msg cat,
            yields (fun a => ∃ page, a = url_for page ∧ (page = "index" ∨ page = "login"))
              (flash msg cat ;;; ret (url_for "index"))).
  { intros. apply yields_bind; [apply yields_modify|intros _; apply yields_ret, Hindex]. }
  destruct Hin as [<-|[<-|[<-|[<-|[]]]]].
  - unfold Version2.execute_custom.
    apply yields_bind; [apply yields_gets|intros connected].
    destruct (negb connected); [apply Hflash|].
    destruct (negb (truthy _)); [apply Hflash|].
    destruct (negb (startswith _ _)); [apply Hflash|].
    apply Htail; [bounded_body|intros e; yields_report].
  - unfold Version2.execute_yaml.
    apply yields_bind; [apply yields_gets|intros connected].
    destruct (negb connected); [apply Hflash|].
    destruct (negb (truthy _)); [apply Hflash|].
    apply Htail; [bounded_body|intros e; yields_report].
  - unfold Version4.execute_custom, Version4.login_required.
    destruct (current_user r) as [u|].
    2:{ apply yields_bind; [apply yields_modify|intros _; apply yields_ret, Hlogin]. }
    apply yields_bind; [apply yields_gets|intros connected].
    destruct (negb connected); [apply Hflash|].
    destruct (negb (truthy _)); [apply Hflash|].
    destruct (negb (startswith _ _)); [apply Hflash|].
    apply Htail; [bounded_body|intros e; yields_report].
  - unfold Version4.execute_yaml, Version4.login_required.
    destruct (current_user r) as [u|].
    2:{ apply yields_bind; [apply yields_modify|intros _; apply yields_ret, Hlogin]. }
    apply yields_bind; [apply yields_gets|intros connected].
    destruct (negb connected); [apply Hflash|].
    destruct (negb (truthy _)); [apply Hflash|].
    apply Htail; [bounded_body|intros e; yields_report].
Qed.

(** ** version 4: what is audited *)

Lemma split_tokens s : Forall argument (split s).
Proof.
  induction s as [|c s IH]; [apply List.Forall_nil|].
  rewrite split_cons. destruct (isspace c) eqn:Ec; [exact IH|].
  assert (H1 : argument (String c "")).
  { split; [reflexivity|]. cbn [spaceless]. rewrite Ec. reflexivity. }
  destruct s as [|c' s']; [apply List.Forall_cons; [exact H1|apply List.Forall_nil]|].
  destruct (isspace c') eqn:Ec'; [apply List.Forall_cons; assumption|].
  destruct (split (String c' s')) as [|t ts]; [apply List.Forall_cons; assumption|].
  inversion IH as [|? ? [Ht Hs] Hts]; subst.
  apply List.Forall_cons; [|exact Hts].
  split; [reflexivity|]. cbn [spaceless]. rewrite Ec, Hs. reflexivity.
Qed.

Lemma startswith_truthy s c p : startswith s (String c p) = true → truthy s = true.
Proof. destruct s; [discriminate|reflexivity]. Qed.

(** A custom command that passes the gate of [execute_custom] in version 4
    is split at whitespace into the arguments of one process (so no argument
    is empty or contains whitespace), which is waited for 30 seconds and
    killed after that; an argument with a NUL in it starts nothing.  In every
    case one audit row is written: the user, the command as typed, the
    cluster name of the session, the address of the request, the output that
    is also stored as [last_output], and the status "success" exactly when
    kubectl was started and exited within the 30 seconds with status 0 and
    output that can be decoded. *)
Theorem execute_custom_audits_the_command r w u :
  current_user r = Some u →
  connected w →
  startswith (strip (form_get r "custom_command" "")) "kubectl " = true →
  let command := strip (form_get r "custom_command" "") in
  let w' := (Version4.execute_custom r w).2 in
  let b := oracle (host w) (length (procs w)) in
  let ok := negb (embedded_null (split command)) && succeeds_within 30 b in
  head (split command) = Some "kubectl" ∧ Forall argument (split command) ∧
  (if embedded_null (split command) then procs w' = procs w
   else ∃ e, procs w' = procs w ++ [e] ∧ p_argv e = split command ∧
             p_behaviour e = b ∧ p_status e = left_as 30 b) ∧
  ∃ row,
    audit_logs (web_state w') = audit_logs (web_state w) ++ [row] ∧
    al_user_id row = Some (user_id u) ∧ al_action row = "execute_custom" ∧
    al_command row = command ∧
    al_cluster_name row = default "unknown" (cluster_name (session (web_state w))) ∧
    al_ip_address row = remote_addr r ∧ al_timestamp row = utcnow (host w) ∧
    last_output (session (web_state w')) = Some (al_output row) ∧
    al_status row = (if ok then "success" else "failed").
Proof.
  intros Hu Hc Hs. cbv zeta.
  pose proof (startswith_truthy _ _ _ Hs) as Ht.
  pose proof (startswith_kubectl _ Hs) as Hhead.
  pose proof (split_tokens (strip (form_get r "custom_command" ""))) as Htok.
  split; [exact Hhead|]. split; [exact Htok|].
  destruct (Version4.execute_custom r w) as [o w'] eqn:E. cbn [snd].
  unfold Version4.execute_custom, Version4.login_required in E. rewrite Hu in E.
  rewrite bind_eq in E. unfold session_connected at 1 in E. unfold gets at 1 in E.
  cbv beta iota in E. unfold connected in Hc. rewrite Hc, Ht, Hs in E. cbn [negb] in E.
  rewrite bind_eq in E. unfold try_except in E. rewrite bind_eq in E.
  unfold Version4.execute_kubectl_command in E.
  rewrite execute_kubectl_command_eq in E. cbv zeta in E.
  destruct (embedded_null (split (strip (form_get r "custom_command" "")))).
  { report_in E Hu. injection E as <- <-. cbn [negb andb].
    split; [reflexivity|]. eexists. repeat split. }
  cbn [negb andb]. unfold succeeds_within, left_as.
  destruct (oracle (host w) (length (procs w))) as [secs rc out err|secs rc reason| |msg];
    try destruct (secs <=? 30)%nat; try destruct (rc =? 0) eqn:Erc;
    report_in E Hu; injection E as <- <-;
    cbn [procs set_web web_state audit_logs session last_output add_audit add_applog
           add_flash set_session host andb];
    rewrite ?procs_exited, ?web_exited, ?host_exited;
    (split; [eexists; repeat split|eexists; repeat split]).
Qed.

Lemma keeps_bind {A B X} (f : world → X) (m : M A) (k : A → M B) :
  keeps f m → (∀ a, keeps f (k a)) → keeps f (bind m k).
Proof.
  intros Hm Hk w. rewrite bind_eq. specialize (Hm w).
  destruct (m w) as [[a|e|] w1]; cbn [snd] in *; [rewrite Hk|..]; exact Hm.
Qed.

Lemma keeps_try_except {A X} (f : world → X) (m : M A) (h : exn → option (M A)) :
  keeps f m → (∀ e k, h e = Some k → keeps f k) → keeps f (try_except m h).
Proof.
  intros Hm Hh w. unfold try_except. specialize (Hm w).
  destruct (m w) as [[a|e|] w1]; cbn [snd] in *; [exact Hm| |exact Hm].
  destruct (h e) as [k|] eqn:E; [rewrite (Hh e k E)|]; exact Hm.
Qed.

Lemma keeps_Popen {X} (f : web → X) argv env : keeps (f ∘ web_state) (Popen argv env).
Proof.
  intros w. rewrite Popen_eq. destruct (embedded_null argv); [reflexivity|].
  cbv zeta. destruct (oracle _ _); reflexivity.
Qed.

Lemma keeps_communicate {X} (f : web → X) i text input t :
  keeps (f ∘ web_state) (communicate i text input t).
Proof.
  intros w. unfold communicate, compose. destruct (procs w !! i) as [p|]; [|reflexivity].
  cbv zeta.
  destruct (p_behaviour p) as [secs rc out err|secs rc reason| |msg];
    try (destruct (within t secs); [|reflexivity]; cbn [snd];
         destruct (rc =? 0); [rewrite child_effect_web|]; reflexivity);
    destruct t; reflexivity.
Qed.

Lemma keeps_subprocess_run {X} (f : web → X) argv env input capture check t :
  keeps (f ∘ web_state) (subprocess_run argv env input capture check t).
Proof.
  intros w. unfold compose. rewrite subprocess_run_eq.
  destruct (embedded_null argv); [reflexivity|]. cbv zeta.
  destruct (oracle (host w) (length (procs w))) as [secs rc out err|secs rc reason| |msg];
    try (destruct (within t secs); [|reflexivity]; cbn [snd];
         rewrite web_exited; reflexivity);
    try destruct t; reflexivity.
Qed.

Lemma keeps_py_int {X} (f : world → X) s : keeps f (py_int s).
Proof. intros w. rewrite py_int_eq. destruct (Py.int _ s); reflexivity. Qed.

Ltac keeps_body :=
  repeat lazymatch goal with
         | |- keeps _ (bind _ _) => apply keeps_bind; [|intros ?]
         | |- keeps _ (try_except _ _) =>
             apply keeps_try_except; [|intros [] ? [= <-]]
         | |- keeps _ (Popen _ _) => apply keeps_Popen
         | |- keeps _ (communicate _ _ _ _) => apply keeps_communicate
         | |- keeps _ (subprocess_run _ _ _ _ _ _) => apply keeps_subprocess_run
         | |- keeps _ (py_int _) => apply keeps_py_int
         | |- keeps _ (if ?c then _ else _) => destruct c
         | |- keeps _ _ => intros ?; reflexivity
         end.

(** [create_service] of version 4 writes no audit row, whatever the request
    and whatever kubectl does. *)
Theorem create_service_is_not_audited r w :
  audit_logs (web_state (Version4.create_service r w).2) = audit_logs (web_state w).
Proof.
  revert w. change (keeps (audit_logs ∘ web_state) (Version4.create_service r)).
  unfold Version4.create_service, Version4.login_required,
    Version4.generate_service_manifest, Version2.generate_service_manifest.
  destruct (current_user r) as [u|]; keeps_body.
Qed.

(** ** get_resources and execute_yaml *)

(** [get_resources], which version 4 does not put behind a login: without a
    connected session it answers 400 and does nothing; with one it starts
    [kubectl get type -n namespace -o json] once, never leaves it running,
    leaves the session and the flashed messages alone, and answers 200 with
    the output for exit status 0 within 30 seconds, 400 with stderr or the
    timeout text for another status or a kubectl that takes longer, and 500
    with the text of the exception when kubectl cannot be started, when its
    output cannot be decoded, and when the type or the namespace holds a NUL,
    in which case nothing is started. *)
Theorem get_resources_status r w :
  let b := oracle (host w) (length (procs w)) in
  let '(o, w') := Version4.get_resources r w in
  web_state w' = web_state w ∧
  if default false (cluster_connected (session (web_state w))) then
    (if embedded_null (resources_cmd r) then procs w' = procs w
     else ∃ e, procs w' = procs w ++ [e] ∧ p_argv e = resources_cmd r ∧ p_env e = None ∧
               p_status e = left_as 30 b ∧ p_status e ≠ Running) ∧
    o = if embedded_null (resources_cmd r)
        then Ret (json_error "embedded null byte", 500)
        else match b with
             | Exits secs rc out err =>
                 if (secs <=? 30)%nat then
                   if rc =? 0
                   then Ret (VDict [("success", VBool true); ("data", VStr out)], 200)
                   else Ret (json_error err, 400)
                 else Ret (json_error timed_out, 400)
             | Garbles secs rc reason =>
                 if (secs <=? 30)%nat then Ret (json_error reason, 500)
                 else Ret (json_error timed_out, 400)
             | NeverExits => Ret (json_error timed_out, 400)
             | CannotStart msg => Ret (json_error msg, 500)
             end
  else w' = w ∧ o = Ret (json_error "Not connected to cluster", 400).
Proof.
  cbv zeta. destruct (Version4.get_resources r w) as [o w'] eqn:E.
  unfold Version4.get_resources, Version2.get_resources in E.
  rewrite bind_eq in E. unfold session_connected at 1 in E. unfold gets at 1 in E.
  cbv beta iota in E.
  destruct (default false (cluster_connected (session (web_state w)))); cbn [negb] in E.
  2:{ injection E as <- <-. repeat split. }
  unfold try_except in E. rewrite bind_eq, execute_kubectl_command_eq in E. cbv zeta in E.
  fold (resources_cmd r) in E.
  destruct (embedded_null (resources_cmd r)).
  { rewrite bind_eq in E. unfold gets, ret in E. cbv beta iota in E.
    injection E as <- <-. repeat split. }
  unfold left_as.
  destruct (oracle (host w) (length (procs w))) as [secs rc out err|secs rc reason| |msg];
    try destruct (secs <=? 30)%nat; try destruct (rc =? 0);
    try (rewrite bind_eq in E; unfold gets, ret in E); cbv beta iota in E;
    injection E as <- <-; rewrite ?web_exited, ?procs_exited;
    (split; [reflexivity|]); (split; [|reflexivity]);
    eexists; repeat split; discriminate.
Qed.

Ltac yaml_entry E Hu :=
  report_in E Hu; injection E as <- <-;
  cbn [procs set_web web_state session last_output];
  rewrite ?procs_exited;
  eexists; (split; [reflexivity|]); repeat split;
  try discriminate; try contradiction; try congruence.

(** [execute_yaml], in version 2 and for a logged-in user in version 4, with
    a connected session and a manifest that is not blank starts
    [kubectl apply -f -] once, with [-n namespace] appended exactly when the
    namespace field is not blank, in the server's own environment; it gives
    it the stripped manifest with a timeout of 60 seconds, never leaves it
    running, and stores "Command timed out" when it killed it.  A namespace
    with a NUL in it starts nothing, and the text of the exception is
    stored. *)
Theorem execute_yaml_feeds_the_stripped_text h r w :
  h = Version2.execute_yaml ∨ h = Version4.execute_yaml ∧ is_Some (current_user r) →
  connected w →
  truthy (strip (form_get r "custom_yaml" "")) = true →
  let w' := (h r w).2 in
  let cmd := yaml_cmd (strip (form_get r "yaml_namespace" "")) in
  if embedded_null cmd then
    procs w' = procs w ∧
    last_output (session (web_state w')) = Some "embedded null byte"
  else
    ∃ e, procs w' = procs w ++ [e] ∧ p_argv e = cmd ∧
         p_env e = None ∧ p_status e ≠ Running ∧
         (p_status e ≠ NotStarted →
          p_input e = Some (strip (form_get r "custom_yaml" "")) ∧ p_limit e = Some 60%nat) ∧
         (p_status e = Killed →
          last_output (session (web_state w')) = Some "Command timed out").
Proof.
  intros Hin Hc Hy. cbv zeta. unfold connected in Hc.
  destruct (h r w) as [o w'] eqn:E. cbn [snd].
  assert (Hu : ∃ u, h = Version2.execute_yaml ∨
                    h = Version4.execute_yaml ∧ current_user r = Some u).
  { destruct Hin as [->|[-> [u Hu]]]; [exists alice; left; reflexivity|].
    exists u. right. split; [reflexivity|exact Hu]. }
  clear Hin. destruct Hu as (u & [->|[-> Hu]]);
    [unfold Version2.execute_yaml in E
    |unfold Version4.execute_yaml, Version4.login_required in E; rewrite Hu in E].
  all: rewrite bind_eq in E; unfold session_connected at 1 in E; unfold gets at 1 in E;
    cbv beta iota in E; rewrite Hc, Hy in E; cbn [negb] in E.
  all: rewrite bind_eq in E; unfold try_except at 1 in E; rewrite bind_eq in E;
    fold manifest_cmd in E; fold (yaml_cmd (strip (form_get r "yaml_namespace" ""))) in E;
    rewrite Popen_eq in E; cbv zeta in E.
  all: destruct (embedded_null (yaml_cmd (strip (form_get r "yaml_namespace" ""))));
    [report_in E Hu; injection E as <- <-; split; reflexivity|].
  all: destruct (oracle (host w) (length (procs w))) as [secs rc out err|secs rc reason| |msg];
    cbv beta iota in E.
  (* kubectl cannot be started *)
  4,8: yaml_entry E Hu.
  (* kubectl never exits: it is killed after 60 seconds *)
  3,6: unfold try_except in E; rewrite bind_eq, communicate_eq in E; cbv beta iota zeta in E;
    rewrite bind_eq, kill_eq in E; yaml_entry E Hu.
  (* kubectl exits, in time or not *)
  all: unfold try_except in E; rewrite bind_eq, communicate_eq in E; cbn [within] in E;
    destruct (secs <=? 60)%nat; cbv beta iota zeta in E.
  2,4,6,8: rewrite bind_eq, kill_eq in E; yaml_entry E Hu.
  (* its output cannot be decoded *)
  2,4: yaml_entry E Hu.
  all: rewrite bind_eq, returncode_exited in E; cbv beta iota in E.
  all: destruct (iszero (Some rc)); yaml_entry E Hu.
Qed.

(** ** Connecting *)

Lemma checked_run_step argv w :
  if embedded_null argv
  then subprocess_run argv None None true true None w
       = (Raise (ValueError "embedded null byte"), w)
  else ∃ e, procs (subprocess_run argv None None true true None w).2 = procs w ++ [e] ∧
            p_argv e = argv ∧
            checked_end (subprocess_run argv None None true true None w).1 e.
Proof.
  rewrite subprocess_run_eq. destruct (embedded_null argv); [reflexivity|]. cbv zeta.
  destruct (oracle (host w) (length (procs w))) as [secs rc out err|secs rc reason| |msg].
  - cbn [within andb fst snd]. rewrite procs_exited. unfold completed. cbn [andb].
    destruct (rc =? 0) eqn:Erc; cbn [negb].
    + apply Z.eqb_eq in Erc. subst rc.
      eexists. split; [reflexivity|]. split; [reflexivity|].
      split; [reflexivity|]. eexists _, _. reflexivity.
    + eexists. split; [reflexivity|]. split; [reflexivity|].
      split; [reflexivity|]. split; [intros ->; discriminate Erc|].
      eexists _, _. reflexivity.
  - cbn [within fst snd]. rewrite procs_exited.
    eexists. split; [reflexivity|]. split; [reflexivity|].
    eexists _, _. split; reflexivity.
  - eexists. repeat split.
  - eexists. repeat split.
Qed.

Ltac checked_step E e Hp Ha Hend Hnul :=
  rewrite bind_eq in E;
  match type of E with
  | context [subprocess_run ?argv None None true true None ?w0] =>
      pose proof (checked_run_step argv w0) as Hp;
      destruct (embedded_null argv) eqn:Hnul;
      [ rewrite Hp in E; clear Hp
      | destruct Hp as (e & Hp & Ha & Hend);
        destruct (subprocess_run argv None None true true None w0) as [[?cp|[]|] ?w];
        cbn [fst snd checked_end] in Hp, Hend; try contradiction ]
  end.

(** The entries [done] succeeded and were the first commands, in order. *)
Ltac validated_so_far done :=
  match goal with
  | E : _ = (_, _) |- _ => injection E as <- <-
  end;
  exists done;
  split; [repeat (apply List.Forall_cons; [tauto|]); apply List.Forall_nil|];
  split; [cbn [fmap list_fmap app length take connect_cmds];
          repeat match goal with H : p_argv _ = _ |- _ => rewrite H; clear H end;
          reflexivity|].

Ltac validated_here done e :=
  validated_so_far done;
  left; exists e;
  split; [repeat match goal with H : procs _ = _ |- _ => rewrite H; clear H end;
          rewrite <- ?app_assoc; reflexivity|];
  split; [cbn [length connect_cmds lookup list_lookup];
          repeat match goal with H : p_argv _ = _ |- _ => rewrite H; clear H end;
          reflexivity|];
  cbn [validated];
  repeat match goal with H : _ ∧ _ |- _ => destruct H end;
  repeat match goal with H : ∃ _, _ |- _ => destruct H end;
  eauto 10.

Ltac refused_here done :=
  validated_so_far done;
  right;
  split; [repeat match goal with H : procs _ = _ |- _ => rewrite H; clear H end;
          rewrite <- ?app_assoc, ?app_nil_r; reflexivity|];
  split; [reflexivity|];
  eexists; split; [reflexivity|assumption].

(** [validate_cluster_connection] runs its five commands in order and stops
    at the first that does not exit with status 0: all commands started
    before the last one have succeeded; it returns [True] and the output of
    [kubectl get nodes] only after all five succeeded, and [False] with the
    stderr of the command that failed; a kubectl that cannot be started or
    whose output cannot be decoded makes it raise, and one that never exits
    makes it wait forever.  A command with a NUL in one of its arguments is
    not started: [ValueError] is raised in its place, after the commands
    before it have succeeded.  The second command carries the token on its
    command line. *)
Theorem validate_stops_at_first_failure endpoint token name w :
  let cmds := connect_cmds endpoint token name in
  let '(o, w') := Version2.validate_cluster_connection endpoint token name w in
  ∃ done,
    Forall (fun p => p_status p = Exited 0) done ∧
    p_argv <$> done = take (length done) cmds ∧
    ((∃ e, procs w' = procs w ++ done ++ [e] ∧
           cmds !! length done = Some (p_argv e) ∧
           validated o done e) ∨
     (procs w' = procs w ++ done ∧
      o = Raise (ValueError "embedded null byte") ∧
      ∃ cmd, cmds !! length done = Some cmd ∧ embedded_null cmd = true)).
Proof.
  cbv zeta.
  destruct (Version2.validate_cluster_connection endpoint token name w) as [o w'] eqn:E.
  unfold Version2.validate_cluster_connection, try_except in E. cbv zeta in E.
  checked_step E e1 Hp1 Ha1 H1 N1; [refused_here (@nil proc)| |validated_here (@nil proc) e1..].
  checked_step E e2 Hp2 Ha2 H2 N2; [refused_here [e1]| |validated_here [e1] e2..].
  checked_step E e3 Hp3 Ha3 H3 N3; [refused_here [e1; e2]| |validated_here [e1; e2] e3..].
  checked_step E e4 Hp4 Ha4 H4 N4;
    [refused_here [e1; e2; e3]| |validated_here [e1; e2; e3] e4..].
  checked_step E e5 Hp5 Ha5 H5 N5;
    [refused_here [e1; e2; e3; e4]|validated_here [e1; e2; e3; e4] e5..].
Qed.

Lemma validate_keeps_web endpoint token name :
  keeps (id ∘ web_state) (Version2.validate_cluster_connection endpoint token name).
Proof. unfold Version2.validate_cluster_connection. cbv zeta. keeps_body. Qed.

(** [connect_cluster], in version 2 and in version 4, either leaves the
    session as it is, or stores the stripped endpoint, name and token, none
    of them empty, after [validate_cluster_connection] returned [True]. *)
Theorem connect_cluster_stores_only_validated h r w :
  In h [Version2.connect_cluster; Version4.connect_cluster] →
  let endpoint := strip (form_get r "endpoint" "") in
  let name := strip (form_get r "cluster_name" "") in
  let token := strip (form_get r "token" "") in
  let s := session (web_state w) in
  let s' := session (web_state (h r w).2) in
  s' = s ∨
  s' = connected_to endpoint name token s ∧
  truthy endpoint && truthy name && truthy token = true ∧
  ∃ out, (Version2.validate_cluster_connection endpoint token name w).1 = Ret (true, out).
Proof.
  intros Hin. cbv zeta.
  assert (Hcore : ∀ (ok fail : string → M unit),
    (∀ out w0, session (web_state (ok out w0).2)
               = connected_to (strip (form_get r "endpoint" ""))
                   (strip (form_get r "cluster_name" "")) (strip (form_get r "token" ""))
                   (session (web_state w0))) →
    (∀ out, keeps (session ∘ web_state) (fail out)) →
    let m :=
      if negb (truthy (strip (form_get r "endpoint" ""))
               && truthy (strip (form_get r "cluster_name" ""))
               && truthy (strip (form_get r "token" ""))) then
        flash "All cluster connection fields are required" "error" ;;;
        ret (url_for "index")
      else
        res <~ Version2.validate_cluster_connection (strip (form_get r "endpoint" ""))
                 (strip (form_get r "token" "")) (strip (form_get r "cluster_name" "")) ;;
        let '(success, output) := res in
        (if success : bool then ok output else fail output) ;;;
        ret (url_for "index") in
    session (web_state (m w).2) = session (web_state w) ∨
    session (web_state (m w).2)
      = connected_to (strip (form_get r "endpoint" ""))
          (strip (form_get r "cluster_name" "")) (strip (form_get r "token" ""))
          (session (web_state w)) ∧
    truthy (strip (form_get r "endpoint" "")) && truthy (strip (form_get r "cluster_name" ""))
      && truthy (strip (form_get r "token" "")) = true ∧
    ∃ out, (Version2.validate_cluster_connection (strip (form_get r "endpoint" ""))
              (strip (form_get r "token" "")) (strip (form_get r "cluster_name" "")) w).1
           = Ret (true, out)).
  { intros ok fail Hok Hfail. cbv zeta.
    destruct (truthy _ && truthy _ && truthy _); cbn [negb]; [|left; reflexivity].
    rewrite bind_eq.
    pose proof (validate_keeps_web (strip (form_get r "endpoint" ""))
                  (strip (form_get r "token" "")) (strip (form_get r "cluster_name" "")) w)
      as Hw.
    unfold compose, id in Hw.
    destruct (Version2.validate_cluster_connection _ _ _ w) as [[[[] out]|e|] w1];
      cbn [fst snd] in *.
    - right. split; [|split; [reflexivity|eauto]].
      rewrite bind_eq. specialize (Hok out w1). rewrite Hw in Hok.
      destruct (ok out w1) as [[[]|e|] w2]; exact Hok.
    - left. rewrite bind_eq. pose proof (Hfail out w1) as Hf. unfold compose in Hf.
      rewrite Hw in Hf. destruct (fail out w1) as [[[]|e|] w2]; exact Hf.
    - left. rewrite Hw. reflexivity.
    - left. rewrite Hw. reflexivity. }
  destruct Hin as [<-|[<-|[]]].
  - unfold Version2.connect_cluster. cbv zeta. apply Hcore.
    + intros out w0. reflexivity.
    + intros out. keeps_body.
  - unfold Version4.connect_cluster, Version4.login_required, Version4.log_audit_action.
    destruct (current_user r) as [u|]; [|left; reflexivity].
    cbv zeta. unfold Version4.validate_cluster_connection. apply Hcore.
    + intros out w0. reflexivity.
    + intros out. keeps_body.
Qed.

(** ** A Service for a Deployment *)

(** A Service rendered for the name of a Deployment selects the pods of that
    Deployment and has its name; the type is passed on as given, the two
    ports are the parsed integers, and rendering changes nothing. *)
Theorem service_selects_the_deployment name image replicas port ns sport target ty sns
    w d w1 s w2 :
  Version4.generate_deployment_manifest name image replicas port ns w = (Ret d, w1) →
  Version4.generate_service_manifest name sport target ty sns w1 = (Ret s, w2) →
  w2 = w ∧
  get [Key "spec"; Key "selector"; Key "app"] s
    = get [Key "spec"; Key "template"; Key "metadata"; Key "labels"; Key "app"] d ∧
  get [Key "metadata"; Key "name"] s = get [Key "metadata"; Key "name"] d ∧
  get [Key "kind"] s = Some (VStr "Service") ∧
  get [Key "spec"; Key "type"] s = Some (VStr ty) ∧
  ∃ p t, Py.int (int_max_str_digits (host w)) sport = inl p ∧
         Py.int (int_max_str_digits (host w)) target = inl t ∧
         get [Key "spec"; Key "ports"] s
           = Some (VList [VDict [("port", VInt p); ("targetPort", VInt t)]]).
Proof.
  unfold Version4.generate_deployment_manifest, Version4.generate_service_manifest.
  rewrite generate_deployment_manifest_eq.
  destruct (Py.int _ replicas) as [n|]; [|discriminate].
  destruct (Py.int _ port) as [q|]; [|discriminate].
  intros [= <- <-]. rewrite generate_service_manifest_eq.
  destruct (Py.int _ sport) as [p|]; [|discriminate].
  destruct (Py.int _ target) as [t|]; [|discriminate].
  intros [= <- <-]. repeat split. exists p, t. repeat split.
Qed.

(** ** The theorems at work on concrete requests *)

(** [rm -rf /] as a custom command. *)
Lemma untrusted_command_rejected_witness :
  let r := custom_form "rm -rf /" in
  let w := machine (fun _ => succeeds) None connected_session in
  head (split (form_get r "custom_command" "")) ≠ Some "kubectl" ∧
  procs (Version2.execute_custom r w).2 = procs w ∧
  procs (Version4.execute_custom r w).2 = procs w ∧
  flashes (web_state (Version4.execute_custom r w).2) = [rejected].
Proof.
  cbv zeta.
  assert (H : head (split (form_get (custom_form "rm -rf /") "custom_command" ""))
              ≠ Some "kubectl") by (vm_compute; discriminate).
  destruct (untrusted_command_rejected (custom_form "rm -rf /")
              (machine (fun _ => succeeds) None connected_session) H)
    as [[H2 H4] Hf].
  split; [exact H|]. split; [exact H2|]. split; [exact H4|].
  destruct Hf as [_ Hf]; [reflexivity|vm_compute; discriminate|].
  rewrite Hf by (eexists; reflexivity). reflexivity.
Defined.


(** A Deployment with three replicas in version 2 and 4, and with the
    replicas [lots] in version 1. *)
Lemma replicas_rendering_witness :
  let r := deployment_form "3" in
  let w := machine (fun _ => succeeds) None connected_session in
  let r1 := deploy_form "lots" in
  let w1 := machine (fun _ => succeeds) None empty_session in
  (connected w ∧ current_user r = Some alice ∧
   lacks r1 ["api"; "token"; "name"; "image"] = false) ∧
  renders_replicas Version2.create_deployment r w ∧
  renders_replicas Version4.create_deployment r w ∧
  interpolated "  replicas: lots" (Version1.deployment_yaml "web" "nginx:1.25" "lots") ∧
  ∃ probe apply,
    procs (Version1.deploy r1 w1).2 = procs w1 ++ [probe; apply] ∧
    (p_status apply ≠ NotStarted →
     p_input apply = Some (Version1.deployment_yaml "web" "nginx:1.25" "lots")).
Proof.
  cbv zeta.
  destruct (replicas_rendering (deployment_form "3")
              (machine (fun _ => succeeds) None connected_session) alice
              (deploy_form "lots") (machine (fun _ => succeeds) None empty_session)
              "/tmp/kubeconf_k3x9q2ab.yaml" [] 1%nat "ok" "") as (H2 & H4 & H1).
  split; [repeat split|].
  split; [exact (H2 eq_refl eq_refl eq_refl)|].
  split; [exact (H4 eq_refl eq_refl eq_refl eq_refl)|].
  destruct (H1 eq_refl eq_refl eq_refl eq_refl eq_refl eq_refl)
    as (Hi & probe & apply & Hp & _ & _ & Hin).
  split; [exact Hi|]. exists probe, apply. split; [exact Hp|exact Hin].
Defined.

(** A Service on port 8080 without a target port, in version 2 and 4 and in
    version 1. *)
Lemma target_port_default_witness :
  let r := service_form in
  let w := machine (fun _ => succeeds) None connected_session in
  let r1 := post [("api", "https://k8s.example"); ("token", "tok"); ("name", "web");
                  ("port", "8080")] in
  let w1 := machine (fun _ => succeeds) None empty_session in
  (connected w ∧ current_user r = Some alice ∧ form r !! "service_target_port" = None ∧
   lacks r1 ["api"; "token"; "name"] = false) ∧
  renders_ports Version2.create_service r w ∧
  renders_ports Version4.create_service r w ∧
  Py.int (int_max_str_digits (host w)) (form_get r "service_target_port" "80") = inl 80 ∧
  interpolated "      targetPort: 8080" (Version1.service_yaml "web" "8080" "8080") ∧
  ∃ probe apply,
    procs (Version1.service r1 w1).2 = procs w1 ++ [probe; apply] ∧
    (p_status apply ≠ NotStarted →
     p_input apply = Some (Version1.service_yaml "web" "8080" "8080")).
Proof.
  cbv zeta.
  destruct (target_port_default service_form
              (machine (fun _ => succeeds) None connected_session) alice
              (post [("api", "https://k8s.example"); ("token", "tok"); ("name", "web");
                     ("port", "8080")])
              (machine (fun _ => succeeds) None empty_session)
              "/tmp/kubeconf_k3x9q2ab.yaml" [] 1%nat "ok" "") as (H2 & H4 & Hd & H1).
  split; [repeat split|].
  split; [exact (H2 eq_refl eq_refl)|].
  split; [exact (H4 eq_refl eq_refl eq_refl)|].
  split; [exact (Hd eq_refl)|].
  destruct (H1 eq_refl eq_refl eq_refl eq_refl eq_refl eq_refl)
    as (_ & Hi & probe & apply & Hp & _ & _ & Hin).
  split; [exact Hi|]. exists probe, apply. split; [exact Hp|exact Hin].
Defined.


(** kubectl is installed to /tmp/kubectl by the script. *)
Lemma kubectl_path_result_is_found_witness :
  ∃ w', Version1.kubectl_path unprovisioned = (Ret "/tmp/kubectl", w') ∧
        Version1.is_executable "/tmp/kubectl" w' = true.
Proof.
  destruct (Version1.kubectl_path unprovisioned) as [o w'] eqn:E.
  assert (Ho : o = Ret "/tmp/kubectl").
  { apply (f_equal fst) in E. cbn [fst] in E. rewrite <- E. vm_compute. reflexivity. }
  subst o. exists w'. split; [reflexivity|].
  destruct (kubectl_path_result_is_found unprovisioned "/tmp/kubectl" w' E)
    as [_ [Hp|[_ Hx]]]; [|exact Hx].
  apply (f_equal snd) in E. cbn [snd] in E. rewrite <- E in Hp.
  vm_compute in Hp. discriminate Hp.
Defined.

(** A custom manifest of two spaces. *)
Lemma blank_fields_are_refused_witness :
  let r := post [("api", "https://k8s.example"); ("token", "tok"); ("yaml", "  ")] in
  let w := machine (fun _ => succeeds) None empty_session in
  In (Version1.custom, ["api"; "token"; "yaml"], "api, token and yaml are required") forms ∧
  lacks r ["api"; "token"; "yaml"] = true ∧
  Version1.custom r w = (Ret (Version1.Text "api, token and yaml are required" 400), w).
Proof.
  cbv zeta.
  assert (Hin : In (Version1.custom, ["api"; "token"; "yaml"],
                    "api, token and yaml are required") forms)
    by (right; right; left; reflexivity).
  split; [exact Hin|]. split; [vm_compute; reflexivity|].
  exact (blank_fields_are_refused _ _ _
           (post [("api", "https://k8s.example"); ("token", "tok"); ("yaml", "  ")])
           (machine (fun _ => succeeds) None empty_session) Hin).
Defined.

(** A delete on a machine without kubectl and without the script. *)
Lemma missing_kubectl_is_reported_witness :
  let r := post [("api", "https://k8s.example"); ("token", "tok");
                 ("kind", "pod"); ("name", "web")] in
  ∃ yaml kind name,
    Version1.delete r bare_machine
    = (Ret (Version1.ResultPage yaml false ""
              "kubectl not found. Please install kubectl or make install_kubectl.sh executable."
              kind name), bare_machine).
Proof.
  cbv zeta.
  refine (missing_kubectl_is_reported Version1.delete ["api"; "token"; "kind"; "name"]
            "api, token, kind and name are required" _ bare_machine Version1.not_found
            bare_machine _ _ _).
  - right; right; right; left; reflexivity.
  - vm_compute; reflexivity.
  - vm_compute; reflexivity.
Defined.


(** After a delete the temporary kubeconfig is gone. *)
Lemma handlers_remove_kubeconfig_witness :
  let w := machine (fun _ => succeeds) None empty_session in
  files (Version1.delete delete_form w).2 !! "/tmp/kubeconf_k3x9q2ab.yaml" = None.
Proof.
  cbv zeta.
  rewrite (handlers_remove_kubeconfig Version1.delete delete_form
             (machine (fun _ => succeeds) None empty_session)).
  - reflexivity.
  - right; right; right; left; reflexivity.
  - reflexivity.
  - vm_compute. discriminate.
  - discriminate.
Defined.

(** The install script survives the writing of a kubeconfig. *)
Lemma build_kubeconfig_spares_existing_files_witness :
  let w := unprovisioned in
  files (Version1.build_kubeconfig "https://k8s.example" "tok" "default" false None w).2
    !! "/app/install_kubectl.sh" = files w !! "/app/install_kubectl.sh".
Proof.
  cbv zeta.
  apply (build_kubeconfig_spares_existing_files "https://k8s.example" "tok" "default" false
           None unprovisioned "/app/install_kubectl.sh").
  vm_compute. eexists. reflexivity.
Defined.

(** The children of a Deployment request. *)
Lemma token_reaches_no_child_witness :
  let w := machine (fun _ => succeeds) None empty_session in
  length (started_by (Version1.deploy (with_token "another" (deploy_form "2"))) w) = 2%nat ∧
  Forall (token_free (deploy_form "2") w)
    (started_by (Version1.deploy (with_token "another" (deploy_form "2"))) w).
Proof.
  cbv zeta. split; [vm_compute; reflexivity|].
  refine (token_reaches_no_child Version1.deploy _ _ (deploy_form "2") "another"
            (machine (fun _ => succeeds) None empty_session) _).
  left; reflexivity.
Defined.

(** A manifest sent without a login. *)
Lemma anonymous_requests_go_to_login_witness :
  let r := anonymous [("custom_yaml", "kind: Pod")] in
  let w := machine (fun _ => succeeds) None connected_session in
  Version4.execute_yaml r w
  = (Ret (url_for "login"), flashed "Please log in to access this page." "message" w).
Proof.
  cbv zeta.
  refine (anonymous_requests_go_to_login Version4.execute_yaml _ _ _ _).
  - unfold actions4. do 5 right. left. reflexivity.
  - reflexivity.
Defined.

(** A custom command before connecting. *)
Lemma disconnected_actions_are_turned_away_witness :
  let w := machine (fun _ => succeeds) None empty_session in
  disconnected w ∧
  Version2.execute_custom (anonymous [("custom_command", "kubectl get pods")]) w
    = (Ret (url_for "index"), flashed "Please connect to a cluster first" "error" w) ∧
  Version4.execute_custom (custom_form "kubectl get pods") w
    = (Ret (url_for "index"), flashed "Please connect to a cluster first" "error" w).
Proof.
  cbv zeta. split; [reflexivity|]. split.
  - refine (proj1 (disconnected_actions_are_turned_away Version2.execute_custom
                     (anonymous [("custom_command", "kubectl get pods")])
                     (machine (fun _ => succeeds) None empty_session) eq_refl) _).
    unfold actions2. do 2 right. left. reflexivity.
  - refine (proj2 (disconnected_actions_are_turned_away Version4.execute_custom
                     (custom_form "kubectl get pods")
                     (machine (fun _ => succeeds) None empty_session) eq_refl) _).
    unfold actions4. do 2 right. left. reflexivity.
Defined.

(** Disconnecting from [prod]. *)
Lemma disconnect_cluster_forgets_the_connection_witness :
  let w := machine (fun _ => succeeds) None connected_session in
  let w' := (Version4.disconnect_cluster (post []) w).2 in
  cluster_token (session (web_state w')) = None ∧ procs w' = procs w.
Proof.
  cbv zeta.
  pose proof (disconnect_cluster_forgets_the_connection Version4.disconnect_cluster
                (post []) (machine (fun _ => succeeds) None connected_session)
                (or_intror (or_introl eq_refl))) as H.
  cbv zeta in H. destruct H as ([[H _]|[Hs _]] & Hp & _).
  - discriminate H.
  - split; [rewrite Hs; reflexivity|exact Hp].
Defined.

(** A manifest applied with a kubectl that never exits. *)
Lemma timed_handlers_always_answer_witness :
  let w := machine (fun _ => NeverExits) None connected_session in
  ∃ page, (Version2.execute_yaml (post [("custom_yaml", "kind: Pod")]) w).1
          = Ret (url_for page) ∧ (page = "index" ∨ page = "login").
Proof.
  cbv zeta.
  apply (timed_handlers_always_answer Version2.execute_yaml).
  right; left; reflexivity.
Defined.

(** A selector with spaces in it is split into four arguments. *)
Lemma execute_custom_audits_the_command_witness :
  let r := custom_form "kubectl get pods -l 'app in (a, b)'" in
  let w := machine (fun _ => succeeds) None connected_session in
  let w' := (Version4.execute_custom r w).2 in
  ∃ e row, procs w' = procs w ++ [e] ∧
           p_argv e = ["kubectl"; "get"; "pods"; "-l"; "'app"; "in"; "(a,"; "b)'"] ∧
           p_status e = Exited 0 ∧
           audit_logs (web_state w') = [row] ∧
           al_command row = "kubectl get pods -l 'app in (a, b)'" ∧
           al_status row = "success".
Proof.
  cbv zeta.
  destruct (execute_custom_audits_the_command
              (custom_form "kubectl get pods -l 'app in (a, b)'")
              (machine (fun _ => succeeds) None connected_session) alice
              eq_refl eq_refl eq_refl)
    as (_ & _ & Hprocs & row & Hl & _ & _ & Hcmd & _ & _ & _ & _ & Hst).
  change (embedded_null
            (split (strip (form_get (custom_form "kubectl get pods -l 'app in (a, b)'")
                             "custom_command" "")))) with false in Hprocs.
  cbv iota in Hprocs. destruct Hprocs as (e & Hp & Ha & _ & Hs).
  exists e, row. split; [exact Hp|]. split; [exact Ha|]. split; [exact Hs|].
  split; [exact Hl|]. split; [exact Hcmd|exact Hst].
Defined.

(** A manifest for the namespace [staging], in version 4 and in version 2
    without a login. *)
Lemma execute_yaml_feeds_the_stripped_text_witness :
  let r := post [("custom_yaml", "  kind: Pod  "); ("yaml_namespace", " staging ")] in
  let r2 := anonymous [("custom_yaml", "  kind: Pod  "); ("yaml_namespace", " staging ")] in
  let w := machine (fun _ => succeeds) None connected_session in
  (∃ e, procs (Version4.execute_yaml r w).2 = procs w ++ [e] ∧
        p_argv e = ["kubectl"; "apply"; "-f"; "-"; "-n"; "staging"] ∧
        p_status e ≠ Running) ∧
  (∃ e, procs (Version2.execute_yaml r2 w).2 = procs w ++ [e] ∧
        p_argv e = ["kubectl"; "apply"; "-f"; "-"; "-n"; "staging"] ∧
        (p_status e ≠ NotStarted → p_input e = Some "kind: Pod")).
Proof.
  cbv zeta. split.
  - pose proof (execute_yaml_feeds_the_stripped_text Version4.execute_yaml
                  (post [("custom_yaml", "  kind: Pod  "); ("yaml_namespace", " staging ")])
                  (machine (fun _ => succeeds) None connected_session)
                  (or_intror (conj eq_refl (ex_intro _ alice eq_refl))) eq_refl eq_refl) as H.
    cbv zeta in H.
    change (embedded_null (yaml_cmd (strip (form_get _ "yaml_namespace" ""))))
      with false in H.
    cbv iota in H. destruct H as (e & Hp & Ha & _ & Hr & _).
    exists e. split; [exact Hp|]. split; [exact Ha|exact Hr].
  - pose proof (execute_yaml_feeds_the_stripped_text Version2.execute_yaml
                  (anonymous [("custom_yaml", "  kind: Pod  ");
                              ("yaml_namespace", " staging ")])
                  (machine (fun _ => succeeds) None connected_session)
                  (or_introl eq_refl) eq_refl eq_refl) as H.
    cbv zeta in H.
    change (embedded_null (yaml_cmd (strip (form_get _ "yaml_namespace" ""))))
      with false in H.
    cbv iota in H. destruct H as (e & Hp & Ha & _ & _ & Hin & _).
    exists e. split; [exact Hp|]. split; [exact Ha|].
    intros Hs. apply (Hin Hs).
Defined.

(** Connecting to [prod]. *)
Lemma connect_cluster_stores_only_validated_witness :
  let w := machine (fun _ => succeeds) None empty_session in
  session (web_state (Version4.connect_cluster connect_form w).2)
  = connected_to "https://k8s.example" "prod" "tok" empty_session.
Proof.
  cbv zeta.
  destruct (connect_cluster_stores_only_validated Version4.connect_cluster connect_form
              (machine (fun _ => succeeds) None empty_session)
              (or_intror (or_introl eq_refl))) as [Hs|[Hs _]].
  - exfalso. apply (f_equal cluster_connected) in Hs. vm_compute in Hs. discriminate Hs.
  - exact Hs.
Defined.

(** A NodePort Service for the Deployment [web]. *)
Lemma service_selects_the_deployment_witness :
  let w := machine (fun _ => succeeds) None empty_session in
  ∃ d s,
    get [Key "spec"; Key "selector"; Key "app"] s
      = get [Key "spec"; Key "template"; Key "metadata"; Key "labels"; Key "app"] d ∧
    get [Key "spec"; Key "type"] s = Some (VStr "NodePort").
Proof.
  cbv zeta.
  destruct (Version4.generate_deployment_manifest "web" "nginx:1.25" "2" "80" "default"
              (machine (fun _ => succeeds) None empty_session)) as [[d|e|] w1] eqn:Ed;
    [|vm_compute in Ed; discriminate Ed..].
  assert (Hw1 : w1 = machine (fun _ => succeeds) None empty_session)
    by (vm_compute in Ed; injection Ed as _ <-; reflexivity).
  destruct (Version4.generate_service_manifest "web" "8080" "80" "NodePort" "default" w1)
    as [[s|e|] w2] eqn:Es;
    [|subst w1; vm_compute in Es; discriminate Es..].
  destruct (service_selects_the_deployment _ _ _ _ _ _ _ _ _ _ _ _ _ _ Ed Es)
    as (_ & H1 & _ & _ & H2 & _).
  exists d, s. split; assumption.
Defined.
